(** * Excel File Validator: a shallow embedding of the validation engine of [app.py]

    The development follows the source function by function:
    - [Text], [Frame]      : text operations of Python and the loaded tables
    - [ColumnAddressing]   : [column_letter_to_index], [get_excel_column_name]
    - [SheetComparator]    : the per-sheet body of [validate_columns_and_cells]
    - [RowCount]           : the per-sheet body of [validate_row_counts]
    - [Strptime]           : [datetime.strptime] on the patterns of the source
    - [FloatSyntax]        : the texts [float()] converts
    - [DataValidation]     : [validate_data] (format detection, date/time pass,
                             interval detection, numeric region)
    - [GapAnalyzer]        : the analysis part of [find_missing_data]

    Conventions.  Python integers are [Z].  Text is [string]; its characters
    are the code points 0..255.  Instants have the resolution of one second.
    A Python exception that is not caught inside the modelled function is
    [None] in an [option] result.  Streamlit calls and the log of messages
    only display values and are left out. *)

From Stdlib Require Import ZArith List String Ascii Bool Lia Arith.
From Stdlib Require Import Sorting.Sorted Sorting.Permutation.
Import ListNotations.

Open Scope Z_scope.

(** * Text *)

Module Text.

(** [ord] and [chr] of Python, on code points below 256. *)
Definition ord (c : ascii) : Z := Z.of_nat (nat_of_ascii c).
Definition chr (n : Z) : ascii := ascii_of_nat (Z.to_nat n).

Definition between (lo n hi : Z) : bool := (lo <=? n) && (n <=? hi).

(** [str.isspace] on code points 0..255: TAB..CR, FS..US, space, NEL, NBSP. *)
Definition isspace (c : ascii) : bool :=
  let n := ord c in
  between 9 n 13 || between 28 n 32 || (n =? 133) || (n =? 160).

Definition isdigit (c : ascii) : bool := between 48 (ord c) 57.

(** [str.isalpha] on code points 0..255. *)
Definition isalpha (c : ascii) : bool :=
  let n := ord c in
  between 65 n 90 || between 97 n 122
  || (n =? 170) || (n =? 181) || (n =? 186)
  || between 192 n 214 || between 216 n 246 || between 248 n 255.

(** [str.upper] of one character, as code points: three characters of the
    range leave it (micro sign, sharp s, y with diaeresis). *)
Definition upper_char (c : ascii) : list Z :=
  let n := ord c in
  if between 97 n 122 then [n - 32]
  else if n =? 181 then [924]
  else if n =? 223 then [83; 83]
  else if n =? 255 then [376]
  else if between 224 n 254 && negb (n =? 247) then [n - 32]
  else [n].

Fixpoint upper (s : string) : list Z :=
  match s with
  | EmptyString => []
  | String c rest => upper_char c ++ upper rest
  end.

Fixpoint lstrip (s : string) : string :=
  match s with
  | EmptyString => EmptyString
  | String c rest => if isspace c then lstrip rest else s
  end.

(** Drops the trailing white space: a character is kept when it is not a
    space or when something is kept after it. *)
Fixpoint rstrip (s : string) : string :=
  match s with
  | EmptyString => EmptyString
  | String c rest =>
      match rstrip rest with
      | EmptyString => if isspace c then EmptyString else String c EmptyString
      | kept => String c kept
      end
  end.

(** [str.strip()] *)
Definition strip (s : string) : string := rstrip (lstrip s).

Fixpoint chars (s : string) : list ascii :=
  match s with
  | EmptyString => []
  | String c rest => c :: chars rest
  end.

Definition digit_char (d : Z) : ascii := chr (48 + d).

(** Decimal rendering of a natural number below [10 ^ width], zero padded:
    the [%02d] and [%04d] of date rendering. *)
Fixpoint zero_padded (width : nat) (n : Z) : string :=
  match width with
  | O => EmptyString
  | S w => append (zero_padded w (n / 10)) (String (digit_char (n mod 10)) EmptyString)
  end.

End Text.

(** * ColumnAddressing *)

Module ColumnAddressing.
Import Text.

(** [for i, char in enumerate(reversed(col_letter)):
       result += (ord(char) - ord('A') + 1) * (26 ** i)] *)
Fixpoint column_sum (reversed : list Z) (i : Z) (result : Z) : Z :=
  match reversed with
  | [] => result
  | char :: rest =>
      column_sum rest (i + 1) (result + (char - 65 + 1) * 26 ^ i)
  end.

(** [column_letter_to_index]: no branch of it raises on text. *)
Definition column_letter_to_index (col_letter : string) : Z :=
  let col_letter := upper col_letter in
  column_sum (rev col_letter) 0 0 - 1.

(** The [while True] loop of [get_excel_column_name]; [fuel] bounds the
    number of iterations, [None] is "no result within [fuel] iterations". *)
Fixpoint column_name_loop (fuel : nat) (col_idx : Z) (result : string)
  : option string :=
  match fuel with
  | O => None
  | S fuel' =>
      let remainder := col_idx mod 26 in
      let col_idx := col_idx / 26 in
      let result := String (chr (65 + remainder)) result in
      if col_idx =? 0 then Some result
      else column_name_loop fuel' (col_idx - 1) result
  end.

(** [get_excel_column_name]: an index [i >= 0] needs at most [i + 1]
    iterations; on a negative index the loop never reaches [col_idx == 0]
    ([column_name_loop_negative]), which is [None] here. *)
Definition get_excel_column_name (col_idx : Z) : option string :=
  column_name_loop (S (Z.to_nat col_idx)) col_idx EmptyString.

(** Specification vocabulary: the weight a reversed label carries from
    position [i] on, each letter counting 1..26. *)
Fixpoint weighted (reversed : list Z) (i : Z) : Z :=
  match reversed with
  | [] => 0
  | char :: rest => (char - 64) * 26 ^ i + weighted rest (i + 1)
  end.

End ColumnAddressing.

(** * Tables *)

Module Frame.
Import Text.

(** A [datetime] (or [pd.Timestamp]) at the resolution of one second. *)
Record datetime := mk_datetime {
  year : Z; month : Z; day : Z; hour : Z; minute : Z; second : Z
}.

(** The values a loaded cell can hold.  [CNull] stands for what [pd.isna]
    accepts ([None], [NaN], [NaT]); a number carries its [str()] text. *)
Inductive cell :=
| CNull
| CStr (s : string)
| CNum (repr : string)
| CTimestamp (ts : datetime).

Definition isna (value : cell) : bool :=
  match value with CNull => true | _ => false end.

(** [isinstance(value, (pd.Timestamp, datetime))] *)
Definition is_datetime (value : cell) : bool :=
  match value with CTimestamp _ => true | _ => false end.

(** [isinstance(value, str)] *)
Definition is_str (value : cell) : bool :=
  match value with CStr _ => true | _ => false end.

(** [str(ts)]: [YYYY-MM-DD HH:MM:SS] *)
Definition datetime_str (ts : datetime) : string :=
  (zero_padded 4 (year ts) ++ "-" ++ zero_padded 2 (month ts) ++ "-"
   ++ zero_padded 2 (day ts) ++ " " ++ zero_padded 2 (hour ts) ++ ":"
   ++ zero_padded 2 (minute ts) ++ ":" ++ zero_padded 2 (second ts))%string.

(** [str(value)] *)
Definition str (value : cell) : string :=
  match value with
  | CNull => "nan"
  | CStr s => s
  | CNum repr => repr
  | CTimestamp ts => datetime_str ts
  end.

(** A [DataFrame]: its column labels and its rows, every row as long as
    [columns]. *)
Record DataFrame := mk_frame {
  columns : list string;
  rows : list (list cell)
}.

Definition len {A} (l : list A) : Z := Z.of_nat (List.length l).

(** Every row of the frame has one cell per column label. *)
Definition rectangular (df : DataFrame) : Prop :=
  Forall (fun row => List.length row = List.length (columns df)) (rows df).

(** [range(n)] and [range(a, b)] *)
Definition range (n : Z) : list Z := map Z.of_nat (seq 0 (Z.to_nat n)).
Definition range_from (a b : Z) : list Z :=
  map (fun k => a + Z.of_nat k) (seq 0 (Z.to_nat (b - a))).

(** Indexing with one integer: a negative index counts from the end, an
    index outside [-len, len) raises [IndexError]. *)
Definition py_index {A} (l : list A) (i : Z) : option A :=
  if 0 <=? i then nth_error l (Z.to_nat i)
  else if - len l <=? i then nth_error l (Z.to_nat (len l + i))
  else None.

(** [df.iloc[row_idx, col_idx]] *)
Definition iloc (df : DataFrame) (row_idx col_idx : Z) : option cell :=
  match py_index (rows df) row_idx with
  | Some row => py_index row col_idx
  | None => None
  end.

(** [l[start:]] for [start >= 0] *)
Definition from_row {A} (l : list A) (start : Z) : list A :=
  skipn (Z.to_nat start) l.

End Frame.

Declare Scope py_scope.
Notation "x <- e ;; k" :=
(match e with Some x => k | None => None end)
(at level 61, e at next level, right associativity) : py_scope.
Open Scope py_scope.

(** * SheetComparator: the per-sheet body of [validate_columns_and_cells] *)

Module SheetComparator.
Import Text Frame ColumnAddressing.

(** An entry of [validated_data] *)
Record validated_cell := mk_validated {
  v_row : Z; v_column : string;
  v_template_value : string; v_data_value : string;
  v_match : bool
}.

(** An entry of [text_cell_mismatches]; ["Cell"] is the column label
    followed by the row number. *)
Record cell_mismatch := mk_mismatch {
  m_cell : string * Z; m_row : Z; m_column : string;
  m_template_value : string; m_data_value : string
}.

Record comparison := mk_comparison {
  validated_data : list validated_cell;
  text_cell_mismatches : list cell_mismatch
}.

Inductive validation_mode := SpecificRows | AllRows.

(** [not pd.isna(v) and str(v).strip() != ''] *)
Definition has_data (value : cell) : bool :=
  negb (isna value) && negb (strip (str value) =? String.EmptyString)%string.

(** [str(v).strip() if not pd.isna(v) else ''] *)
Definition cell_text (value : cell) : string :=
  if negb (isna value) then strip (str value) else String.EmptyString.

(** The scan for the last column with data in the template row. *)
Fixpoint last_col_scan (template_df : DataFrame) (row_idx : Z)
         (cols : list Z) (last_col_with_data : Z) : option Z :=
  match cols with
  | [] => Some last_col_with_data
  | col_idx :: rest =>
      template_value <- iloc template_df row_idx col_idx ;;
      last_col_scan template_df row_idx rest
        (if has_data template_value then col_idx else last_col_with_data)
  end.

(** The comparison of the columns [cols] of one row. *)
Fixpoint compare_cols (template_df data_df : DataFrame) (row_idx : Z)
         (cols : list Z) (acc : comparison) : option comparison :=
  match cols with
  | [] => Some acc
  | col_idx :: rest =>
      col_name <- py_index (columns template_df) col_idx ;;
      template_value <- iloc template_df row_idx col_idx ;;
      data_value <- iloc data_df row_idx col_idx ;;
      let template_str := cell_text template_value in
      let data_str := cell_text data_value in
      let validated :=
        validated_data acc ++
          [mk_validated (row_idx + 1) col_name template_str data_str
             (template_str =? data_str)%string] in
      if negb (template_str =? data_str)%string then
        label <- get_excel_column_name col_idx ;;
        compare_cols template_df data_df row_idx rest
          (mk_comparison validated
             (text_cell_mismatches acc ++
                [mk_mismatch (label, row_idx + 1) (row_idx + 1) col_name
                   template_str data_str]))
      else
        compare_cols template_df data_df row_idx rest
          (mk_comparison validated (text_cell_mismatches acc))
  end.

(** The body of [for row_idx in valid_rows] *)
Definition check_row (template_df data_df : DataFrame) (row_idx : Z)
           (acc : comparison) : option comparison :=
  last_col_with_data <-
    last_col_scan template_df row_idx (range (len (columns template_df))) (-1) ;;
  if last_col_with_data >=? 0 then
    compare_cols template_df data_df row_idx (range (last_col_with_data + 1)) acc
  else Some acc.

Fixpoint check_rows (template_df data_df : DataFrame) (valid_rows : list Z)
         (acc : comparison) : option comparison :=
  match valid_rows with
  | [] => Some acc
  | row_idx :: rest =>
      acc' <- check_row template_df data_df row_idx acc ;;
      check_rows template_df data_df rest acc'
  end.

Record sheet_check := mk_sheet_check {
  columns_match : bool;
  cells : comparison;
  sheet_valid : bool
}.

(** One iteration of [for sheet in sorted(common_sheets)]. *)
Definition validate_sheet (mode : validation_mode) (rows_to_validate : list Z)
           (template_df data_df : DataFrame) : option sheet_check :=
  let template_cols := columns template_df in
  let data_cols := columns data_df in
  let columns_match := len template_cols =? len data_cols in
  let rows_to_check :=
    match mode with
    | AllRows => range (len (rows template_df))
    | SpecificRows => rows_to_validate
    end in
  let valid_rows :=
    filter (fun row_idx => (row_idx <? len (rows template_df))
                           && (row_idx <? len (rows data_df)))
           rows_to_check in
  result <- (if columns_match
             then check_rows template_df data_df valid_rows (mk_comparison [] [])
             else Some (mk_comparison [] [])) ;;
  Some (mk_sheet_check columns_match result
          (columns_match && match text_cell_mismatches result with [] => true | _ => false end)).

(** ** Specification vocabulary *)

(** The cell and the column label at a position inside the frame. *)
Definition value_at (df : DataFrame) (r c : Z) : cell :=
  nth (Z.to_nat c) (nth (Z.to_nat r) (rows df) []) CNull.

Definition label_at (df : DataFrame) (c : Z) : string :=
  nth (Z.to_nat c) (columns df) String.EmptyString.

(** [w] is the watermark of template row [r]: the last column whose
    template cell is non-empty. *)
Definition watermark (template_df : DataFrame) (r w : Z) : Prop :=
  0 <= w < len (columns template_df)
  /\ has_data (value_at template_df r w) = true
  /\ forall c, w < c < len (columns template_df) ->
               has_data (value_at template_df r c) = false.

Definition no_data (template_df : DataFrame) (r : Z) : Prop :=
  forall c, 0 <= c < len (columns template_df) ->
            has_data (value_at template_df r c) = false.

(** The two trimmed texts at a position differ. *)
Definition differs (template_df data_df : DataFrame) (r c : Z) : bool :=
  negb (cell_text (value_at template_df r c)
        =? cell_text (value_at data_df r c))%string.

Definition compared_at (template_df data_df : DataFrame) (r c : Z) : validated_cell :=
  mk_validated (r + 1) (label_at template_df c)
    (cell_text (value_at template_df r c)) (cell_text (value_at data_df r c))
    (negb (differs template_df data_df r c)).

Definition column_label (c : Z) : string :=
  match get_excel_column_name c with Some label => label | None => String.EmptyString end.

Definition mismatch_at (template_df data_df : DataFrame) (r c : Z) : cell_mismatch :=
  mk_mismatch (column_label c, r + 1) (r + 1) (label_at template_df c)
    (cell_text (value_at template_df r c)) (cell_text (value_at data_df r c)).

(** What one requested row contributes: nothing when the template row is
    empty, otherwise one comparison per column up to the watermark and one
    mismatch per column among them whose texts differ. *)
Inductive row_outcome (template_df data_df : DataFrame) (r : Z) : comparison -> Prop :=
| row_skipped :
    no_data template_df r ->
    row_outcome template_df data_df r (mk_comparison [] [])
| row_compared w :
    watermark template_df r w ->
    row_outcome template_df data_df r
      (mk_comparison
         (map (compared_at template_df data_df r) (range (w + 1)))
         (map (mismatch_at template_df data_df r)
              (filter (differs template_df data_df r) (range (w + 1))))).

(** The requested rows that exist in both tables. *)
Definition present_rows (mode : validation_mode) (rows_to_validate : list Z)
           (template_df data_df : DataFrame) : list Z :=
  filter (fun r => (r <? len (rows template_df)) && (r <? len (rows data_df)))
         (match mode with
          | AllRows => range (len (rows template_df))
          | SpecificRows => rows_to_validate
          end).

Definition join (parts : list comparison) : comparison :=
  mk_comparison (List.concat (map validated_data parts))
                (List.concat (map text_cell_mismatches parts)).

End SheetComparator.

(** * RowCountValidator: the per-sheet body of [validate_row_counts] *)

Module RowCount.
Import Text Frame.

Definition is_leap_year (year : Z) : bool :=
  ((year mod 4 =? 0) && negb (year mod 100 =? 0)) || (year mod 400 =? 0).

(** The dictionary [days_in_month], read with [.get(month, 30)]. *)
Definition get_days_in_month (month year : Z) : Z :=
  if month =? 1 then 31
  else if month =? 2 then (if is_leap_year year then 29 else 28)
  else if month =? 3 then 31
  else if month =? 4 then 30
  else if month =? 5 then 31
  else if month =? 6 then 30
  else if month =? 7 then 31
  else if month =? 8 then 31
  else if month =? 9 then 30
  else if month =? 10 then 31
  else if month =? 11 then 30
  else if month =? 12 then 31
  else 30.

(** The ["Expected Rows"] and ["Status"] entries of the comparison table. *)
Inductive expected := Rows (n : Z) | Unknown | Error.
Inductive status := Correct | Incorrect | StatusUnknown | StatusError.

Record row_count_check := mk_check {
  template_rows : Z;
  data_rows : Z;
  expected_rows : expected;
  month_days : expected;
  check_status : status
}.

Section WithPandas.

(** [pd.to_datetime] on a text and on a number is pandas' own parser and is
    kept abstract: [None] is a raised exception, [Some ts] a timestamp (a
    conversion that yields [NaT] is outside the model). *)
Variable parse_text : string -> option datetime.
Variable parse_number : string -> option datetime.

Definition to_datetime (value : cell) : option datetime :=
  match value with
  | CTimestamp ts => Some ts
  | CStr s => parse_text s
  | CNum repr => parse_number repr
  | CNull => None
  end.

(** The [try] block up to the row counts: [None] is an exception that
    reaches the handler of the sheet, [Some None] is
    [expected_rows = None], [Some (Some (month_days, expected_rows))] the
    computed values. *)
Definition expected_row_count (data_sheet : DataFrame) : option (option (Z * Z)) :=
  if len (rows data_sheet) >=? 7 then
    date_cell_value <- iloc data_sheet 6 0 ;;
    if isna date_cell_value then Some None
    else
      date_value <-
        (if is_str date_cell_value then
           match to_datetime date_cell_value with
           | Some ts => Some (Some ts)
           | None => Some None
           end
         else
           ts <- to_datetime date_cell_value ;; Some (Some ts)) ;;
      match date_value with
      | Some ts =>
          let month := month ts in
          let year := year ts in
          let month_days := get_days_in_month month year in
          let expected_rows := month * 60 * 24 * month_days + 7 in
          Some (Some (month_days, expected_rows))
      | None => Some None
      end
  else Some None.

(** One iteration of the loop over the common sheets. *)
Definition check_sheet (template_sheet data_sheet : DataFrame) : row_count_check :=
  let template_rows := len (rows template_sheet) in
  let data_rows := len (rows data_sheet) in
  match expected_row_count data_sheet with
  | Some (Some (month_days, expected_rows)) =>
      mk_check template_rows data_rows (Rows expected_rows) (Rows month_days)
        (if data_rows =? expected_rows then Correct else Incorrect)
  | Some None =>
      mk_check template_rows data_rows Unknown Unknown StatusUnknown
  | None =>
      mk_check template_rows data_rows Error Error StatusError
  end.

End WithPandas.

(** ** Specification vocabulary *)

Definition leap (year : Z) : Prop :=
  (year mod 4 = 0 /\ year mod 100 <> 0) \/ year mod 400 = 0.

(** April, June, September, November: 30; February: 28 or 29; else 31. *)
Definition days_in (month year : Z) (days : Z) : Prop :=
  ((month = 4 \/ month = 6 \/ month = 9 \/ month = 11) /\ days = 30)
  \/ (month = 2 /\ leap year /\ days = 29)
  \/ (month = 2 /\ ~ leap year /\ days = 28)
  \/ ((month = 1 \/ month = 3 \/ month = 5 \/ month = 7 \/ month = 8
       \/ month = 10 \/ month = 12) /\ days = 31).

(** A sheet of [n] rows whose only column repeats [anchor]. *)
Definition one_column (n : nat) (anchor : cell) : DataFrame :=
  mk_frame ["Date"%string] (repeat [anchor] n).

End RowCount.

(** * [datetime.strptime] for the patterns of [validate_data] *)

Module Strptime.
Import Text Frame.

(** The pieces a format compiles to: the directives of the two pattern
    lists, [\s+] for a run of white space, and literal characters. *)
Inductive directive :=
| Dir_d | Dir_m | Dir_Y | Dir_H | Dir_M | Dir_S | Dir_I | Dir_p
| Spaces
| Literal (c : ascii).

Definition directive_of (c : ascii) : option directive :=
  if (c =? "d")%char then Some Dir_d
  else if (c =? "m")%char then Some Dir_m
  else if (c =? "Y")%char then Some Dir_Y
  else if (c =? "H")%char then Some Dir_H
  else if (c =? "M")%char then Some Dir_M
  else if (c =? "S")%char then Some Dir_S
  else if (c =? "I")%char then Some Dir_I
  else if (c =? "p")%char then Some Dir_p
  else None.

(** [None]: a directive outside the modelled ones, or a stray [%]. *)
Fixpoint compile (format : list ascii) : option (list directive) :=
  match format with
  | [] => Some []
  | c :: rest =>
      if (c =? "%")%char then
        match rest with
        | [] => None
        | d :: rest' =>
            dir <- directive_of d ;;
            tail <- compile rest' ;;
            Some (dir :: tail)
        end
      else
        tail <- compile rest ;;
        if isspace c then
          match tail with
          | Spaces :: _ => Some tail
          | _ => Some (Spaces :: tail)
          end
        else Some (Literal c :: tail)
  end.

Definition digit_value (c : ascii) : Z := ord c - 48.

(** [[lo-hi]] on one character *)
Definition digit_in (lo hi : Z) (c : ascii) : bool :=
  isdigit c && between lo (digit_value c) hi.

(** The regular-expression alternatives of a numeric directive: each one is
    tried on the front of the input, and gives the number read and the rest. *)
Definition two_digits (lo1 hi1 lo2 hi2 : Z) (s : list ascii) : list (Z * list ascii) :=
  match s with
  | a :: b :: rest =>
      if digit_in lo1 hi1 a && digit_in lo2 hi2 b
      then [(10 * digit_value a + digit_value b, rest)] else []
  | _ => []
  end.

Definition one_digit (lo hi : Z) (s : list ascii) : list (Z * list ascii) :=
  match s with
  | a :: rest => if digit_in lo hi a then [(digit_value a, rest)] else []
  | _ => []
  end.

Definition four_digits (s : list ascii) : list (Z * list ascii) :=
  match s with
  | a :: b :: c :: d :: rest =>
      if isdigit a && isdigit b && isdigit c && isdigit d
      then [(1000 * digit_value a + 100 * digit_value b
             + 10 * digit_value c + digit_value d, rest)]
      else []
  | _ => []
  end.

(** [ [1-9]]: a space, then one digit *)
Definition space_digit (s : list ascii) : list (Z * list ascii) :=
  match s with
  | a :: rest => if (a =? " ")%char then one_digit 1 9 rest else []
  | _ => []
  end.

(** [am|pm] without regard to case: [false] for am, [true] for pm. *)
Definition am_pm (s : list ascii) : list (bool * list ascii) :=
  match s with
  | a :: b :: rest =>
      if ((b =? "m") || (b =? "M"))%char then
        if ((a =? "a") || (a =? "A"))%char then [(false, rest)]
        else if ((a =? "p") || (a =? "P"))%char then [(true, rest)]
        else []
      else []
  | _ => []
  end.

(** [\s+]: the longest run first, then the shorter ones. *)
Fixpoint space_runs (s : list ascii) : list (list ascii) :=
  match s with
  | c :: rest => if isspace c then space_runs rest ++ [rest] else []
  | [] => []
  end.

(** What the directives have read so far. *)
Record fields := mk_fields {
  f_Y : option Z; f_m : option Z; f_d : option Z;
  f_H : option Z; f_I : option Z; f_M : option Z; f_S : option Z;
  f_p : option bool
}.

Definition no_fields : fields :=
  mk_fields None None None None None None None None.

Definition set_field (dir : directive) (n : Z) (f : fields) : fields :=
  match dir with
  | Dir_Y => mk_fields (Some n) (f_m f) (f_d f) (f_H f) (f_I f) (f_M f) (f_S f) (f_p f)
  | Dir_m => mk_fields (f_Y f) (Some n) (f_d f) (f_H f) (f_I f) (f_M f) (f_S f) (f_p f)
  | Dir_d => mk_fields (f_Y f) (f_m f) (Some n) (f_H f) (f_I f) (f_M f) (f_S f) (f_p f)
  | Dir_H => mk_fields (f_Y f) (f_m f) (f_d f) (Some n) (f_I f) (f_M f) (f_S f) (f_p f)
  | Dir_I => mk_fields (f_Y f) (f_m f) (f_d f) (f_H f) (Some n) (f_M f) (f_S f) (f_p f)
  | Dir_M => mk_fields (f_Y f) (f_m f) (f_d f) (f_H f) (f_I f) (Some n) (f_S f) (f_p f)
  | Dir_S => mk_fields (f_Y f) (f_m f) (f_d f) (f_H f) (f_I f) (f_M f) (Some n) (f_p f)
  | _ => f
  end.

Definition set_pm (pm : bool) (f : fields) : fields :=
  mk_fields (f_Y f) (f_m f) (f_d f) (f_H f) (f_I f) (f_M f) (f_S f) (Some pm).

(** The alternatives of one piece on the input, in the order the regular
    expression tries them. *)
Definition alternatives (dir : directive) (s : list ascii) (f : fields)
  : list (fields * list ascii) :=
  let numeric alts := map (fun '(n, rest) => (set_field dir n f, rest)) alts in
  match dir with
  | Dir_d => numeric (two_digits 3 3 0 1 s ++ two_digits 1 2 0 9 s
                      ++ two_digits 0 0 1 9 s ++ one_digit 1 9 s ++ space_digit s)
  | Dir_m | Dir_I =>
      numeric (two_digits 1 1 0 2 s ++ two_digits 0 0 1 9 s ++ one_digit 1 9 s)
  | Dir_Y => numeric (four_digits s)
  | Dir_H => numeric (two_digits 2 2 0 3 s ++ two_digits 0 1 0 9 s ++ one_digit 0 9 s)
  | Dir_M => numeric (two_digits 0 5 0 9 s ++ one_digit 0 9 s)
  | Dir_S => numeric (two_digits 6 6 0 1 s ++ two_digits 0 5 0 9 s ++ one_digit 0 9 s)
  | Dir_p => map (fun '(pm, rest) => (set_pm pm f, rest)) (am_pm s)
  | Spaces => map (fun rest => (f, rest)) (space_runs s)
  | Literal c =>
      match s with
      | a :: rest => if (a =? c)%char then [(f, rest)] else []
      | [] => []
      end
  end.

Fixpoint first_success {A B} (k : A -> option B) (l : list A) : option B :=
  match l with
  | [] => None
  | a :: rest => match k a with Some b => Some b | None => first_success k rest end
  end.

(** [format_regex.match(data_string)]: the first match in backtracking
    order, with what it leaves unread. *)
Fixpoint regex_match (pieces : list directive) (s : list ascii) (f : fields)
  : option (fields * list ascii) :=
  match pieces with
  | [] => Some (f, s)
  | dir :: rest =>
      first_success (fun '(f', s') => regex_match rest s' f') (alternatives dir s f)
  end.

Definition or_default (o : option Z) (default : Z) : Z :=
  match o with Some n => n | None => default end.

(** The hour of the result: [%H] as read, [%I] corrected by [%p]. *)
Definition hour_of (f : fields) : Z :=
  match f_I f with
  | Some h =>
      match f_p f with
      | Some true => if h =? 12 then 12 else h + 12
      | _ => if h =? 12 then 0 else h
      end
  | None => or_default (f_H f) 0
  end.

(** [_is_leap] and [_days_in_month] of the [datetime] module *)
Definition is_leap (year : Z) : bool :=
  (year mod 4 =? 0) && (negb (year mod 100 =? 0) || (year mod 400 =? 0)).

Definition days_in_month (year month : Z) : Z :=
  if (month =? 2) && is_leap year then 29
  else nth (Z.to_nat month) [0; 31; 28; 31; 30; 31; 30; 31; 31; 30; 31; 30; 31] 0.

Definition valid_date (year month day : Z) : bool :=
  between 1 year 9999 && between 1 month 12
  && between 1 day (days_in_month year month).

(** [datetime.strptime(data_string, format)]; [None] is [ValueError]. *)
Definition strptime (data_string format : string) : option datetime :=
  pieces <- compile (chars format) ;;
  found <- regex_match pieces (chars data_string) no_fields ;;
  let '(f, unconverted) := found in
  match unconverted with
  | _ :: _ => None
  | [] =>
      let year := or_default (f_Y f) 1900 in
      let month := or_default (f_m f) 1 in
      let day := or_default (f_d f) 1 in
      let second := or_default (f_S f) 0 in
      if valid_date year month day && (second <=? 59)
      then Some (mk_datetime year month day (hour_of f) (or_default (f_M f) 0) second)
      else None
  end.

End Strptime.

(** * [float(text)]: which texts convert *)

Module FloatSyntax.
Import Text.

Definition is_char (c d : ascii) : bool := (c =? d)%char.

Definition is_sign (c : ascii) : bool := is_char c "+" || is_char c "-".

(** An underscore is allowed between two digits only. *)
Fixpoint underscores_ok (prev : option ascii) (s : list ascii) : bool :=
  match s with
  | [] => match prev with
          | Some p => negb (is_char p "_")
          | None => true
          end
  | c :: rest =>
      (if is_char c "_"
       then match prev with Some p => isdigit p | None => false end
       else match prev with
            | Some p => if is_char p "_" then isdigit c else true
            | None => true
            end)
      && underscores_ok (Some c) rest
  end.

Definition without_underscores (s : list ascii) : list ascii :=
  filter (fun c => negb (is_char c "_")) s.

Definition drop_sign (s : list ascii) : list ascii :=
  match s with
  | c :: rest => if is_sign c then rest else s
  | [] => []
  end.

(** The digits in front of the input: how many, and what follows. *)
Fixpoint span_digits (s : list ascii) : Z * list ascii :=
  match s with
  | c :: rest =>
      if isdigit c then let '(n, tail) := span_digits rest in (n + 1, tail)
      else (0, s)
  | [] => (0, [])
  end.

(** ASCII lower case of a letter *)
Definition lower (c : ascii) : ascii :=
  if between 65 (ord c) 90 then chr (ord c + 32) else c.

Definition is_word (word : string) (s : list ascii) : bool :=
  (string_of_list_ascii (map lower s) =? word)%string.

(** Digits with an optional point and at least one digit, then an optional
    exponent that has at least one digit. *)
Definition decimal_ok (s : list ascii) : bool :=
  let '(n1, r1) := span_digits s in
  let '(n2, r2) :=
    match r1 with
    | c :: rest => if is_char c "." then span_digits rest else (0, r1)
    | [] => (0, r1)
    end in
  (0 <? n1 + n2)
  && match r2 with
     | [] => true
     | e :: r3 =>
         (is_char e "e" || is_char e "E")
         && let '(n3, r4) := span_digits (drop_sign r3) in
            (0 <? n3) && match r4 with [] => true | _ => false end
     end.

(** [float(text)] returns, for a text without white space at its ends. *)
Definition float_parses (text : string) : bool :=
  let s := chars text in
  underscores_ok None s
  && let body := drop_sign (without_underscores s) in
     is_word "inf" body || is_word "infinity" body || is_word "nan" body
     || decimal_ok body.

End FloatSyntax.

(** * DataValidation: [validate_data] *)

Module DataValidation.
Import Text Frame ColumnAddressing Strptime FloatSyntax.

Definition date_formats_to_try : list string :=
  ["%d.%m.%Y"; "%d/%m/%Y"; "%d-%m-%Y";
   "%Y.%m.%d"; "%Y/%m/%d"; "%Y-%m-%d";
   "%m.%d.%Y"; "%m/%d/%Y"; "%m-%d-%Y"]%string.

Definition time_formats_to_try : list string :=
  ["%H:%M:%S"; "%H:%M"; "%I:%M:%S %p"; "%I:%M %p"]%string.

Definition datetime_object : string := "datetime_object".

(** The keys of a sheet's entry in [validation_results] that hold issues. *)
Inductive category :=
| datetime_issues | datetime_format_issues | datetime_sequence_issues
| numeric_issues | null_issues | special_char_issues
| alphabetical_issues | empty_cell_issues.

(** The messages, by their parts.  An instant of a sequence message is the
    number of seconds since 0001-01-01 00:00:00; a cell reference is the
    column letter and the row number. *)
Inductive issue :=
| EmptyDate (row : Z) (col : string)
| EmptyTime (row : Z) (col : string)
| DateNotInFormat (row : Z) (col text format : string)
| DateNotParsed (row : Z) (col text : string)
| TimeNotInFormat (row : Z) (col text format : string)
| TimeNotParsed (row : Z) (col text : string)
| SequenceBroken (row1 row2 expected actual : Z)
| NullValue (cell_ref : string * Z) (row : Z) (col_name : string)
| EmptyCell (cell_ref : string * Z) (row : Z) (col_name : string)
| HasLetters (cell_ref : string * Z) (row : Z) (col_name text : string)
| HasSpecialChars (cell_ref : string * Z) (row : Z) (col_name text : string)
| NotNumeric (cell_ref : string * Z) (row : Z) (col_name text : string).

(** The label of the detected interval: ["1 minute"], ["1 hour"],
    ["1 day"], ["<n> minutes"], and ["<h.hh> hours"] given by the interval
    in seconds it renders. *)
Inductive interval_type :=
| OneMinute | OneHour | OneDay
| Minutes (n : Z)
| Hours (seconds : Z).

Inductive validated_column :=
| DateColumn (letter name : string)
| TimeColumn (letter name : string)
| NumericColumn (letter name : string).

(** A sheet's entry in [validation_results]. *)
Record results := mk_results {
  issues : category -> list issue;
  is_valid : bool;
  total_rows_validated : Z;
  total_cells_validated : Z;
  columns_validated : list validated_column;
  detected_date_format : option string;
  detected_time_format : option string;
  detected_interval : option interval_type
}.

Definition initial_results : results :=
  mk_results (fun _ => []) true 0 0 [] None None None.

Definition category_eqb (a b : category) : bool :=
  match a, b with
  | datetime_issues, datetime_issues
  | datetime_format_issues, datetime_format_issues
  | datetime_sequence_issues, datetime_sequence_issues
  | numeric_issues, numeric_issues
  | null_issues, null_issues
  | special_char_issues, special_char_issues
  | alphabetical_issues, alphabetical_issues
  | empty_cell_issues, empty_cell_issues => true
  | _, _ => false
  end.

(** [results[key].append(message); results['is_valid'] = False] *)
Definition add_issue (key : category) (message : issue) (r : results) : results :=
  mk_results
    (fun k => if category_eqb k key then issues r k ++ [message] else issues r k)
    false
    (total_rows_validated r) (total_cells_validated r) (columns_validated r)
    (detected_date_format r) (detected_time_format r) (detected_interval r).

Definition add_column (c : validated_column) (r : results) : results :=
  mk_results (issues r) (is_valid r) (total_rows_validated r)
    (total_cells_validated r) (columns_validated r ++ [c])
    (detected_date_format r) (detected_time_format r) (detected_interval r).

Definition set_formats (date_format time_format : option string) (r : results) : results :=
  mk_results (issues r) (is_valid r) (total_rows_validated r)
    (total_cells_validated r) (columns_validated r)
    date_format time_format (detected_interval r).

Definition set_interval (label : interval_type) (r : results) : results :=
  mk_results (issues r) (is_valid r) (total_rows_validated r)
    (total_cells_validated r) (columns_validated r)
    (detected_date_format r) (detected_time_format r) (Some label).

Definition set_rows_validated (n : Z) (r : results) : results :=
  mk_results (issues r) (is_valid r) n
    (total_cells_validated r) (columns_validated r)
    (detected_date_format r) (detected_time_format r) (detected_interval r).

Definition count_cell (r : results) : results :=
  mk_results (issues r) (is_valid r) (total_rows_validated r)
    (total_cells_validated r + 1) (columns_validated r)
    (detected_date_format r) (detected_time_format r) (detected_interval r).

(** ** Format detection *)

(** [for fmt in formats: try: strptime(text, fmt) ... break]: the first
    pattern that parses the text, with the parsed value. *)
Fixpoint first_parse (formats : list string) (text : string)
  : option (string * datetime) :=
  match formats with
  | [] => None
  | fmt :: rest =>
      match strptime text fmt with
      | Some parsed => Some (fmt, parsed)
      | None => first_parse rest text
      end
  end.

(** The detection loop over a column. *)
Fixpoint detect_format (formats : list string) (data : list cell) : option string :=
  match data with
  | [] => None
  | val :: rest =>
      if isna val then detect_format formats rest
      else if is_datetime val then Some datetime_object
      else
        match first_parse formats (strip (str val)) with
        | Some (fmt, _) => Some fmt
        | None => detect_format formats rest
        end
  end.

(** ** The pass over the date and time columns *)

(** What parsing one value gives: a value (or nothing, when the column
    holds native date-times and this value is a text), or an issue. *)
Inductive parse_outcome :=
| Parsed (value : option datetime)
| Rejected (message : issue).

Definition parse_value (formats : list string) (detected : option string)
           (not_in_format : string -> string -> issue)
           (not_parsed : string -> issue)
           (val : cell) : parse_outcome :=
  match val with
  | CTimestamp ts => Parsed (Some ts)
  | _ =>
      let text := strip (str val) in
      match detected with
      | Some fmt =>
          if (fmt =? datetime_object)%string then Parsed None
          else
            match strptime text fmt with
            | Some parsed => Parsed (Some parsed)
            | None => Rejected (not_in_format text fmt)
            end
      | None =>
          match first_parse formats text with
          | Some (_, parsed) => Parsed (Some parsed)
          | None => Rejected (not_parsed text)
          end
      end
  end.

(** [datetime.combine(parsed_date.date(), parsed_time.time())] *)
Definition combine_date_time (d t : datetime) : datetime :=
  mk_datetime (year d) (month d) (day d) (hour t) (minute t) (second t).

(** The loop [for i in range(len(date_data))], from row number
    [actual_row_num] on; the state is the entry of the sheet and
    [combined_datetimes]. *)
Fixpoint validate_entries (date_col time_col : string)
         (date_format time_format : option string)
         (actual_row_num : Z) (entries : list (cell * cell))
         (r : results) (combined_datetimes : list (Z * datetime))
  : results * list (Z * datetime) :=
  match entries with
  | [] => (r, combined_datetimes)
  | (date_val, time_val) :: rest =>
      let continue r' combined' :=
        validate_entries date_col time_col date_format time_format
          (actual_row_num + 1) rest r' combined' in
      if isna date_val then
        continue (add_issue datetime_issues (EmptyDate actual_row_num date_col) r)
                 combined_datetimes
      else if isna time_val then
        continue (add_issue datetime_issues (EmptyTime actual_row_num time_col) r)
                 combined_datetimes
      else
        match parse_value date_formats_to_try date_format
                (DateNotInFormat actual_row_num date_col)
                (DateNotParsed actual_row_num date_col) date_val with
        | Rejected message =>
            continue (add_issue datetime_format_issues message r) combined_datetimes
        | Parsed parsed_date =>
            match parse_value time_formats_to_try time_format
                    (TimeNotInFormat actual_row_num time_col)
                    (TimeNotParsed actual_row_num time_col) time_val with
            | Rejected message =>
                continue (add_issue datetime_format_issues message r) combined_datetimes
            | Parsed parsed_time =>
                match parsed_date, parsed_time with
                | Some d, Some t =>
                    continue r (combined_datetimes
                                  ++ [(actual_row_num, combine_date_time d t)])
                | _, _ => continue r combined_datetimes
                end
            end
        end
  end.

(** ** Interval detection and the sequence check *)

(** [date.toordinal] and the seconds of an instant since 0001-01-01. *)
Definition days_before_year (year : Z) : Z :=
  let y := year - 1 in y * 365 + y / 4 - y / 100 + y / 400.

Definition days_before_month (year month : Z) : Z :=
  nth (Z.to_nat month) [0; 0; 31; 59; 90; 120; 151; 181; 212; 243; 273; 304; 334] 0
  + (if (month >? 2) && is_leap year then 1 else 0).

Definition toordinal (dt : datetime) : Z :=
  days_before_year (year dt) + days_before_month (year dt) (month dt) + day dt.

Definition instant (dt : datetime) : Z :=
  toordinal dt * 86400 + hour dt * 3600 + minute dt * 60 + second dt.

(** [(dt2 - dt1).total_seconds()] *)
Definition seconds_between (dt1 dt2 : datetime) : Z := instant dt2 - instant dt1.

Fixpoint intervals_of (combined_datetimes : list (Z * datetime)) : list Z :=
  match combined_datetimes with
  | (_, dt1) :: (((_, dt2) :: _) as rest) =>
      seconds_between dt1 dt2 :: intervals_of rest
  | _ => []
  end.

(** [Counter]: the distinct elements in insertion order, with their counts. *)
Fixpoint count_one (x : Z) (counts : list (Z * Z)) : list (Z * Z) :=
  match counts with
  | [] => [(x, 1)]
  | (key, n) :: rest =>
      if key =? x then (key, n + 1) :: rest else (key, n) :: count_one x rest
  end.

Definition Counter (elements : list Z) : list (Z * Z) :=
  fold_left (fun counts x => count_one x counts) elements [].

(** [max(items, key=count)]: a later item replaces the best one only when
    its count is larger. *)
Fixpoint max_by_count (best : Z * Z) (items : list (Z * Z)) : Z * Z :=
  match items with
  | [] => best
  | item :: rest =>
      max_by_count (if snd best <? snd item then item else best) rest
  end.

(** [counts.most_common(1)[0][0]]; [None] is the [IndexError] of an empty
    counter. *)
Definition most_common (counts : list (Z * Z)) : option Z :=
  match counts with
  | [] => None
  | item :: rest => Some (fst (max_by_count item rest))
  end.

Definition interval_type_of (most_common_interval : Z) : interval_type :=
  if most_common_interval =? 60 then OneMinute
  else if most_common_interval =? 3600 then OneHour
  else if most_common_interval =? 86400 then OneDay
  else if most_common_interval <? 60 * 60
       then Minutes (Z.quot most_common_interval 60)
       else Hours most_common_interval.

(** The second walk over the consecutive pairs. *)
Fixpoint check_sequence (most_common_interval : Z)
         (combined_datetimes : list (Z * datetime)) (r : results) : results :=
  match combined_datetimes with
  | (row1, dt1) :: (((row2, dt2) :: _) as rest) =>
      let actual_interval := seconds_between dt1 dt2 in
      check_sequence most_common_interval rest
        (if Z.abs (actual_interval - most_common_interval) >? 1
         then add_issue datetime_sequence_issues
                (SequenceBroken row1 row2 (instant dt1 + most_common_interval)
                                (instant dt2)) r
         else r)
  | _ => r
  end.

(** [if len(combined_datetimes) >= 2: ...] *)
Definition check_intervals (combined_datetimes : list (Z * datetime)) (r : results)
  : option results :=
  if len combined_datetimes >=? 2 then
    let intervals := intervals_of combined_datetimes in
    most_common_interval <- most_common (Counter intervals) ;;
    Some (check_sequence most_common_interval combined_datetimes
            (set_interval (interval_type_of most_common_interval) r))
  else Some r.

(** The block guarded by the test on the date and time columns. *)
Definition validate_datetime (date_col time_col date_col_name time_col_name : string)
           (datetime_start_row_idx : Z) (date_data time_data : list cell)
           (r : results) : option results :=
  let r := add_column (DateColumn date_col date_col_name) r in
  let r := add_column (TimeColumn time_col time_col_name) r in
  let detected_date_format := detect_format date_formats_to_try date_data in
  let detected_time_format := detect_format time_formats_to_try time_data in
  let r := set_formats detected_date_format detected_time_format r in
  let '(r, combined_datetimes) :=
    validate_entries date_col time_col detected_date_format detected_time_format
      (datetime_start_row_idx + 0 + 1) (List.combine date_data time_data) r [] in
  r <- check_intervals combined_datetimes r ;;
  Some (set_rows_validated (len date_data) r).

(** ** The numeric region *)

(** [pd.api.types.is_numeric_dtype(type(value)) or
     isinstance(value, (int, float, np.number))] *)
Definition is_numeric (value : cell) : bool :=
  match value with CNum _ => true | _ => false end.

Definition allowed_chars : list ascii := chars "0123456789.-".

Definition is_allowed (c : ascii) : bool :=
  existsb (fun a => (a =? c)%char) allowed_chars.

(** The checks on one cell: the key and the message of the issue it adds,
    [None] when it adds none. *)
Definition check_cell (cell_ref : string * Z) (row_num : Z) (col_name : string)
           (value : cell) : option (category * issue) :=
  if isna value then
    Some (null_issues, NullValue cell_ref row_num col_name)
  else
    let value_str := strip (str value) in
    if (value_str =? String.EmptyString)%string then
      Some (empty_cell_issues, EmptyCell cell_ref row_num col_name)
    else if negb (is_numeric value) then
      if float_parses value_str then None
      else if existsb isalpha (chars value_str) then
        Some (alphabetical_issues, HasLetters cell_ref row_num col_name value_str)
      else if negb (forallb is_allowed (chars value_str)) then
        Some (special_char_issues, HasSpecialChars cell_ref row_num col_name value_str)
      else
        Some (numeric_issues, NotNumeric cell_ref row_num col_name value_str)
    else None.

(** [for idx, value in col_data.items()], from index [idx] on. *)
Fixpoint validate_cells (col_letter col_name : string) (idx : Z)
         (col_data : list cell) (r : results) : results :=
  match col_data with
  | [] => r
  | value :: rest =>
      let row_num := idx + 1 in
      let r := count_cell r in
      let cell_ref := (col_letter, row_num) in
      validate_cells col_letter col_name (idx + 1) rest
        (match check_cell cell_ref row_num col_name value with
         | Some (key, message) => add_issue key message r
         | None => r
         end)
  end.

(** [df.iloc[:, col_idx].notna().any()] *)
Definition column_has_data (df : DataFrame) (col_idx : Z) : bool :=
  existsb (fun row => negb (isna (nth (Z.to_nat col_idx) row CNull))) (rows df).

Definition last_col_with_data (df : DataFrame) : Z :=
  fold_left (fun last col_idx => if column_has_data df col_idx then col_idx else last)
            (range (len (columns df))) (-1).

(** The cells of a column from a row on: [df.iloc[start:, col_idx]]. *)
Fixpoint column_of (data_rows : list (list cell)) (col_idx : Z) : option (list cell) :=
  match data_rows with
  | [] => Some []
  | row :: rest =>
      value <- py_index row col_idx ;;
      tail <- column_of rest col_idx ;;
      Some (value :: tail)
  end.

Definition column_from (df : DataFrame) (start col_idx : Z) : option (list cell) :=
  _ <- py_index (columns df) col_idx ;;
  column_of (from_row (rows df) start) col_idx.

(** [for col_idx in range(numeric_start_col_idx, last_col_with_data + 1)];
    the columns are taken by position (their labels are distinct). *)
Fixpoint validate_columns (df : DataFrame) (numeric_start_row_idx : Z)
         (cols : list Z) (r : results) : option results :=
  match cols with
  | [] => Some r
  | col_idx :: rest =>
      col_name <- py_index (columns df) col_idx ;;
      col_letter <- get_excel_column_name col_idx ;;
      let r := add_column (NumericColumn col_letter col_name) r in
      col_data <- column_from df numeric_start_row_idx col_idx ;;
      validate_columns df numeric_start_row_idx rest
        (validate_cells col_letter col_name numeric_start_row_idx col_data r)
  end.

(** ** A sheet, and the run *)

(** The values the widgets give. *)
Record config := mk_config {
  datetime_start_row : Z;
  date_col : string;
  time_col : string;
  numeric_start_row : Z;
  numeric_start_col : string
}.

(** One iteration of [for sheet_name in data_to_validate['sheet_names']];
    [None] is an exception nothing catches, or a call that does not return. *)
Definition validate_sheet (cfg : config) (date_col_idx time_col_idx numeric_start_col_idx : Z)
           (df : DataFrame) : option results :=
  let r := initial_results in
  let datetime_start_row_idx := datetime_start_row cfg - 1 in
  let numeric_start_row_idx := numeric_start_row cfg - 1 in
  r <- (if (len (rows df) >? datetime_start_row_idx)
           && (date_col_idx <? len (columns df))
           && (time_col_idx <? len (columns df))
        then
          date_col_name <- py_index (columns df) date_col_idx ;;
          time_col_name <- py_index (columns df) time_col_idx ;;
          date_data <- column_from df datetime_start_row_idx date_col_idx ;;
          time_data <- column_from df datetime_start_row_idx time_col_idx ;;
          validate_datetime (date_col cfg) (time_col cfg) date_col_name time_col_name
            datetime_start_row_idx date_data time_data r
        else Some r) ;;
  if len (rows df) >? numeric_start_row_idx then
    let last_col_with_data := last_col_with_data df in
    if numeric_start_col_idx <? len (columns df) then
      validate_columns df numeric_start_row_idx
        (range_from numeric_start_col_idx (last_col_with_data + 1)) r
    else Some r
  else Some r.

Fixpoint validate_sheets (cfg : config) (date_col_idx time_col_idx numeric_start_col_idx : Z)
         (sheets : list (string * DataFrame)) : option (list (string * results)) :=
  match sheets with
  | [] => Some []
  | (sheet_name, df) :: rest =>
      r <- validate_sheet cfg date_col_idx time_col_idx numeric_start_col_idx df ;;
      tail <- validate_sheets cfg date_col_idx time_col_idx numeric_start_col_idx rest ;;
      Some ((sheet_name, r) :: tail)
  end.

(** The [try] block that converts the three column letters: [None] is its
    [except] branch.  [column_letter_to_index] has no raising path. *)
Definition convert_columns (cfg : config) : option (Z * Z * Z) :=
  Some (column_letter_to_index (date_col cfg),
        column_letter_to_index (time_col cfg),
        column_letter_to_index (numeric_start_col cfg)).

(** How a run ends: with the error "Invalid column letter" before any
    sheet, or with the entries of the sheets and [all_valid]. *)
Inductive run :=
| InvalidColumnLetter
| Validated (validation_results : list (string * results)) (all_valid : bool).

(** [validate_data] up to the display of the summary.  The source clears
    [all_valid] at every place where it clears [is_valid] of a sheet, so it
    ends as the conjunction of the sheets' [is_valid]. *)
Definition validate_data (cfg : config) (data_to_validate : list (string * DataFrame))
  : option run :=
  match convert_columns cfg with
  | None => Some InvalidColumnLetter
  | Some (date_col_idx, time_col_idx, numeric_start_col_idx) =>
      validation_results <-
        validate_sheets cfg date_col_idx time_col_idx numeric_start_col_idx
          data_to_validate ;;
      Some (Validated validation_results
              (forallb (fun entry => is_valid (snd entry)) validation_results))
  end.

(** ** Specification vocabulary *)

(** [fmt] is the first pattern of [formats], in their order, that parses
    [text]. *)
Definition first_matching (formats : list string) (text fmt : string) : Prop :=
  exists earlier later,
    formats = earlier ++ fmt :: later
    /\ strptime text fmt <> None
    /\ Forall (fun f => strptime text f = None) earlier.

(** A cell the detection loop passes over: a null, or a value that is not a
    date-time and whose trimmed text no pattern parses. *)
Definition passed_over (formats : list string) (val : cell) : Prop :=
  isna val = true
  \/ (is_datetime val = false
      /\ Forall (fun f => strptime (strip (str val)) f = None) formats).

(** The messages of the rows whose date and time are both present, when no
    date parses. *)
Fixpoint unparsed_dates (date_col : string) (actual_row_num : Z)
         (entries : list (cell * cell)) : list issue :=
  match entries with
  | [] => []
  | (date_val, time_val) :: rest =>
      (if negb (isna date_val) && negb (isna time_val)
       then [DateNotParsed actual_row_num date_col (strip (str date_val))]
       else [])
      ++ unparsed_dates date_col (actual_row_num + 1) rest
  end.

(** How often [x] occurs in [xs]. *)
Fixpoint count (x : Z) (xs : list Z) : Z :=
  match xs with
  | [] => 0
  | y :: rest => (if y =? x then 1 else 0) + count x rest
  end.

(** [m] is a statistical mode of [xs]: one of its values, and none occurs
    more often. *)
Definition statistical_mode (xs : list Z) (m : Z) : Prop :=
  In m xs /\ forall x, count x xs <= count m xs.

(** The count a [Counter] holds for a key, 0 for a missing key. *)
Definition tally (counts : list (Z * Z)) (k : Z) : Z :=
  match find (fun p => fst p =? k) counts with
  | Some p => snd p
  | None => 0
  end.

(** The consecutive pairs of a sequence. *)
Fixpoint pairs {A} (l : list A) : list (A * A) :=
  match l with
  | a :: ((b :: _) as rest) => (a, b) :: pairs rest
  | _ => []
  end.

(** The delta of a pair differs from the expected interval by more than
    one second. *)
Definition broken (expected : Z) (p : (Z * datetime) * (Z * datetime)) : bool :=
  Z.abs (seconds_between (snd (fst p)) (snd (snd p)) - expected) >? 1.

(** The message for a broken pair: its two rows, the expected next instant
    and the actual one. *)
Definition sequence_message (expected : Z) (p : (Z * datetime) * (Z * datetime)) : issue :=
  SequenceBroken (fst (fst p)) (fst (snd p))
                 (instant (snd (fst p)) + expected) (instant (snd (snd p))).

(** [is_valid] tells whether some category holds an issue. *)
Definition validity_reflects_issues (r : results) : Prop :=
  (is_valid r = true -> forall k, issues r k = [])
  /\ (is_valid r = false -> exists k, issues r k <> []).

(** A sheet of four samples, one minute apart but for the last one, with a
    text among its values; and the widget values that address it. *)
Definition sample_sheet : DataFrame :=
  mk_frame ["Date"; "Time"; "Value"]%string
    [[CStr "09.01.2026"; CStr "10:00:00"; CStr "1.5"];
     [CStr "09.01.2026"; CStr "10:01:00"; CStr "abc"];
     [CStr "09.01.2026"; CStr "10:02:00"; CNum "2"];
     [CStr "09.01.2026"; CStr "10:05:00"; CStr "3"]]%string.

Definition sample_config : config := mk_config 1 "A" "B" 1 "C".

(** The tags of the cell classifier, and the tag an outcome of
    [check_cell] stands for: no issue is [Numeric], an issue is tagged by
    the category it goes to. *)
Inductive tag :=
| Numeric | Null | EmptyString | Alphabetic | SpecialChar | NonNumericOther.

Definition tag_of (outcome : option (category * issue)) : option tag :=
  match outcome with
  | None => Some Numeric
  | Some (null_issues, _) => Some Null
  | Some (empty_cell_issues, _) => Some EmptyString
  | Some (alphabetical_issues, _) => Some Alphabetic
  | Some (special_char_issues, _) => Some SpecialChar
  | Some (numeric_issues, _) => Some NonNumericOther
  | Some (_, _) => None
  end.

(** [CellClassifier]: the tag of a cell (the cell reference does not bear
    on it). *)
Definition classify (value : cell) : option tag :=
  tag_of (check_cell (String.EmptyString, 0) 0 String.EmptyString value).

End DataValidation.

(** * GapAnalyzer: the analysis of [find_missing_data]

    Instants and durations are whole seconds.  The source computes in
    minutes with binary floating point; here a duration in minutes is kept
    as its number of seconds and the comparisons are exact:
    [diff > expected_interval * 1.1] is [10 * diff > 11 * expected_interval]
    and [abs(e - round(e)) < 0.1] is "less than 6 seconds from the nearest
    whole minute". *)

Module GapAnalyzer.
Import Frame.

(** [Series.dropna()] on the coerced column: [None] is [NaT]. *)
Fixpoint dropna (datetime_col : list (option Z)) : list Z :=
  match datetime_col with
  | [] => []
  | Some t :: rest => t :: dropna rest
  | None :: rest => dropna rest
  end.

(** [Series.sort_values()], ascending. *)
Fixpoint insert_sorted (t : Z) (sorted : list Z) : list Z :=
  match sorted with
  | [] => [t]
  | u :: rest => if t <=? u then t :: sorted else u :: insert_sorted t rest
  end.

Fixpoint sort_values (l : list Z) : list Z :=
  match l with
  | [] => []
  | t :: rest => insert_sorted t (sort_values rest)
  end.

(** [Series.diff().dropna()], in seconds. *)
Fixpoint diff (sorted : list Z) : list Z :=
  match sorted with
  | current_dt :: ((next_dt :: _) as rest) => (next_dt - current_dt) :: diff rest
  | _ => []
  end.

(** [value_counts().idxmax()]: the most frequent value, the first seen among
    the most frequent ones. *)
Definition idxmax (values : list Z) : option Z :=
  DataValidation.most_common (DataValidation.Counter values).

(** [round(e)] of a duration [e] given in seconds, as seconds. *)
Definition nearest_minute (seconds : Z) : Z := 60 * ((seconds + 30) / 60).

(** [if abs(e - round(e)) < 0.1: e = round(e)] *)
Definition round_if_close (seconds : Z) : Z :=
  if Z.abs (seconds - nearest_minute seconds) <? 6
  then nearest_minute seconds else seconds.

(** The custom interval of the widgets. *)
Inductive interval_unit := Minutes | Seconds | Hours.

Definition custom_seconds (interval_unit : interval_unit) (custom_interval : Z) : Z :=
  match interval_unit with
  | Minutes => custom_interval * 60
  | Seconds => custom_interval
  | Hours => custom_interval * 60 * 60
  end.

(** An entry of [gap_ranges]; ["Missing Minutes"] is [missing_seconds / 60]. *)
Record gap := mk_gap {
  gap_start : Z;
  gap_end : Z;
  missing_seconds : Z;
  missing_rows : Z
}.

(** The loop over the consecutive pairs; [None] is the error of a division
    by a zero interval. *)
Fixpoint find_gaps (expected_interval : Z) (datetime_col : list Z)
         (gap_ranges : list gap) (missing_timestamps : list Z)
  : option (list gap * list Z) :=
  match datetime_col with
  | current_dt :: ((next_dt :: _) as rest) =>
      let diff := next_dt - current_dt in
      if 10 * diff >? 11 * expected_interval then
        if expected_interval =? 0 then None
        else
          let expected_rows := Z.quot diff expected_interval - 1 in
          find_gaps expected_interval rest
            (gap_ranges ++ [mk_gap current_dt next_dt
                              (expected_rows * expected_interval) expected_rows])
            (missing_timestamps
               ++ map (fun j => current_dt + j * expected_interval)
                      (range_from 1 (expected_rows + 1)))
      else find_gaps expected_interval rest gap_ranges missing_timestamps
  | _ => Some (gap_ranges, missing_timestamps)
  end.

(** How the analysis ends. *)
Inductive analysis :=
| NoValidData
| NotEnoughData
| Gaps (expected_interval : Z) (gap_ranges : list gap) (missing_timestamps : list Z).

(** The [try] block of [find_missing_data] on the coerced column, with the
    custom interval when the box is ticked; [None] is an exception, which
    the handler reports. *)
Definition find_missing_data (custom : option (interval_unit * Z))
           (datetime_col : list (option Z)) : option analysis :=
  let datetime_col := dropna datetime_col in
  match datetime_col with
  | [] => Some NoValidData
  | _ =>
      let datetime_col := sort_values datetime_col in
      let time_diffs := diff datetime_col in
      if len time_diffs >? 0 then
        expected_interval <- idxmax time_diffs ;;
        let expected_interval := round_if_close expected_interval in
        let expected_interval :=
          match custom with
          | Some (interval_unit, custom_interval) =>
              custom_seconds interval_unit custom_interval
          | None => expected_interval
          end in
        found <- find_gaps expected_interval datetime_col [] [] ;;
        Some (Gaps expected_interval (fst found) (snd found))
      else Some NotEnoughData
  end.

(** ** Specification vocabulary *)







End GapAnalyzer.

(** * SheetMatcher: [validate_sheets] *)

Module SheetNames.

(** [set(names)]: the distinct names.  The order in which a set is walked
    is not part of the model; what is taken from a set below is its
    emptiness, its members and its sorted list. *)
Definition set_of (names : list string) : list string := nodup string_dec names.

(** [sheet in sheets] *)
Definition member (sheet : string) (sheets : list string) : bool :=
  existsb (String.eqb sheet) sheets.

(** [a - b] and [a.union(b)] *)
Definition difference (a b : list string) : list string :=
  filter (fun sheet => negb (member sheet b)) a.

Definition union (a b : list string) : list string := nodup string_dec (a ++ b).

(** [sorted(...)] on texts: by code points, a prefix first. *)
Fixpoint insert_name (sheet : string) (sorted : list string) : list string :=
  match sorted with
  | [] => [sheet]
  | other :: rest =>
      if String.leb sheet other then sheet :: sorted
      else other :: insert_name sheet rest
  end.

Fixpoint sorted (sheets : list string) : list string :=
  match sheets with
  | [] => []
  | sheet :: rest => insert_name sheet (sorted rest)
  end.

Inductive sheet_status := Match | Missing.

(** A row of the sheet comparison table; ["Y"] is [true]. *)
Record sheet_row := mk_sheet_row {
  sheet_name : string;
  in_template : bool;
  in_data_file : bool;
  status_of_sheet : sheet_status
}.

(** What is shown above the table: the success message, or the error with
    the missing sheets and the warning with the extra ones, each one shown
    when its set is not empty. *)
Inductive sheets_message :=
| AllSheetsMatch
| SheetsDiffer (missing_sheets extra_sheets : list string).

Record sheet_validation := mk_sheet_validation {
  message : sheets_message;
  comparison_data : list sheet_row
}.

Definition validate_sheets (template_names data_names : list string)
  : sheet_validation :=
  let template_sheets := set_of template_names in
  let data_sheets := set_of data_names in
  let missing_sheets := difference template_sheets data_sheets in
  let extra_sheets := difference data_sheets template_sheets in
  mk_sheet_validation
    (match missing_sheets, extra_sheets with
     | [], [] => AllSheetsMatch
     | _, _ => SheetsDiffer missing_sheets extra_sheets
     end)
    (map (fun sheet =>
            mk_sheet_row sheet
              (member sheet template_sheets)
              (member sheet data_sheets)
              (if member sheet template_sheets && member sheet data_sheets
               then Match else Missing))
         (sorted (union template_sheets data_sheets))).

End SheetNames.

(** * TimestampFormat: [format_timestamp] *)

Module TimestampFormat.
Import Text Frame Strptime.

Definition formats_to_try : list string :=
  ["%m/%d/%Y %I:%M:%S %p"; "%m/%d/%Y  %I:%M:%S %p"; "%m/%d/%Y %H:%M:%S";
   "%Y-%m-%d %H:%M:%S"; "%m/%d/%Y %I:%M %p"; "%m/%d/%Y  %I:%M %p";
   "%m/%d/%Y %H:%M"; "%Y-%m-%d %H:%M"; "%m/%d/%Y"; "%Y-%m-%d"]%string.

(** [for fmt in formats_to_try: try: dt = datetime.strptime(...); return ...
    except ValueError: continue]: the value the first pattern that parses
    gives. *)
Fixpoint try_formats (formats : list string) (timestamp_str : string)
  : option datetime :=
  match formats with
  | [] => None
  | fmt :: rest =>
      match strptime timestamp_str fmt with
      | Some dt => Some dt
      | None => try_formats rest timestamp_str
      end
  end.

Section WithRendering.

(** [dt.strftime('%Y/%m/%d %H:%M:%S')]: kept abstract, the padding of [%Y]
    below the year 1000 being the C library's. *)
Variable strftime : datetime -> string.

(** [pd.to_datetime(timestamp_value)] on a text, and the branch of the
    numbers (the Excel serial for [int] and [float], [pd.to_datetime] for
    the other numbers); [None] is an exception. *)
Variable text_to_datetime : string -> option datetime.
Variable number_to_datetime : string -> option datetime.

Definition format_timestamp (timestamp_value : cell) : string :=
  match timestamp_value with
  | CNull => String.EmptyString
  | CTimestamp ts => strftime ts
  | CStr text =>
      match try_formats formats_to_try (strip text) with
      | Some dt => strftime dt
      | None =>
          match text_to_datetime text with
          | Some dt => strftime dt
          | None => text
          end
      end
  | CNum repr =>
      match number_to_datetime repr with
      | Some dt => strftime dt
      | None => repr
      end
  end.

End WithRendering.

(** The patterns without the two that are written with a double space. *)
Definition single_space_formats : list string :=
  ["%m/%d/%Y %I:%M:%S %p"; "%m/%d/%Y %H:%M:%S"; "%Y-%m-%d %H:%M:%S";
   "%m/%d/%Y %I:%M %p"; "%m/%d/%Y %H:%M"; "%Y-%m-%d %H:%M";
   "%m/%d/%Y"; "%Y-%m-%d"]%string.

End TimestampFormat.

(** * SensorCsv: [create_sensor_csv] *)

Module SensorCsv.
Import Text Frame.

Definition quote : ascii := "034"%char.
Definition comma : ascii := ","%char.
Definition newline : ascii := "010"%char.

(** [c in s] for one character *)
Definition contains (c : ascii) (s : string) : bool :=
  existsb (Ascii.eqb c) (chars s).

(** [s.split(',')] *)
Fixpoint split_commas (s : string) : list string :=
  match s with
  | String.EmptyString => [String.EmptyString]
  | String c rest =>
      if (c =? comma)%char then String.EmptyString :: split_commas rest
      else
        match split_commas rest with
        | part :: parts => String c part :: parts
        | [] => [String c String.EmptyString]
        end
  end.

(** [sep.join(parts)] *)
Fixpoint join (sep : string) (parts : list string) : string :=
  match parts with
  | [] => String.EmptyString
  | [part] => part
  | part :: rest => (part ++ sep ++ join sep rest)%string
  end.

(** [s.lower()] on the letters A to Z; [str.lower] agrees with it on
    whether the result is one of ['nan'], ['none'] and the empty text. *)
Fixpoint lower (s : string) : string :=
  match s with
  | String.EmptyString => String.EmptyString
  | String c rest => String (FloatSyntax.lower c) (lower rest)
  end.


(** [str(template_df.iloc[row, col_index]).strip()]; [None] is
    [IndexError]. *)
Definition template_value (template_df : DataFrame) (row col_index : Z)
  : option string :=
  match iloc template_df row col_index with
  | Some value => Some (strip (str value))
  | None => None
  end.


(** [str(n)] of a number that is not negative. *)
Fixpoint decimal_loop (fuel : nat) (n : Z) (digits : string) : string :=
  match fuel with
  | O => digits
  | S fuel =>
      let digits := String (digit_char (n mod 10)) digits in
      if n / 10 =? 0 then digits else decimal_loop fuel (n / 10) digits
  end.

Definition decimal (n : Z) : string :=
  decimal_loop (S (Z.to_nat n)) n String.EmptyString.







Section WithTimestamps.

Variable format_timestamp : cell -> string.




End WithTimestamps.

(** ** Specification vocabulary: a reader of the records *)







End SensorCsv.

(** * RowInput: the rows asked for in [validate_columns_and_cells] *)

Module RowInput.
Import Text SensorCsv.

(** The digits of [int(text)] in base ten, after the sign: digits, with
    single underscores between digits only. *)
Fixpoint digits_value (after_digit : bool) (value : Z) (s : list ascii) : option Z :=
  match s with
  | [] => if after_digit then Some value else None
  | c :: rest =>
      if isdigit c then digits_value true (10 * value + (ord c - 48)) rest
      else if (c =? "_")%char && after_digit then digits_value false value rest
      else None
  end.

(** [int(text)]; [None] is [ValueError]. *)
Definition int_of (text : string) : option Z :=
  match chars (strip text) with
  | [] => None
  | c :: rest =>
      if (c =? "-")%char then
        match digits_value false 0 rest with
        | Some n => Some (- n)
        | None => None
        end
      else if (c =? "+")%char then digits_value false 0 rest
      else digits_value false 0 (c :: rest)
  end.

(** [[int(r.strip()) - 1 for r in items if r.strip()]] *)
Fixpoint rows_of (items : list string) : option (list Z) :=
  match items with
  | [] => Some []
  | r :: rest =>
      if (strip r =? String.EmptyString)%string then rows_of rest
      else
        n <- int_of (strip r) ;;
        tail <- rows_of rest ;;
        Some (n - 1 :: tail)
  end.

(** The [try] block on the text of the widget: [None] is its [except]
    branch, which shows "Invalid row numbers" and returns. *)
Definition parse_rows (row_input : string) : option (list Z) :=
  rows_of (split_commas row_input).

End RowInput.

(** * CsvExport: [export_data_to_csv_tab] after the button is pressed *)

Module CsvExport.
Import Text Frame SensorCsv.






Section WithTimestamps.

Variable format_timestamp : cell -> string.




End WithTimestamps.

End CsvExport.

(** * Summary: the figures shown after [validate_data] *)

Module Summary.
Import Frame DataValidation.

(** [total_issues] of [display_sheet_summary] *)
Definition total_issues (r : results) : Z :=
  len (issues r datetime_issues)
  + len (issues r datetime_format_issues)
  + len (issues r datetime_sequence_issues)
  + len (issues r numeric_issues)
  + len (issues r null_issues)
  + len (issues r special_char_issues)
  + len (issues r alphabetical_issues)
  + len (issues r empty_cell_issues).

(** What [display_sheet_summary] shows first: the success message, or the
    error message with the total of the issues. *)
Inductive sheet_summary :=
| AllChecksPassed
| IssuesFound (total_issues : Z).

Definition display_sheet_summary (r : results) : sheet_summary :=
  if is_valid r then AllChecksPassed else IssuesFound (total_issues r).

(** The three metrics of "All Sheets". *)
Definition total_sheets (validation_results : list (string * results)) : Z :=
  len validation_results.

Definition valid_sheets (validation_results : list (string * results)) : Z :=
  len (filter (fun entry => is_valid (snd entry)) validation_results).

Definition invalid_sheets (validation_results : list (string * results)) : Z :=
  total_sheets validation_results - valid_sheets validation_results.

End Summary.

(** * CellValidation: [validate_columns_and_cells] over the workbooks *)

Module CellValidation.
Import Frame.

(** [a.intersection(b)] *)
Definition intersection (a b : list string) : list string :=
  filter (fun sheet => SheetNames.member sheet b) a.

(** [sheet_data[sheet]]; [None] is [KeyError]. *)
Fixpoint lookup (sheet : string) (sheet_data : list (string * DataFrame))
  : option DataFrame :=
  match sheet_data with
  | [] => None
  | (name, df) :: rest => if (name =? sheet)%string then Some df else lookup sheet rest
  end.

(** How the check ends: with one of its two error messages, or with the
    check of every common sheet and [all_valid]. *)
Inductive outcome :=
| InvalidRowNumbers
| NoCommonSheets
| Checked (sheets : list (string * SheetComparator.sheet_check)) (all_valid : bool).

(** [for sheet in sorted(common_sheets)] *)
Fixpoint check_sheets (mode : SheetComparator.validation_mode)
         (rows_to_validate : list Z)
         (template_data data_to_validate : list (string * DataFrame))
         (sheets : list string)
  : option (list (string * SheetComparator.sheet_check)) :=
  match sheets with
  | [] => Some []
  | sheet :: rest =>
      template_df <- lookup sheet template_data ;;
      data_df <- lookup sheet data_to_validate ;;
      check <- SheetComparator.validate_sheet mode rows_to_validate
                 template_df data_df ;;
      tail <- check_sheets mode rows_to_validate template_data data_to_validate rest ;;
      Some ((sheet, check) :: tail)
  end.

(** A workbook is the list of its sheets by name, as [load_excel_file]
    gives them; [None] is an exception that leaves the function. *)
Definition validate_columns_and_cells (mode : SheetComparator.validation_mode)
           (row_input : string)
           (template_data data_to_validate : list (string * DataFrame))
  : option outcome :=
  match (match mode with
         | SheetComparator.SpecificRows => RowInput.parse_rows row_input
         | SheetComparator.AllRows => Some []
         end) with
  | None => Some InvalidRowNumbers
  | Some rows_to_validate =>
      let template_sheets := SheetNames.set_of (map fst template_data) in
      let data_sheets := SheetNames.set_of (map fst data_to_validate) in
      let common_sheets := intersection template_sheets data_sheets in
      match common_sheets with
      | [] => Some NoCommonSheets
      | _ =>
          checked <- check_sheets mode rows_to_validate template_data
                       data_to_validate (SheetNames.sorted common_sheets) ;;
          Some (Checked checked
                  (forallb (fun entry => SheetComparator.sheet_valid (snd entry))
                           checked))
      end
  end.

End CellValidation.

(** * Further specification vocabulary *)

Module Measures.
Import Text Frame ColumnAddressing DataValidation.

(** Letters of the ASCII alphabet, and the label with its small letters
    turned into capitals. *)
Definition is_capital (c : ascii) : bool := between 65 (ord c) 90.

Definition is_ascii_letter (c : ascii) : bool :=
  between 65 (ord c) 90 || between 97 (ord c) 122.

Definition capital_of (c : ascii) : ascii :=
  if between 97 (ord c) 122 then chr (ord c - 32) else c.

Fixpoint capitals (s : string) : string :=
  match s with
  | String.EmptyString => String.EmptyString
  | String c rest => String (capital_of c) (capitals rest)
  end.

(** The number of characters of a text. *)
Fixpoint size (s : string) : nat :=
  match s with
  | String.EmptyString => O
  | String _ rest => S (size rest)
  end.

(** How many issues an entry holds in a list of categories. *)
Fixpoint issue_count (keys : list category) (r : results) : Z :=
  match keys with
  | [] => 0
  | key :: rest => len (issues r key) + issue_count rest r
  end.

Definition cell_categories : list category :=
  [null_issues; empty_cell_issues; alphabetical_issues; special_char_issues;
   numeric_issues].

Definition row_categories : list category :=
  [datetime_issues; datetime_format_issues].

Definition datetime_categories : list category :=
  [datetime_issues; datetime_format_issues; datetime_sequence_issues].

(** The rows accounted for so far by the pass over the date and time
    columns: those reported and those combined. *)
Definition row_measure (r : results) (combined : list (Z * datetime)) : Z :=
  issue_count row_categories r + len combined.

(** [r'] differs from [r] at most in the two categories of the rows. *)
Definition outside_rows (r r' : results) : Prop :=
  (forall k, k <> datetime_issues -> k <> datetime_format_issues ->
             issues r' k = issues r k)
  /\ total_cells_validated r' = total_cells_validated r.

(** [r'] differs from [r] at most in the categories of the cells and in the
    number of cells. *)
Definition outside_cells (r r' : results) : Prop :=
  (forall k, In k datetime_categories -> issues r' k = issues r k)
  /\ total_rows_validated r' = total_rows_validated r.

(** The size of the two regions of a sheet that [validate_data] walks: the
    rows from the date and time starting row on, and the cells of the
    columns from the numeric starting column to the last column with data,
    from the numeric starting row on. *)
Definition datetime_region_rows (cfg : config) (date_col_idx time_col_idx : Z)
           (df : DataFrame) : Z :=
  if (len (rows df) >? datetime_start_row cfg - 1)
     && (date_col_idx <? len (columns df))
     && (time_col_idx <? len (columns df))
  then len (rows df) - (datetime_start_row cfg - 1)
  else 0.

Definition numeric_region_cells (cfg : config) (numeric_start_col_idx : Z)
           (df : DataFrame) : Z :=
  if (len (rows df) >? numeric_start_row cfg - 1)
     && (numeric_start_col_idx <? len (columns df))
  then Z.max 0 (last_col_with_data df + 1 - numeric_start_col_idx)
       * (len (rows df) - (numeric_start_row cfg - 1))
  else 0.

(** A comparison with every row number replaced by [row]: in the entries,
    in the mismatches and in their cell addresses. *)
Definition at_row (row : Z) (c : SheetComparator.comparison)
  : SheetComparator.comparison :=
  SheetComparator.mk_comparison
    (map (fun v => SheetComparator.mk_validated row
                     (SheetComparator.v_column v)
                     (SheetComparator.v_template_value v)
                     (SheetComparator.v_data_value v)
                     (SheetComparator.v_match v))
         (SheetComparator.validated_data c))
    (map (fun m => SheetComparator.mk_mismatch
                     (fst (SheetComparator.m_cell m), row) row
                     (SheetComparator.m_column m)
                     (SheetComparator.m_template_value m)
                     (SheetComparator.m_data_value m))
         (SheetComparator.text_cell_mismatches c)).

Definition check_at_row (row : Z) (check : SheetComparator.sheet_check)
  : SheetComparator.sheet_check :=
  SheetComparator.mk_sheet_check
    (SheetComparator.columns_match check)
    (at_row row (SheetComparator.cells check))
    (SheetComparator.sheet_valid check).


End Measures.

(** * Theorems *)

(** * ColumnAddressing: the two conversions are inverse on indices *)

Section ColumnAddressingFacts.
Import Text ColumnAddressing.

Lemma column_sum_weighted (l : list Z) :
  forall i result, column_sum l i result = result + weighted l i.
Proof.
  induction l as [|c l IH]; intros i result; cbn [column_sum weighted].
  - lia.
  - rewrite IH. replace (c - 65 + 1) with (c - 64) by lia. lia.
Qed.

Lemma weighted_shift (l : list Z) :
  forall i, 0 <= i -> weighted l (i + 1) = 26 * weighted l i.
Proof.
  induction l as [|c l IH]; intros i Hi; cbn [weighted].
  - lia.
  - rewrite IH by lia. rewrite Z.pow_add_r, Z.pow_1_r by lia. ring.
Qed.

Lemma ord_chr (n : Z) : 0 <= n < 256 -> ord (chr n) = n.
Proof.
  intros H. unfold ord, chr. rewrite nat_ascii_embedding by lia. lia.
Qed.

Lemma upper_char_capital (r : Z) :
  0 <= r < 26 -> upper_char (chr (65 + r)) = [65 + r].
Proof.
  intros H. unfold upper_char. rewrite ord_chr by lia.
  unfold between.
  repeat match goal with
         | |- context [?a <=? ?b] => destruct (Z.leb_spec a b); try lia
         | |- context [?a =? ?b] => destruct (Z.eqb_spec a b); try lia
         end; reflexivity.
Qed.

Lemma append_empty_r (s : string) : (s ++ String.EmptyString)%string = s.
Proof. induction s; simpl; congruence. Qed.

Lemma append_assoc (s t u : string) : ((s ++ t) ++ u = s ++ (t ++ u))%string.
Proof. induction s; simpl; congruence. Qed.

Lemma upper_app (s t : string) : upper (s ++ t)%string = upper s ++ upper t.
Proof.
  induction s as [|c s IH]; simpl; [reflexivity|].
  now rewrite IH, app_assoc.
Qed.

(** One run of the loop from [n >= 0] puts in front of [acc] a label of
    weight [n + 1], made of capitals. *)
Lemma column_name_loop_spec (fuel : nat) :
  forall n acc, 0 <= n -> (Z.to_nat n < fuel)%nat ->
    exists label,
      column_name_loop fuel n acc = Some (label ++ acc)%string
      /\ weighted (rev (upper label)) 0 = n + 1.
Proof.
  induction fuel as [|fuel IH]; intros n acc Hn Hfuel; [lia|].
  cbn [column_name_loop].
  pose proof (Z.mod_pos_bound n 26 ltac:(lia)) as Hr.
  pose proof (Z.div_mod n 26 ltac:(lia)) as Hdm.
  destruct (Z.eqb_spec (n / 26) 0) as [Hq|Hq].
  - exists (String (chr (65 + n mod 26)) EmptyString). split; [reflexivity|].
    cbn [upper]. rewrite app_nil_r, upper_char_capital by lia.
    cbn [rev app weighted]. rewrite Z.pow_0_r. lia.
  - assert (0 < n / 26) by (pose proof (Z.div_pos n 26); lia).
    destruct (IH (n / 26 - 1) (String (chr (65 + n mod 26)) acc)) as (label & Hrun & Hw);
      [lia | lia |].
    exists (label ++ String (chr (65 + n mod 26)) EmptyString)%string. split.
    + rewrite Hrun. f_equal. now rewrite append_assoc.
    + rewrite upper_app. cbn [upper]. rewrite app_nil_r, upper_char_capital by lia.
      rewrite rev_app_distr. cbn [rev app weighted].
      rewrite weighted_shift, Hw, Z.pow_0_r by lia. lia.
Qed.

(** On a negative index the loop has no last iteration. *)
Lemma column_name_loop_negative (fuel : nat) :
  forall n acc, n < 0 -> column_name_loop fuel n acc = None.
Proof.
  induction fuel as [|fuel IH]; intros n acc Hn; [reflexivity|].
  cbn [column_name_loop].
  assert (n / 26 < 0) by (apply Z.div_lt_upper_bound; lia).
  destruct (Z.eqb_spec (n / 26) 0); [lia|]. apply IH. lia.
Qed.

(** C7. For every index [i >= 0], [get_excel_column_name] returns a label
    and [column_letter_to_index] maps that label back to [i]; the labels of
    0, 25 and 26 are "A", "Z" and "AA". *)
Theorem column_index_roundtrip :
  (forall i, 0 <= i ->
     exists label, get_excel_column_name i = Some label
                   /\ column_letter_to_index label = i)
  /\ get_excel_column_name 0 = Some "A"%string
  /\ get_excel_column_name 25 = Some "Z"%string
  /\ get_excel_column_name 26 = Some "AA"%string.
Proof.
  split; [|repeat split; reflexivity].
  intros i Hi. unfold get_excel_column_name.
  destruct (column_name_loop_spec (S (Z.to_nat i)) i EmptyString Hi ltac:(lia))
    as (label & Hrun & Hw).
  exists label. split.
  - rewrite Hrun. f_equal. apply append_empty_r.
  - unfold column_letter_to_index. rewrite column_sum_weighted, Hw. lia.
Qed.

Lemma column_index_roundtrip_witness :
  0 <= 701 /\ exists label, get_excel_column_name 701 = Some label
                            /\ column_letter_to_index label = 701.
Proof.
  split; [lia | apply (proj1 column_index_roundtrip 701); lia].
Defined.

End ColumnAddressingFacts.

(** * SheetComparator: what [validate_columns_and_cells] compares *)

Section SheetComparatorFacts.
Import Text Frame ColumnAddressing SheetComparator.

Lemma py_index_inside {A} (l : list A) (i : Z) (d : A) :
  0 <= i < len l -> py_index l i = Some (nth (Z.to_nat i) l d).
Proof.
  intros H. unfold py_index, len in *.
  destruct (Z.leb_spec 0 i); [|lia].
  apply nth_error_nth'. lia.
Qed.

Lemma iloc_inside (df : DataFrame) (r c : Z) :
  rectangular df ->
  0 <= r < len (rows df) -> 0 <= c < len (columns df) ->
  iloc df r c = Some (value_at df r c).
Proof.
  intros Hrect Hr Hc. unfold iloc, value_at.
  rewrite (py_index_inside (rows df) r []) by assumption.
  apply py_index_inside.
  unfold rectangular in Hrect. rewrite Forall_forall in Hrect.
  unfold len in *. rewrite (Hrect (nth (Z.to_nat r) (rows df) [])); [assumption|].
  apply nth_In. lia.
Qed.

Lemma range_succ (n : Z) : 0 <= n -> range (n + 1) = range n ++ [n].
Proof.
  intros H. unfold range.
  replace (Z.to_nat (n + 1)) with (S (Z.to_nat n)) by lia.
  rewrite seq_S, map_app. cbn [map]. f_equal. f_equal. lia.
Qed.

Lemma range_bounds (n c : Z) : In c (range n) <-> 0 <= c < n.
Proof.
  unfold range. rewrite in_map_iff. split.
  - intros (k & <- & Hk). apply in_seq in Hk. lia.
  - intros H. exists (Z.to_nat c). split; [lia|]. apply in_seq. lia.
Qed.

Lemma get_excel_column_name_label (c : Z) :
  0 <= c -> get_excel_column_name c = Some (column_label c).
Proof.
  intros H. unfold column_label, get_excel_column_name.
  destruct (column_name_loop_spec (S (Z.to_nat c)) c EmptyString H ltac:(lia))
    as (label & Hrun & _).
  unfold get_excel_column_name. now rewrite Hrun.
Qed.

Variables template_df data_df : DataFrame.
Hypothesis template_rect : rectangular template_df.
Hypothesis data_rect : rectangular data_df.

(** The scan keeps the last column with data seen so far. *)
Lemma last_col_scan_fold (r : Z) (cols : list Z) :
  0 <= r < len (rows template_df) ->
  Forall (fun c => 0 <= c < len (columns template_df)) cols ->
  forall last,
    last_col_scan template_df r cols last =
    Some (fold_left (fun l c => if has_data (value_at template_df r c) then c else l)
                    cols last).
Proof.
  intros Hr Hcols. induction Hcols as [|c cols Hc _ IH]; intros last; cbn [last_col_scan fold_left].
  - reflexivity.
  - rewrite iloc_inside by assumption. apply IH.
Qed.

Lemma scan_watermark (r : Z) (n : nat) :
  let w := fold_left (fun l c => if has_data (value_at template_df r c) then c else l)
                     (range (Z.of_nat n)) (-1) in
  (w = -1 /\ forall c, 0 <= c < Z.of_nat n -> has_data (value_at template_df r c) = false)
  \/ (0 <= w < Z.of_nat n /\ has_data (value_at template_df r w) = true
      /\ forall c, w < c < Z.of_nat n -> has_data (value_at template_df r c) = false).
Proof.
  induction n as [|n IH]; cbn zeta.
  - left. split; [reflexivity | intros; lia].
  - replace (Z.of_nat (S n)) with (Z.of_nat n + 1) by lia.
    rewrite range_succ, fold_left_app by lia. cbn [fold_left].
    destruct (has_data (value_at template_df r (Z.of_nat n))) eqn:Hn.
    + right. split; [lia|]. split; [assumption | intros; lia].
    + cbn zeta in IH. destruct IH as [[Hw Hnone] | (Hw & Hdata & Hafter)].
      * left. split; [assumption|]. intros c Hc.
        destruct (Z.eq_dec c (Z.of_nat n)) as [->|]; [assumption | apply Hnone; lia].
      * right. split; [lia|]. split; [assumption|]. intros c Hc.
        destruct (Z.eq_dec c (Z.of_nat n)) as [->|]; [assumption | apply Hafter; lia].
Qed.

(** The comparison loop adds one entry per column and one mismatch per
    column whose trimmed texts differ. *)
Lemma compare_cols_spec (r : Z) (cols : list Z) :
  0 <= r < len (rows template_df) -> r < len (rows data_df) ->
  len (columns template_df) = len (columns data_df) ->
  Forall (fun c => 0 <= c < len (columns template_df)) cols ->
  forall acc,
    compare_cols template_df data_df r cols acc =
    Some (mk_comparison
            (validated_data acc ++ map (compared_at template_df data_df r) cols)
            (text_cell_mismatches acc
               ++ map (mismatch_at template_df data_df r)
                      (filter (differs template_df data_df r) cols))).
Proof.
  intros Hr Hr' Hcount Hcols.
  induction Hcols as [|c cols Hc _ IH]; intros acc; cbn [compare_cols map filter].
  - rewrite !app_nil_r. now destruct acc.
  - rewrite (py_index_inside (columns template_df) c String.EmptyString) by assumption.
    rewrite iloc_inside by assumption.
    rewrite iloc_inside by (try assumption; lia).
    fold (label_at template_df c). unfold differs at 1.
    destruct (cell_text (value_at template_df r c)
              =? cell_text (value_at data_df r c))%string eqn:Heq; cbn [negb].
    + rewrite IH. cbn [validated_data text_cell_mismatches].
      rewrite <- app_assoc. cbn [app].
      unfold compared_at at 2, differs. rewrite Heq. reflexivity.
    + rewrite get_excel_column_name_label by lia.
      rewrite IH. cbn [validated_data text_cell_mismatches map].
      rewrite <- !app_assoc. cbn [app].
      unfold compared_at at 2, differs. rewrite Heq. reflexivity.
Qed.

Lemma check_row_spec (r : Z) (acc : comparison) :
  0 <= r < len (rows template_df) -> r < len (rows data_df) ->
  len (columns template_df) = len (columns data_df) ->
  exists part,
    row_outcome template_df data_df r part
    /\ check_row template_df data_df r acc =
       Some (mk_comparison (validated_data acc ++ validated_data part)
                           (text_cell_mismatches acc ++ text_cell_mismatches part)).
Proof.
  intros Hr Hr' Hcount. unfold check_row.
  rewrite last_col_scan_fold;
    [| assumption | apply Forall_forall; intros c Hc; now apply range_bounds in Hc].
  pose proof (scan_watermark r (List.length (columns template_df))) as Hscan.
  cbn zeta in Hscan. fold (len (columns template_df)) in Hscan.
  destruct Hscan as [[Hw Hnone] | (Hw & Hdata & Hafter)].
  - rewrite Hw. cbn. eexists. split; [apply row_skipped; exact Hnone|].
    cbn. rewrite !app_nil_r. now destruct acc.
  - set (w := fold_left _ _ _) in *.
    destruct (Z.geb_spec w 0); [|lia].
    eexists. split; [apply (row_compared _ _ _ w); repeat split; try assumption; lia|].
    cbn [validated_data text_cell_mismatches].
    apply compare_cols_spec; try assumption.
    apply Forall_forall. intros c Hc. apply range_bounds in Hc. lia.
Qed.

Lemma check_rows_spec (valid_rows : list Z) :
  len (columns template_df) = len (columns data_df) ->
  Forall (fun r => 0 <= r < len (rows template_df) /\ r < len (rows data_df)) valid_rows ->
  forall acc, exists parts,
    Forall2 (row_outcome template_df data_df) valid_rows parts
    /\ check_rows template_df data_df valid_rows acc =
       Some (mk_comparison (validated_data acc ++ validated_data (join parts))
                           (text_cell_mismatches acc ++ text_cell_mismatches (join parts))).
Proof.
  intros Hcount Hrows. induction Hrows as [|r valid_rows [Hr Hr'] _ IH]; intros acc.
  - exists []. split; [constructor|]. cbn. rewrite !app_nil_r. now destruct acc.
  - cbn [check_rows].
    destruct (check_row_spec r acc Hr Hr' Hcount) as (part & Hpart & ->).
    destruct (IH (mk_comparison (validated_data acc ++ validated_data part)
                    (text_cell_mismatches acc ++ text_cell_mismatches part)))
      as (parts & Hparts & ->).
    exists (part :: parts). split; [now constructor|].
    cbn. now rewrite <- !app_assoc.
Qed.

End SheetComparatorFacts.

Section SheetComparatorClaims.
Import Text Frame ColumnAddressing SheetComparator.

Lemma present_rows_inside mode rows_to_validate template_df data_df :
  Forall (fun r => 0 <= r) rows_to_validate ->
  Forall (fun r => 0 <= r < len (rows template_df) /\ r < len (rows data_df))
         (present_rows mode rows_to_validate template_df data_df).
Proof.
  intros Hnonneg. apply Forall_forall. intros r Hr.
  unfold present_rows in Hr. apply filter_In in Hr. destruct Hr as [Hin Hlt].
  apply andb_true_iff in Hlt. destruct Hlt as [H1 H2].
  apply Z.ltb_lt in H1. apply Z.ltb_lt in H2.
  destruct mode.
  - rewrite Forall_forall in Hnonneg. specialize (Hnonneg r Hin). lia.
  - apply range_bounds in Hin. lia.
Qed.

(** C1 (amended). When template and data have the same number of columns,
    every requested row present in both tables contributes exactly what
    [row_outcome] says: nothing when the template row has no non-empty cell,
    otherwise one comparison per column from 0 to the watermark (the last
    column whose template cell is non-empty), by equality of the trimmed
    texts (null as the empty text), and one mismatch per compared column
    whose two texts differ.  When the numbers of columns differ, no cell is
    compared. *)
Theorem cells_compared_up_to_watermark
  (mode : validation_mode) (rows_to_validate : list Z)
  (template_df data_df : DataFrame) :
  rectangular template_df -> rectangular data_df ->
  Forall (fun r => 0 <= r) rows_to_validate ->
  (len (columns template_df) = len (columns data_df) ->
   exists parts,
     Forall2 (row_outcome template_df data_df)
             (present_rows mode rows_to_validate template_df data_df) parts
     /\ validate_sheet mode rows_to_validate template_df data_df =
        Some (mk_sheet_check true (join parts)
                (match text_cell_mismatches (join parts) with
                 | [] => true | _ => false end)))
  /\ (len (columns template_df) <> len (columns data_df) ->
      validate_sheet mode rows_to_validate template_df data_df =
      Some (mk_sheet_check false (mk_comparison [] []) false)).
Proof.
  intros Ht Hd Hnonneg. split; intros Hcount; unfold validate_sheet.
  - apply Z.eqb_eq in Hcount as Heqb. rewrite Heqb.
    destruct (check_rows_spec template_df data_df Ht Hd
                (present_rows mode rows_to_validate template_df data_df) Hcount
                (present_rows_inside mode rows_to_validate template_df data_df Hnonneg)
                (mk_comparison [] [])) as (parts & Hparts & Hrun).
    exists parts. split; [assumption|].
    unfold present_rows in Hrun. rewrite Hrun. cbn. reflexivity.
  - apply Z.eqb_neq in Hcount. rewrite Hcount. reflexivity.
Qed.

Lemma cells_compared_up_to_watermark_witness :
  let template_df :=
    mk_frame ["Date"; "Time"; "Value"]%string
      [[CStr "Date"; CStr " Time "; CNull]; [CNull; CNull; CNull]]%string in
  let data_df :=
    mk_frame ["Date"; "Time"; "Value"]%string
      [[CStr "Date"; CStr "time"; CStr "x"]; [CStr "y"; CNull; CNull]]%string in
  rectangular template_df /\ rectangular data_df
  /\ Forall (fun r => 0 <= r) [0; 1; 5]
  /\ len (columns template_df) = len (columns data_df)
  /\ exists parts,
       Forall2 (row_outcome template_df data_df)
               (present_rows SpecificRows [0; 1; 5] template_df data_df) parts
       /\ validate_sheet SpecificRows [0; 1; 5] template_df data_df =
          Some (mk_sheet_check true (join parts)
                  (match text_cell_mismatches (join parts) with
                   | [] => true | _ => false end)).
Proof.
  cbv zeta.
  assert (Hrect_t : rectangular (mk_frame ["Date"; "Time"; "Value"]%string
            [[CStr "Date"; CStr " Time "; CNull]; [CNull; CNull; CNull]]%string))
    by (repeat constructor).
  assert (Hrect_d : rectangular (mk_frame ["Date"; "Time"; "Value"]%string
            [[CStr "Date"; CStr "time"; CStr "x"]; [CStr "y"; CNull; CNull]]%string))
    by (repeat constructor).
  assert (Hrows : Forall (fun r => 0 <= r) [0; 1; 5]) by (repeat constructor; lia).
  repeat split; try assumption.
  exact (proj1 (cells_compared_up_to_watermark SpecificRows [0; 1; 5] _ _
                  Hrect_t Hrect_d Hrows) eq_refl).
Defined.

(** The run behind the witness: row 1 is compared up to its watermark
    (column B), the empty template row 2 is skipped, row 6 does not exist. *)
Example validate_sheet_run :
  validate_sheet SpecificRows [0; 1; 5]
    (mk_frame ["Date"; "Time"; "Value"]%string
       [[CStr "Date"; CStr " Time "; CNull]; [CNull; CNull; CNull]]%string)
    (mk_frame ["Date"; "Time"; "Value"]%string
       [[CStr "Date"; CStr "time"; CStr "x"]; [CStr "y"; CNull; CNull]]%string)
  = Some (mk_sheet_check true
            (mk_comparison
               [mk_validated 1 "Date" "Date" "Date" true;
                mk_validated 1 "Time" "Time" "time" false]%string
               [mk_mismatch ("B", 1) 1 "Time" "Time" "time"]%string)
            false).
Proof. vm_compute. reflexivity. Qed.

(** C1 as stated fails: with one template column and two data columns, the
    cell at the watermark of row 1 differs, and yet nothing is compared. *)
Lemma column_count_mismatch_suppresses_comparison :
  let template_df := mk_frame ["Name"]%string [[CStr "x"]]%string in
  let data_df := mk_frame ["Name"; "Extra"]%string [[CStr "y"; CNull]]%string in
  In 0 (present_rows SpecificRows [0] template_df data_df)
  /\ watermark template_df 0 0
  /\ differs template_df data_df 0 0 = true
  /\ exists check,
       validate_sheet SpecificRows [0] template_df data_df = Some check
       /\ columns_match check = false
       /\ validated_data (cells check) = []
       /\ text_cell_mismatches (cells check) = [].
Proof.
  cbv zeta. split; [left; reflexivity|]. split.
  - unfold watermark. cbn. split; [lia|]. split; [reflexivity|]. intros c Hc. lia.
  - split; [reflexivity|]. eexists. split; [vm_compute; reflexivity|]. cbn. auto.
Qed.

End SheetComparatorClaims.

(** * RowCountValidator: the expected number of rows *)

Section RowCountFacts.
Import Text Frame RowCount.

Lemma is_leap_year_leap (year : Z) : is_leap_year year = true <-> leap year.
Proof.
  unfold is_leap_year, leap.
  rewrite orb_true_iff, andb_true_iff, negb_true_iff, !Z.eqb_eq, Z.eqb_neq.
  reflexivity.
Qed.

Lemma get_days_in_month_days_in (month year : Z) :
  1 <= month <= 12 -> days_in month year (get_days_in_month month year).
Proof.
  intros H. unfold days_in, get_days_in_month.
  assert (Hcases : month = 1 \/ month = 2 \/ month = 3 \/ month = 4 \/ month = 5
                   \/ month = 6 \/ month = 7 \/ month = 8 \/ month = 9
                   \/ month = 10 \/ month = 11 \/ month = 12) by lia.
  destruct (is_leap_year year) eqn:Hleap.
  - apply is_leap_year_leap in Hleap.
    repeat (destruct Hcases as [-> | Hcases]); try subst month; cbn; tauto.
  - assert (~ leap year) by (rewrite <- is_leap_year_leap; congruence).
    repeat (destruct Hcases as [-> | Hcases]); try subst month; cbn; tauto.
Qed.

Variable parse_text : string -> option datetime.
Variable parse_number : string -> option datetime.

Lemma short_sheet_unknown (template_sheet data_sheet : DataFrame) :
  len (rows data_sheet) < 7 ->
  check_sheet parse_text parse_number template_sheet data_sheet =
  mk_check (len (rows template_sheet)) (len (rows data_sheet))
           Unknown Unknown StatusUnknown.
Proof.
  intros H. unfold check_sheet, expected_row_count.
  destruct (Z.geb_spec (len (rows data_sheet)) 7); [lia | reflexivity].
Qed.

Lemma anchor_unknown (template_sheet data_sheet : DataFrame) (anchor : cell) :
  7 <= len (rows data_sheet) ->
  iloc data_sheet 6 0 = Some anchor ->
  anchor = CNull \/ (exists s, anchor = CStr s /\ parse_text s = None) ->
  check_sheet parse_text parse_number template_sheet data_sheet =
  mk_check (len (rows template_sheet)) (len (rows data_sheet))
           Unknown Unknown StatusUnknown.
Proof.
  intros Hlen Hcell Hanchor. unfold check_sheet, expected_row_count.
  destruct (Z.geb_spec (len (rows data_sheet)) 7); [|lia].
  rewrite Hcell.
  destruct Hanchor as [-> | (s & -> & Hparse)]; cbn; [reflexivity|].
  now rewrite Hparse.
Qed.

Lemma anchor_date (template_sheet data_sheet : DataFrame) (anchor : cell) (ts : datetime) :
  7 <= len (rows data_sheet) ->
  iloc data_sheet 6 0 = Some anchor ->
  isna anchor = false ->
  to_datetime parse_text parse_number anchor = Some ts ->
  expected_row_count parse_text parse_number data_sheet =
  Some (Some (get_days_in_month (month ts) (year ts),
              month ts * 60 * 24 * get_days_in_month (month ts) (year ts) + 7)).
Proof.
  intros Hlen Hcell Hna Hts. unfold expected_row_count.
  destruct (Z.geb_spec (len (rows data_sheet)) 7); [|lia].
  rewrite Hcell, Hna, Hts. now destruct (is_str anchor).
Qed.

(** A conversion that raises on an anchor that is not text reaches the
    handler of the sheet: the entry is ["Error"], not ["Unknown"]. *)
Lemma anchor_error (template_sheet data_sheet : DataFrame) (repr : string) :
  7 <= len (rows data_sheet) ->
  iloc data_sheet 6 0 = Some (CNum repr) ->
  parse_number repr = None ->
  expected_rows (check_sheet parse_text parse_number template_sheet data_sheet) = Error.
Proof.
  intros Hlen Hcell Hparse. unfold check_sheet, expected_row_count.
  destruct (Z.geb_spec (len (rows data_sheet)) 7); [|lia].
  rewrite Hcell. cbn. now rewrite Hparse.
Qed.

(** C6. The expected row count is read from the cell at row index 6,
    column 0: it is [month * 60 * 24 * days + 7] with [days] the number of
    days of that month (30 for April, June, September, November; 28 or 29
    for February by the leap-year rule; 31 otherwise), and it is Unknown
    when the sheet has fewer than 7 rows, when the anchor is empty and when
    the anchor is a text that does not parse.  A date in January gives
    44647, a date in February of a non-leap year 80647. *)
Theorem expected_row_count_formula (template_sheet data_sheet : DataFrame) :
  (len (rows data_sheet) < 7 -> expected_rows (check_sheet parse_text parse_number template_sheet data_sheet) = Unknown)
  /\ (forall anchor,
        7 <= len (rows data_sheet) ->
        iloc data_sheet 6 0 = Some anchor ->
        anchor = CNull \/ (exists s, anchor = CStr s /\ parse_text s = None) ->
        expected_rows (check_sheet parse_text parse_number template_sheet data_sheet) = Unknown)
  /\ (forall anchor ts,
        7 <= len (rows data_sheet) ->
        iloc data_sheet 6 0 = Some anchor ->
        isna anchor = false ->
        to_datetime parse_text parse_number anchor = Some ts ->
        1 <= month ts <= 12 ->
        exists days,
          days_in (month ts) (year ts) days
          /\ expected_rows (check_sheet parse_text parse_number template_sheet data_sheet)
             = Rows (month ts * 60 * 24 * days + 7)
          /\ (month ts = 1 -> expected_rows (check_sheet parse_text parse_number template_sheet data_sheet) = Rows 44647)
          /\ (month ts = 2 -> ~ leap (year ts) ->
              expected_rows (check_sheet parse_text parse_number template_sheet data_sheet) = Rows 80647)).
Proof.
  split; [|split].
  - intros H. now rewrite short_sheet_unknown.
  - intros anchor Hlen Hcell Hanchor. now rewrite (anchor_unknown _ _ anchor).
  - intros anchor ts Hlen Hcell Hna Hts Hmonth.
    pose proof (anchor_date template_sheet data_sheet anchor ts Hlen Hcell Hna Hts) as Hrun.
    pose proof (get_days_in_month_days_in (month ts) (year ts) Hmonth) as Hdays.
    exists (get_days_in_month (month ts) (year ts)).
    unfold check_sheet. rewrite Hrun. cbn [expected_rows].
    split; [assumption|]. split; [reflexivity|]. split.
    + intros Hjan. rewrite Hjan. reflexivity.
    + intros Hfeb Hnot. rewrite Hfeb. unfold get_days_in_month. cbn.
      destruct (is_leap_year (year ts)) eqn:Hleap.
      * apply is_leap_year_leap in Hleap. contradiction.
      * reflexivity.
Qed.

End RowCountFacts.

Section RowCountRuns.
Import Text Frame RowCount.

Lemma expected_row_count_formula_witness :
  let no_parse := fun _ : string => @None datetime in
  let feb := CTimestamp (mk_datetime 2026 2 9 0 0 0) in
  let sheet := one_column 7 feb in
  len (rows (one_column 3 feb)) < 7
  /\ expected_rows (check_sheet no_parse no_parse sheet (one_column 3 feb)) = Unknown
  /\ expected_rows (check_sheet no_parse no_parse sheet (one_column 7 (CStr "soon"))) = Unknown
  /\ expected_rows (check_sheet no_parse no_parse sheet sheet) = Rows 80647.
Proof.
  cbv zeta.
  pose (no_parse := fun _ : string => @None datetime).
  pose (feb := CTimestamp (mk_datetime 2026 2 9 0 0 0)).
  assert (Hshort : len (rows (one_column 3 feb)) < 7) by (cbn; lia).
  split; [exact Hshort|]. split; [|split].
  - exact (proj1 (expected_row_count_formula no_parse no_parse
                    (one_column 7 feb) (one_column 3 feb)) Hshort).
  - refine (proj1 (proj2 (expected_row_count_formula no_parse no_parse
                    (one_column 7 feb) (one_column 7 (CStr "soon"))))
                  (CStr "soon") _ eq_refl _).
    + cbn; lia.
    + right. exists "soon"%string. split; reflexivity.
  - destruct (proj2 (proj2 (expected_row_count_formula no_parse no_parse
                    (one_column 7 feb) (one_column 7 feb)))
                  feb (mk_datetime 2026 2 9 0 0 0)) as (days & _ & _ & _ & Hfeb).
    + cbn; lia.
    + reflexivity.
    + reflexivity.
    + reflexivity.
    + cbn; lia.
    + apply Hfeb; [reflexivity|].
      unfold leap. cbn. intros [[H _] | H]; discriminate.
Defined.

End RowCountRuns.

(** * FormatDetector: the detection pass of [validate_data] *)

Section FormatDetectorFacts.
Import Text Frame Strptime DataValidation.

Variable formats : list string.

Lemma first_parse_none (text : string) :
  first_parse formats text = None <->
  Forall (fun f => strptime text f = None) formats.
Proof.
  induction formats as [|fmt rest IH]; cbn [first_parse].
  - split; [constructor | reflexivity].
  - destruct (strptime text fmt) eqn:Hfmt.
    + split; [discriminate|]. intros H. inversion H; congruence.
    + rewrite IH. split; [now constructor | intros H; now inversion H].
Qed.

Lemma first_parse_some (text fmt : string) (parsed : datetime) :
  first_parse formats text = Some (fmt, parsed) ->
  first_matching formats text fmt /\ strptime text fmt = Some parsed.
Proof.
  unfold first_matching.
  induction formats as [|f rest IH]; cbn [first_parse]; [discriminate|].
  destruct (strptime text f) eqn:Hf.
  - intros [= <- <-]. split; [|assumption].
    exists [], rest. split; [reflexivity|]. split; [congruence | constructor].
  - intros Hrest. destruct (IH Hrest) as [(earlier & later & -> & Hok & Hnone) Hparsed].
    split; [|assumption].
    exists (f :: earlier), later. split; [reflexivity|].
    split; [assumption | now constructor].
Qed.

Lemma first_matching_parse (text fmt : string) :
  first_matching formats text fmt ->
  exists parsed, first_parse formats text = Some (fmt, parsed).
Proof.
  intros (earlier & later & -> & Hok & Hnone).
  induction Hnone as [|f earlier Hf _ IH]; cbn [app first_parse].
  - destruct (strptime text fmt) as [parsed|]; [now exists parsed | congruence].
  - now rewrite Hf.
Qed.

Lemma detect_format_passes (before rest : list cell) :
  Forall (passed_over formats) before ->
  detect_format formats (before ++ rest) = detect_format formats rest.
Proof.
  induction 1 as [|val before Hval _ IH]; cbn [app detect_format]; [reflexivity|].
  destruct Hval as [-> | [Hdt Hnone]]; [assumption|].
  destruct (isna val); [assumption|]. rewrite Hdt.
  apply first_parse_none in Hnone. now rewrite Hnone.
Qed.

Lemma detect_format_none (data : list cell) :
  detect_format formats data = None <-> Forall (passed_over formats) data.
Proof.
  induction data as [|val rest IH]; cbn [detect_format].
  - split; [constructor | reflexivity].
  - unfold passed_over at 1. destruct (isna val) eqn:Hna.
    + rewrite IH. split; [intros H; constructor; [now left | assumption]
                         | intros H; now inversion H].
    + destruct (is_datetime val) eqn:Hdt.
      * split; [discriminate|]. intros H. inversion H as [|? ? [? | [? _]] _]; congruence.
      * destruct (first_parse formats (strip (str val))) as [[fmt parsed]|] eqn:Hparse.
        -- split; [discriminate|]. intros H.
           inversion H as [|? ? [? | [_ Hnone]] _]; [congruence|].
           apply first_parse_none in Hnone. congruence.
        -- rewrite IH. apply first_parse_none in Hparse.
           split; [intros H; constructor; [right; now split | assumption]
                  | intros H; now inversion H].
Qed.

End FormatDetectorFacts.

Section FormatDetectorClaims.
Import Text Frame Strptime DataValidation.

(** C4. The detection loop decides at the first cell it does not pass over
    (a null, or a text that no pattern parses): a date-time value there
    gives ['datetime_object']; a text there gives the first pattern, in
    the declared order, that parses its trimmed text, whatever the cells
    after it hold; when every cell is passed over the result is [None].
    For ["09.01.2026"; "10.01.2026"] the date pattern is [%d.%m.%Y], for
    ["not-a-date"] it is [None]. *)
Theorem detect_format_first_classified
  (formats : list string) (before after : list cell) (val : cell) :
  Forall (passed_over formats) before ->
  (isna val = false -> is_datetime val = true ->
   detect_format formats (before ++ val :: after) = Some datetime_object)
  /\ (forall fmt,
        isna val = false -> is_datetime val = false ->
        first_matching formats (strip (str val)) fmt ->
        detect_format formats (before ++ val :: after) = Some fmt)
  /\ (detect_format formats before = None)
  /\ detect_format date_formats_to_try [CStr "09.01.2026"; CStr "10.01.2026"]
     = Some "%d.%m.%Y"%string
  /\ detect_format date_formats_to_try [CStr "not-a-date"] = None.
Proof.
  intros Hbefore. repeat split.
  - intros Hna Hdt. rewrite detect_format_passes by assumption.
    cbn [detect_format]. now rewrite Hna, Hdt.
  - intros fmt Hna Hdt Hfirst. rewrite detect_format_passes by assumption.
    cbn [detect_format]. rewrite Hna, Hdt.
    destruct (first_matching_parse formats _ _ Hfirst) as (parsed & ->). reflexivity.
  - now apply detect_format_none.
Qed.

Lemma detect_format_first_classified_witness :
  Forall (passed_over date_formats_to_try) [CNull; CStr "n/a"]
  /\ detect_format date_formats_to_try
       ([CNull; CStr "n/a"] ++ CStr " 2026-01-09 " :: [CStr "10.01.2026"])
     = Some "%Y-%m-%d"%string.
Proof.
  assert (Hbefore : Forall (passed_over date_formats_to_try) [CNull; CStr "n/a"]).
  { constructor; [now left|]. constructor; [|constructor].
    right. split; [reflexivity|]. repeat constructor. }
  split; [exact Hbefore|].
  refine (proj1 (proj2 (detect_format_first_classified date_formats_to_try
                          [CNull; CStr "n/a"] [CStr "10.01.2026"]
                          (CStr " 2026-01-09 ") Hbefore))
                "%Y-%m-%d"%string eq_refl eq_refl _).
  exists ["%d.%m.%Y"; "%d/%m/%Y"; "%d-%m-%Y"; "%Y.%m.%d"; "%Y/%m/%d"]%string,
         ["%m.%d.%Y"; "%m/%d/%Y"; "%m-%d-%Y"]%string.
  split; [reflexivity|]. split; [discriminate|]. repeat constructor.
Defined.

End FormatDetectorClaims.

(** * DateTimeValidator: the fallback used when no format was detected *)

Section FallbackFacts.
Import Text Frame Strptime DataValidation.

Variable formats : list string.
Variable not_in_format : string -> string -> issue.
Variable not_parsed : string -> issue.

(** The fallback rejects a value exactly when no pattern parses it. *)
Lemma fallback_rejects_iff (val : cell) :
  is_datetime val = false ->
  (parse_value formats None not_in_format not_parsed val
   = Rejected (not_parsed (strip (str val)))
   <-> Forall (fun f => strptime (strip (str val)) f = None) formats)
  /\ (forall parsed,
        parse_value formats None not_in_format not_parsed val = Parsed parsed ->
        exists fmt d, parsed = Some d
                      /\ first_matching formats (strip (str val)) fmt
                      /\ strptime (strip (str val)) fmt = Some d).
Proof.
  intros Hdt. rewrite <- first_parse_none.
  assert (Hrun : parse_value formats None not_in_format not_parsed val =
                 match first_parse formats (strip (str val)) with
                 | Some (_, parsed) => Parsed (Some parsed)
                 | None => Rejected (not_parsed (strip (str val)))
                 end) by (destruct val; try discriminate; reflexivity).
  rewrite Hrun.
  destruct (first_parse formats (strip (str val))) as [[fmt d]|] eqn:Hparse.
  - split; [split; discriminate|].
    intros parsed [= <-]. exists fmt, d.
    destruct (first_parse_some formats _ _ _ Hparse). auto.
  - split; [split; reflexivity | discriminate].
Qed.

(** A column without a detected format holds no value the fallback accepts. *)
Lemma undetected_rejects (data : list cell) (val : cell) :
  detect_format formats data = None ->
  In val data -> isna val = false ->
  is_datetime val = false
  /\ Forall (fun f => strptime (strip (str val)) f = None) formats
  /\ parse_value formats None not_in_format not_parsed val
     = Rejected (not_parsed (strip (str val))).
Proof.
  intros Hnone Hin Hna.
  apply detect_format_none in Hnone. rewrite Forall_forall in Hnone.
  destruct (Hnone val Hin) as [Hnull | [Hdt Hfail]]; [congruence|].
  split; [assumption|]. split; [assumption|].
  now apply fallback_rejects_iff.
Qed.

End FallbackFacts.

Section FallbackClaims.
Import Text Frame Strptime DataValidation.

Lemma add_issue_same (key : category) (message : issue) (r : results) :
  issues (add_issue key message r) key = issues r key ++ [message].
Proof.
  cbn. now destruct key.
Qed.

Lemma add_issue_other (key k : category) (message : issue) (r : results) :
  k <> key -> issues (add_issue key message r) k = issues r k.
Proof.
  intros Hk. cbn. destruct k, key; try reflexivity; contradiction.
Qed.

(** With no detected date format, the pass combines nothing and adds, for
    every row whose date and time are present, the message that the date
    could not be parsed. *)
Lemma validate_entries_undetected (date_col time_col : string)
      (time_format : option string) (entries : list (cell * cell)) :
  detect_format date_formats_to_try (map fst entries) = None ->
  forall actual_row_num r combined,
    let '(r', combined') :=
      validate_entries date_col time_col None time_format actual_row_num
        entries r combined in
    combined' = combined
    /\ issues r' datetime_format_issues
       = issues r datetime_format_issues
         ++ unparsed_dates date_col actual_row_num entries.
Proof.
  induction entries as [|[date_val time_val] rest IH]; intros Hnone row r combined.
  - cbn. now rewrite app_nil_r.
  - assert (Hrest : detect_format date_formats_to_try (map fst rest) = None).
    { apply detect_format_none in Hnone. apply detect_format_none.
      now inversion Hnone. }
    cbn [validate_entries unparsed_dates].
    destruct (isna date_val) eqn:Hd; cbn [negb andb app].
    + specialize (IH Hrest (row + 1)
                     (add_issue datetime_issues (EmptyDate row date_col) r) combined).
      destruct (validate_entries _ _ _ _ _ rest _ _) as [r' combined'].
      now rewrite add_issue_other in IH by discriminate.
    + destruct (isna time_val) eqn:Ht; cbn [negb andb app].
      * specialize (IH Hrest (row + 1)
                       (add_issue datetime_issues (EmptyTime row time_col) r) combined).
        destruct (validate_entries _ _ _ _ _ rest _ _) as [r' combined'].
        now rewrite add_issue_other in IH by discriminate.
      * destruct (undetected_rejects date_formats_to_try
                    (DateNotInFormat row date_col) (DateNotParsed row date_col)
                    (map fst (( date_val, time_val) :: rest)) date_val Hnone
                    (or_introl eq_refl) Hd) as (_ & _ & ->).
        specialize (IH Hrest (row + 1)
                       (add_issue datetime_format_issues
                          (DateNotParsed row date_col (strip (str date_val))) r)
                       combined).
        destruct (validate_entries _ _ _ _ _ rest _ _) as [r' combined'].
        rewrite add_issue_same, <- app_assoc in IH. exact IH.
Qed.

(** C10 (amended). When no format could be detected for a column, every
    non-null value of the column matches none of the patterns: the
    fallback, which tries every pattern in the declared order and rejects a
    value exactly when none parses it, rejects each of them with a
    [datetime_format] issue.  For the date column, the pass then combines
    no instant and records that issue for every row whose date and time
    are both present. *)
Theorem undetected_format_rejects_every_value
  (formats : list string) (not_in_format : string -> string -> issue)
  (not_parsed : string -> issue) (data : list cell) :
  detect_format formats data = None ->
  (forall val, In val data -> isna val = false ->
     Forall (fun f => strptime (strip (str val)) f = None) formats
     /\ parse_value formats None not_in_format not_parsed val
        = Rejected (not_parsed (strip (str val))))
  /\ (forall val, is_datetime val = false ->
        (parse_value formats None not_in_format not_parsed val
         = Rejected (not_parsed (strip (str val)))
         <-> Forall (fun f => strptime (strip (str val)) f = None) formats))
  /\ (forall date_col time_col time_format entries actual_row_num r combined,
        detect_format date_formats_to_try (map fst entries) = None ->
        snd (validate_entries date_col time_col None time_format actual_row_num
               entries r combined) = combined
        /\ issues (fst (validate_entries date_col time_col None time_format
                          actual_row_num entries r combined))
                  datetime_format_issues
           = issues r datetime_format_issues
             ++ unparsed_dates date_col actual_row_num entries).
Proof.
  intros Hnone. split; [|split].
  - intros val Hin Hna.
    destruct (undetected_rejects formats not_in_format not_parsed data val Hnone Hin Hna)
      as (_ & Hfail & Hrej). now split.
  - intros val Hdt. now apply fallback_rejects_iff.
  - intros date_col time_col time_format entries row r combined Hentries.
    pose proof (validate_entries_undetected date_col time_col time_format entries
                  Hentries row r combined) as H.
    destruct (validate_entries _ _ _ _ _ entries _ _) as [r' combined']. exact H.
Qed.

Lemma undetected_format_rejects_every_value_witness :
  let data := [CStr "9 Jan 2026"; CNull; CStr "2026-01-10T00:00"] in
  detect_format date_formats_to_try data = None
  /\ forall val, In val data -> isna val = false ->
       Forall (fun f => strptime (strip (str val)) f = None) date_formats_to_try
       /\ parse_value date_formats_to_try None (DateNotInFormat 8 "A")
            (DateNotParsed 8 "A") val
          = Rejected (DateNotParsed 8 "A" (strip (str val))).
Proof.
  cbv zeta. split; [reflexivity|].
  exact (proj1 (undetected_format_rejects_every_value date_formats_to_try
                  (DateNotInFormat 8 "A") (DateNotParsed 8 "A")
                  [CStr "9 Jan 2026"; CNull; CStr "2026-01-10T00:00"] eq_refl)).
Defined.

(** C10 as stated fails: no column without a detected format holds a value
    that the fallback parses, so values "in differing formats" are never
    accepted by it.  Two dates in differing formats lock the format of the
    first and the second is reported; two dates that no pattern parses
    leave the format undetected and both are reported. *)
Lemma fallback_never_accepts :
  (~ exists (data : list cell) (val : cell) (parsed : option datetime),
       detect_format date_formats_to_try data = None
       /\ In val data /\ isna val = false
       /\ parse_value date_formats_to_try None (DateNotInFormat 8 "A")
            (DateNotParsed 8 "A") val = Parsed parsed)
  /\ (let entries := [(CStr "09.01.2026", CStr "10:00:00");
                      (CStr "2026-01-10", CStr "10:01:00")] in
      detect_format date_formats_to_try (map fst entries) = Some "%d.%m.%Y"%string
      /\ issues (fst (validate_entries "A" "B" (Some "%d.%m.%Y"%string)
                        (Some "%H:%M:%S"%string) 8 entries initial_results []))
                datetime_format_issues
         = [DateNotInFormat 9 "A" "2026-01-10" "%d.%m.%Y"])
  /\ (let entries := [(CStr "9 Jan 2026", CStr "10:00:00");
                      (CStr "2026-01-10T00:00", CStr "10:01:00")] in
      detect_format date_formats_to_try (map fst entries) = None
      /\ validate_entries "A" "B" None (Some "%H:%M:%S"%string) 8 entries
           initial_results []
         = (add_issue datetime_format_issues (DateNotParsed 9 "A" "2026-01-10T00:00")
              (add_issue datetime_format_issues (DateNotParsed 8 "A" "9 Jan 2026")
                 initial_results),
            [])).
Proof.
  split; [|split; split; reflexivity].
  intros (data & val & parsed & Hnone & Hin & Hna & Hparsed).
  destruct (undetected_rejects date_formats_to_try (DateNotInFormat 8 "A")
              (DateNotParsed 8 "A") data val Hnone Hin Hna) as (_ & _ & Hrej).
  congruence.
Qed.

End FallbackClaims.

(** * DateTimeValidator: the expected interval and the sequence check *)

Section CounterFacts.
Import Text Frame Strptime DataValidation.

Lemma count_nonneg (x : Z) (xs : list Z) : 0 <= count x xs.
Proof.
  induction xs as [|y xs IH]; cbn [count]; [lia|].
  destruct (y =? x); lia.
Qed.

Lemma count_positive (x : Z) (xs : list Z) : 0 < count x xs -> In x xs.
Proof.
  induction xs as [|y xs IH]; cbn [count]; [lia|].
  destruct (Z.eqb_spec y x); [now left | intros H; right; apply IH; lia].
Qed.

Lemma tally_count_one (x k : Z) (counts : list (Z * Z)) :
  tally (count_one x counts) k = tally counts k + (if x =? k then 1 else 0).
Proof.
  unfold tally.
  induction counts as [|[key n] counts IH]; cbn [count_one find fst snd].
  - destruct (Z.eqb_spec x k); reflexivity.
  - destruct (Z.eqb_spec key x) as [->|Hkey]; cbn [find fst snd].
    + destruct (Z.eqb_spec x k); cbn [snd]; lia.
    + destruct (Z.eqb_spec key k) as [->|Hk]; cbn [snd].
      * destruct (Z.eqb_spec x k); [congruence | lia].
      * exact IH.
Qed.

Lemma tally_fold (xs : list Z) :
  forall counts k,
    tally (fold_left (fun counts x => count_one x counts) xs counts) k
    = tally counts k + count k xs.
Proof.
  induction xs as [|x xs IH]; intros counts k; cbn [fold_left count]; [lia|].
  rewrite IH, tally_count_one. lia.
Qed.

Lemma tally_Counter (xs : list Z) (k : Z) : tally (Counter xs) k = count k xs.
Proof.
  unfold Counter. now rewrite tally_fold.
Qed.

Lemma keys_count_one (x : Z) (counts : list (Z * Z)) :
  map fst (count_one x counts)
  = if existsb (fun key => key =? x) (map fst counts)
    then map fst counts else map fst counts ++ [x].
Proof.
  induction counts as [|[key n] counts IH]; cbn [count_one map fst existsb app].
  - reflexivity.
  - destruct (Z.eqb_spec key x); cbn [orb map fst]; [reflexivity|].
    rewrite IH. now destruct (existsb _ _).
Qed.

Lemma keys_nodup_count_one (x : Z) (counts : list (Z * Z)) :
  NoDup (map fst counts) -> NoDup (map fst (count_one x counts)).
Proof.
  intros Hnodup. rewrite keys_count_one.
  destruct (existsb _ _) eqn:Hex; [assumption|].
  apply NoDup_app; [assumption | repeat constructor; intros [] | ].
  intros key Hkey [<- | []].
  assert (existsb (fun k => k =? x) (map fst counts) = true); [|congruence].
  apply existsb_exists. exists x. split; [assumption | apply Z.eqb_refl].
Qed.

Lemma keys_nodup_fold (xs : list Z) :
  forall counts, NoDup (map fst counts) ->
    NoDup (map fst (fold_left (fun counts x => count_one x counts) xs counts)).
Proof.
  induction xs as [|x xs IH]; intros counts H; cbn [fold_left]; [assumption|].
  apply IH. now apply keys_nodup_count_one.
Qed.

(** With distinct keys, an entry holds the tally of its key. *)
Lemma tally_entry (counts : list (Z * Z)) (k n : Z) :
  NoDup (map fst counts) -> In (k, n) counts -> tally counts k = n.
Proof.
  unfold tally.
  induction counts as [|[key m] counts IH]; intros Hnodup Hin; [contradiction|].
  cbn [map fst] in Hnodup. inversion Hnodup as [|? ? Hnotin Hrest]; subst.
  cbn [find fst snd]. destruct Hin as [[= -> ->] | Hin].
  - now rewrite Z.eqb_refl.
  - destruct (Z.eqb_spec key k) as [->|Hk].
    + exfalso. apply Hnotin. apply in_map_iff. now exists (k, n).
    + now apply IH.
Qed.

Lemma tally_bound (counts : list (Z * Z)) (k bound : Z) :
  0 <= bound -> (forall item, In item counts -> snd item <= bound) ->
  tally counts k <= bound.
Proof.
  intros Hbound Hall. unfold tally.
  destruct (find _ counts) as [p|] eqn:Hfind; [|assumption].
  apply find_some in Hfind. now apply Hall.
Qed.

Lemma max_by_count_spec (items : list (Z * Z)) :
  forall best,
    let b := max_by_count best items in
    In b (best :: items)
    /\ forall item, In item (best :: items) -> snd item <= snd b.
Proof.
  induction items as [|item items IH]; intros best; cbn [max_by_count]; cbn zeta.
  - split; [now left|]. intros item [<- | []]. lia.
  - specialize (IH (if snd best <? snd item then item else best)). cbn zeta in IH.
    destruct IH as [Hin Hmax]. split.
    + destruct Hin as [Hin | Hin]; [|right; now right].
      rewrite <- Hin. destruct (snd best <? snd item); [right; now left | now left].
    + intros it Hit.
      assert (Hstep : snd best <= snd (if snd best <? snd item then item else best)
                      /\ snd item <= snd (if snd best <? snd item then item else best)).
      { destruct (Z.ltb_spec (snd best) (snd item)); lia. }
      pose proof (Hmax _ (or_introl eq_refl)) as Hcur.
      destruct Hit as [<- | [<- | Hit]]; [lia | lia |].
      apply Hmax. now right.
Qed.

(** [most_common] of the counter of a non-empty list is a statistical mode. *)
Lemma most_common_mode (xs : list Z) :
  xs <> [] -> exists m, most_common (Counter xs) = Some m /\ statistical_mode xs m.
Proof.
  intros Hxs.
  assert (Hnodup : NoDup (map fst (Counter xs)))
    by (apply keys_nodup_fold; constructor).
  destruct (Counter xs) as [|item items] eqn:Hcounter.
  - exfalso. destruct xs as [|x xs]; [congruence|].
    pose proof (tally_Counter (x :: xs) x) as Ht. rewrite Hcounter in Ht.
    cbn [tally find count] in Ht. rewrite Z.eqb_refl in Ht.
    pose proof (count_nonneg x xs). lia.
  - cbn [most_common]. eexists. split; [reflexivity|].
    destruct (max_by_count_spec items item) as [Hin Hmax]. cbn zeta in *.
    set (best := max_by_count item items) in *.
    assert (Hbest : tally (item :: items) (fst best) = snd best)
      by (apply tally_entry; [assumption | now destruct best]).
    rewrite <- Hcounter, tally_Counter in Hbest.
    assert (Hpos : forall it, In it (item :: items) -> 0 < snd it).
    { intros it Hit.
      assert (Hit' : tally (item :: items) (fst it) = snd it)
        by (apply tally_entry; [assumption | now destruct it]).
      rewrite <- Hcounter, tally_Counter in Hit'.
      rewrite <- Hcounter in Hit. unfold Counter in Hit.
      assert (Hkey : forall ys counts,
                 (forall e, In e counts -> 0 < snd e) ->
                 forall e, In e (fold_left (fun c x => count_one x c) ys counts) ->
                           0 < snd e).
      { clear. induction ys as [|y ys IH]; intros counts Hc e He; cbn [fold_left] in He;
          [now apply Hc|].
        apply (IH (count_one y counts)); [|assumption].
        clear -Hc. induction counts as [|[key n] counts IHc]; cbn [count_one].
        - intros e [<- | []]. cbn. lia.
        - assert (0 < n) by (apply (Hc (key, n)); now left).
          destruct (key =? y).
          + intros e [<- | He]; [cbn; lia | apply Hc; now right].
          + intros e [<- | He]; [cbn; lia|].
            apply IHc; [|assumption]. intros e' He'. apply Hc. now right. }
      apply (Hkey xs []); [intros e [] | assumption]. }
    split.
    + apply count_positive. rewrite Hbest. now apply Hpos.
    + intros x. rewrite Hbest, <- tally_Counter, Hcounter.
      apply tally_bound; [|assumption].
      specialize (Hpos best Hin). lia.
Qed.

End CounterFacts.

Section SequenceFacts.
Import Text Frame Strptime DataValidation.

Lemma check_sequence_step (expected : Z) row1 dt1 row2 dt2 rest (r : results) :
  check_sequence expected ((row1, dt1) :: (row2, dt2) :: rest) r
  = check_sequence expected ((row2, dt2) :: rest)
      (if Z.abs (seconds_between dt1 dt2 - expected) >? 1
       then add_issue datetime_sequence_issues
              (SequenceBroken row1 row2 (instant dt1 + expected) (instant dt2)) r
       else r).
Proof. reflexivity. Qed.

Lemma pairs_step {A} (a b : A) (rest : list A) :
  pairs (a :: b :: rest) = (a, b) :: pairs (b :: rest).
Proof. reflexivity. Qed.

Lemma check_sequence_spec (expected : Z) (combined : list (Z * datetime)) :
  forall r,
    issues (check_sequence expected combined r) datetime_sequence_issues
    = issues r datetime_sequence_issues
      ++ map (sequence_message expected) (filter (broken expected) (pairs combined))
    /\ (forall k, k <> datetime_sequence_issues ->
                  issues (check_sequence expected combined r) k = issues r k)
    /\ detected_interval (check_sequence expected combined r) = detected_interval r.
Proof.
  induction combined as [|[row1 dt1] rest IH]; intros r.
  - cbn. rewrite app_nil_r. auto.
  - destruct rest as [|[row2 dt2] rest'].
    + cbn. rewrite app_nil_r. auto.
    + rewrite check_sequence_step, pairs_step. cbn [filter].
      unfold broken at 1. cbn [fst snd].
      destruct (Z.abs (seconds_between dt1 dt2 - expected) >? 1).
      * destruct (IH (add_issue datetime_sequence_issues
                        (SequenceBroken row1 row2 (instant dt1 + expected) (instant dt2)) r))
          as (Hseq & Hother & Hint).
        rewrite Hseq, Hint, add_issue_same, <- app_assoc. cbn [map]. split; [reflexivity|].
        split; [|reflexivity]. intros k Hk.
        rewrite Hother by assumption. now apply add_issue_other.
      * apply IH.
Qed.

Lemma intervals_of_nonempty (combined : list (Z * datetime)) :
  2 <= len combined -> intervals_of combined <> [].
Proof.
  destruct combined as [|[row1 dt1] [|[row2 dt2] rest]]; cbn; try lia.
  intros _. discriminate.
Qed.

(** The block that runs on two entries or more: it returns, the interval it
    detects is a statistical mode of the deltas, and it adds one message
    for each consecutive pair whose delta is more than one second off. *)
Lemma check_intervals_spec (combined : list (Z * datetime)) (r : results) :
  2 <= len combined ->
  exists m r',
    statistical_mode (intervals_of combined) m
    /\ check_intervals combined r = Some r'
    /\ detected_interval r' = Some (interval_type_of m)
    /\ issues r' datetime_sequence_issues
       = issues r datetime_sequence_issues
         ++ map (sequence_message m) (filter (broken m) (pairs combined))
    /\ (forall k, k <> datetime_sequence_issues -> issues r' k = issues r k).
Proof.
  intros Hlen. unfold check_intervals.
  destruct (Z.geb_spec (len combined) 2); [|lia].
  destruct (most_common_mode (intervals_of combined) (intervals_of_nonempty _ Hlen))
    as (m & -> & Hmode).
  exists m. eexists. split; [exact Hmode|]. split; [reflexivity|].
  destruct (check_sequence_spec m combined (set_interval (interval_type_of m) r))
    as (Hseq & Hother & Hint).
  rewrite Hseq, Hint. repeat split; try reflexivity. exact Hother.
Qed.

Lemma check_intervals_short (combined : list (Z * datetime)) (r : results) :
  len combined < 2 -> check_intervals combined r = Some r.
Proof.
  intros H. unfold check_intervals.
  destruct (Z.geb_spec (len combined) 2); [lia | reflexivity].
Qed.

Lemma interval_type_of_cases (m : Z) :
  (m = 60 -> interval_type_of m = OneMinute)
  /\ (m = 3600 -> interval_type_of m = OneHour)
  /\ (m = 86400 -> interval_type_of m = OneDay)
  /\ (m <> 60 -> m < 3600 -> interval_type_of m = Minutes (Z.quot m 60))
  /\ (m <> 3600 -> m <> 86400 -> 3600 <= m -> interval_type_of m = Hours m).
Proof.
  unfold interval_type_of. repeat split; intros.
  - subst. reflexivity.
  - subst. reflexivity.
  - subst. reflexivity.
  - destruct (Z.eqb_spec m 60); [lia|]. destruct (Z.eqb_spec m 3600); [lia|].
    destruct (Z.eqb_spec m 86400); [lia|].
    destruct (Z.ltb_spec m (60 * 60)); [reflexivity | lia].
  - destruct (Z.eqb_spec m 60); [lia|]. destruct (Z.eqb_spec m 3600); [lia|].
    destruct (Z.eqb_spec m 86400); [lia|].
    destruct (Z.ltb_spec m (60 * 60)); [lia | reflexivity].
Qed.

End SequenceFacts.

Section ValidityFacts.
Import Text Frame ColumnAddressing Strptime DataValidation.

Lemma validity_initial : validity_reflects_issues initial_results.
Proof. split; [reflexivity | discriminate]. Qed.

Lemma validity_add_issue (key : category) (message : issue) (r : results) :
  validity_reflects_issues (add_issue key message r).
Proof.
  split; [discriminate|]. intros _. exists key.
  rewrite add_issue_same. now destruct (issues r key).
Qed.

Lemma validity_validate_entries date_col time_col date_format time_format
      (entries : list (cell * cell)) :
  forall row r combined,
    validity_reflects_issues r ->
    validity_reflects_issues
      (fst (validate_entries date_col time_col date_format time_format row
              entries r combined)).
Proof.
  induction entries as [|[date_val time_val] rest IH]; intros row r combined Hr;
    [exact Hr|].
  cbn [validate_entries].
  repeat match goal with
         | |- context [if ?b then _ else _] => destruct b
         | |- context [match parse_value ?a ?b ?c ?d ?e with _ => _ end] =>
             destruct (parse_value a b c d e)
         | |- context [match ?o with Some _ => _ | None => _ end] => destruct o
         end;
    apply IH; try exact Hr; apply validity_add_issue.
Qed.

Lemma validity_check_sequence (expected : Z) (combined : list (Z * datetime)) :
  forall r, validity_reflects_issues r ->
            validity_reflects_issues (check_sequence expected combined r).
Proof.
  induction combined as [|[row1 dt1] rest IH]; intros r Hr; [exact Hr|].
  destruct rest as [|[row2 dt2] rest']; [exact Hr|].
  rewrite check_sequence_step. apply IH.
  destruct (_ >? 1); [apply validity_add_issue | exact Hr].
Qed.

Lemma validity_check_intervals (combined : list (Z * datetime)) (r r' : results) :
  validity_reflects_issues r ->
  check_intervals combined r = Some r' ->
  validity_reflects_issues r'.
Proof.
  intros Hr. unfold check_intervals.
  destruct (_ >=? 2); [|now intros [= <-]].
  destruct (most_common _) as [m|]; [|discriminate]. intros [= <-].
  apply validity_check_sequence. exact Hr.
Qed.

Lemma validity_validate_datetime date_col time_col date_col_name time_col_name
      start date_data time_data (r r' : results) :
  validity_reflects_issues r ->
  validate_datetime date_col time_col date_col_name time_col_name start
    date_data time_data r = Some r' ->
  validity_reflects_issues r'.
Proof.
  intros Hr. unfold validate_datetime.
  pose proof (validity_validate_entries date_col time_col
                (detect_format date_formats_to_try date_data)
                (detect_format time_formats_to_try time_data)
                (List.combine date_data time_data) (start + 0 + 1)
                (set_formats (detect_format date_formats_to_try date_data)
                   (detect_format time_formats_to_try time_data)
                   (add_column (TimeColumn time_col time_col_name)
                      (add_column (DateColumn date_col date_col_name) r)))
                [] Hr) as Hentries.
  destruct (validate_entries _ _ _ _ _ _ _ _) as [r1 combined]. cbn [fst] in Hentries.
  destruct (check_intervals combined r1) as [r2|] eqn:Hcheck; [|discriminate].
  intros [= <-]. exact (validity_check_intervals _ _ _ Hentries Hcheck).
Qed.

Lemma validity_validate_cells col_letter col_name (col_data : list cell) :
  forall idx r, validity_reflects_issues r ->
                validity_reflects_issues (validate_cells col_letter col_name idx col_data r).
Proof.
  induction col_data as [|value rest IH]; intros idx r Hr; [exact Hr|].
  cbn [validate_cells]. apply IH.
  destruct (check_cell _ _ _ _) as [[key message]|];
    [apply validity_add_issue | exact Hr].
Qed.

Lemma validity_validate_columns (df : DataFrame) (start : Z) (cols : list Z) :
  forall r r', validity_reflects_issues r ->
               validate_columns df start cols r = Some r' ->
               validity_reflects_issues r'.
Proof.
  induction cols as [|col_idx rest IH]; intros r r' Hr; cbn [validate_columns].
  - now intros [= <-].
  - destruct (py_index _ _) as [col_name|]; [|discriminate].
    destruct (get_excel_column_name _) as [col_letter|]; [|discriminate].
    destruct (column_from _ _ _) as [col_data|]; [|discriminate].
    apply IH. apply validity_validate_cells. exact Hr.
Qed.

(** Whatever a sheet's validation returns, [is_valid] is true exactly when
    no category holds an issue. *)
Lemma validity_validate_sheet cfg date_col_idx time_col_idx numeric_start_col_idx
      (df : DataFrame) (r : results) :
  validate_sheet cfg date_col_idx time_col_idx numeric_start_col_idx df = Some r ->
  validity_reflects_issues r.
Proof.
  unfold validate_sheet.
  match goal with
  | |- context [match ?first with Some _ => _ | None => _ end] =>
      destruct first as [r1|] eqn:Hfirst; [|discriminate]
  end.
  assert (Hr1 : validity_reflects_issues r1).
  { destruct (_ && _) in Hfirst; [|injection Hfirst as <-; apply validity_initial].
    destruct (py_index _ _) in Hfirst; [|discriminate].
    destruct (py_index _ _) in Hfirst; [|discriminate].
    destruct (column_from _ _ _) in Hfirst; [|discriminate].
    destruct (column_from _ _ _) in Hfirst; [|discriminate].
    exact (validity_validate_datetime _ _ _ _ _ _ _ _ _ validity_initial Hfirst). }
  clear Hfirst.
  destruct (_ >? _); [|intros H; injection H as H; now subst].
  destruct (_ <? _); [|intros H; injection H as H; now subst].
  now apply validity_validate_columns.
Qed.

End ValidityFacts.

Section ReturnFacts.
Import Text Frame ColumnAddressing Strptime DataValidation.

Lemma column_of_returns (data_rows : list (list cell)) (col_idx : Z) :
  Forall (fun row => 0 <= col_idx < len row) data_rows ->
  exists col_data, column_of data_rows col_idx = Some col_data.
Proof.
  induction 1 as [|row rest Hrow _ [tail IH]]; cbn [column_of].
  - now exists [].
  - rewrite (py_index_inside row col_idx CNull Hrow), IH. eauto.
Qed.

Lemma column_from_returns (df : DataFrame) (start col_idx : Z) :
  rectangular df -> 0 <= col_idx < len (columns df) ->
  exists col_data, column_from df start col_idx = Some col_data.
Proof.
  intros Hrect Hcol. unfold column_from.
  rewrite (py_index_inside (columns df) col_idx String.EmptyString Hcol).
  apply column_of_returns. unfold from_row.
  apply Forall_forall. intros row Hrow.
  unfold rectangular in Hrect. rewrite Forall_forall in Hrect.
  unfold len in *. rewrite (Hrect row); [assumption|].
  rewrite <- (firstn_skipn (Z.to_nat start) (rows df)).
  apply in_or_app. now right.
Qed.

Lemma check_intervals_returns (combined : list (Z * datetime)) (r : results) :
  exists r', check_intervals combined r = Some r'.
Proof.
  destruct (Z.lt_ge_cases (len combined) 2) as [Hshort | Hlong].
  - exists r. now apply check_intervals_short.
  - destruct (check_intervals_spec combined r Hlong) as (m & r' & _ & Hrun & _).
    now exists r'.
Qed.

Lemma validate_datetime_returns date_col time_col date_col_name time_col_name
      start date_data time_data (r : results) :
  exists r', validate_datetime date_col time_col date_col_name time_col_name start
               date_data time_data r = Some r'.
Proof.
  unfold validate_datetime.
  destruct (validate_entries _ _ _ _ _ _ _ _) as [r1 combined].
  destruct (check_intervals_returns combined r1) as [r2 ->]. eauto.
Qed.

Lemma last_seen_in (p : Z -> bool) (l : list Z) :
  forall init,
    In (fold_left (fun last c => if p c then c else last) l init) (init :: l).
Proof.
  induction l as [|c l IH]; intros init; cbn [fold_left]; [now left|].
  destruct (IH (if p c then c else init)) as [<- | Hin]; [|right; now right].
  destruct (p c); [right; now left | now left].
Qed.

Lemma last_col_with_data_bound (df : DataFrame) :
  -1 <= last_col_with_data df < len (columns df).
Proof.
  unfold last_col_with_data.
  destruct (last_seen_in (column_has_data df) (range (len (columns df))) (-1))
    as [<- | Hin].
  - unfold len. lia.
  - apply range_bounds in Hin. lia.
Qed.

Lemma range_from_bounds (a b c : Z) : In c (range_from a b) -> a <= c < b.
Proof.
  unfold range_from. rewrite in_map_iff. intros (k & <- & Hk).
  apply in_seq in Hk. lia.
Qed.

Lemma validate_columns_returns (df : DataFrame) (start : Z) (cols : list Z) :
  rectangular df ->
  Forall (fun c => 0 <= c < len (columns df)) cols ->
  forall r, exists r', validate_columns df start cols r = Some r'.
Proof.
  intros Hrect. induction 1 as [|c cols Hc _ IH]; intros r; cbn [validate_columns].
  - now exists r.
  - rewrite (py_index_inside (columns df) c String.EmptyString Hc).
    rewrite get_excel_column_name_label by lia.
    destruct (column_from_returns df start c Hrect Hc) as [col_data ->].
    apply IH.
Qed.

(** On a rectangular sheet and with column indices that are not negative,
    the validation of a sheet returns. *)
Lemma validate_sheet_returns cfg date_col_idx time_col_idx numeric_start_col_idx
      (df : DataFrame) :
  rectangular df ->
  0 <= date_col_idx -> 0 <= time_col_idx -> 0 <= numeric_start_col_idx ->
  exists r,
    validate_sheet cfg date_col_idx time_col_idx numeric_start_col_idx df = Some r.
Proof.
  intros Hrect Hd Ht Hn. unfold validate_sheet.
  assert (Hfirst : exists r1,
    (if (len (rows df) >? datetime_start_row cfg - 1)
        && (date_col_idx <? len (columns df)) && (time_col_idx <? len (columns df))
     then
       date_col_name <- py_index (columns df) date_col_idx ;;
       time_col_name <- py_index (columns df) time_col_idx ;;
       date_data <- column_from df (datetime_start_row cfg - 1) date_col_idx ;;
       time_data <- column_from df (datetime_start_row cfg - 1) time_col_idx ;;
       validate_datetime (date_col cfg) (time_col cfg) date_col_name time_col_name
         (datetime_start_row cfg - 1) date_data time_data initial_results
     else Some initial_results) = Some r1).
  { destruct (_ >? _); cbn [andb]; [|eauto].
    destruct (Z.ltb_spec date_col_idx (len (columns df))); cbn [andb]; [|eauto].
    destruct (Z.ltb_spec time_col_idx (len (columns df))); [|eauto].
    rewrite (py_index_inside (columns df) date_col_idx String.EmptyString) by lia.
    rewrite (py_index_inside (columns df) time_col_idx String.EmptyString) by lia.
    destruct (column_from_returns df (datetime_start_row cfg - 1) date_col_idx Hrect)
      as [date_data ->]; [lia|].
    destruct (column_from_returns df (datetime_start_row cfg - 1) time_col_idx Hrect)
      as [time_data ->]; [lia|].
    apply validate_datetime_returns. }
  destruct Hfirst as [r1 ->].
  destruct (_ >? _); [|eauto].
  destruct (_ <? _); [|eauto].
  apply validate_columns_returns; [assumption|].
  apply Forall_forall. intros c Hc. apply range_from_bounds in Hc.
  pose proof (last_col_with_data_bound df). lia.
Qed.

End ReturnFacts.

Section DateTimeValidatorClaims.
Import Text Frame ColumnAddressing Strptime DataValidation.

(** C5. When the combined sequence has two entries or more, the interval
    check returns; the expected interval is a statistical mode of the
    consecutive deltas in seconds; its label is "1 minute" for 60, "1 hour"
    for 3600, "1 day" for 86400, and otherwise "<n> minutes" below one hour
    and "<h.hh> hours" from one hour on; it adds one [datetime_sequence]
    message, naming the expected next instant and the actual one, for
    exactly the consecutive pairs whose delta differs from the mode by more
    than one second.  Whatever the validation of a sheet returns, its
    [is_valid] is false as soon as a category holds an issue. *)
Theorem interval_mode_and_validity :
  (forall combined r,
     2 <= len combined ->
     exists m r',
       statistical_mode (intervals_of combined) m
       /\ check_intervals combined r = Some r'
       /\ detected_interval r' = Some (interval_type_of m)
       /\ issues r' datetime_sequence_issues
          = issues r datetime_sequence_issues
            ++ map (sequence_message m) (filter (broken m) (pairs combined))
       /\ (forall k, k <> datetime_sequence_issues -> issues r' k = issues r k))
  /\ (forall m,
        (m = 60 -> interval_type_of m = OneMinute)
        /\ (m = 3600 -> interval_type_of m = OneHour)
        /\ (m = 86400 -> interval_type_of m = OneDay)
        /\ (m <> 60 -> m < 3600 -> interval_type_of m = Minutes (Z.quot m 60))
        /\ (m <> 3600 -> m <> 86400 -> 3600 <= m -> interval_type_of m = Hours m))
  /\ (forall cfg date_col_idx time_col_idx numeric_start_col_idx df r,
        validate_sheet cfg date_col_idx time_col_idx numeric_start_col_idx df = Some r ->
        (exists k, issues r k <> []) -> is_valid r = false).
Proof.
  split; [exact check_intervals_spec|]. split; [exact interval_type_of_cases|].
  intros cfg i j k df r Hrun [key Hkey].
  destruct (validity_validate_sheet _ _ _ _ _ _ Hrun) as [Htrue _].
  destruct (is_valid r); [|reflexivity].
  exfalso. apply Hkey. now apply Htrue.
Qed.

Lemma interval_mode_and_validity_witness :
  let combined :=
    [(8, mk_datetime 2026 1 9 10 0 0); (9, mk_datetime 2026 1 9 10 1 0);
     (10, mk_datetime 2026 1 9 10 2 0); (11, mk_datetime 2026 1 9 10 5 0)] in
  2 <= len combined
  /\ (exists m r',
        statistical_mode (intervals_of combined) m
        /\ check_intervals combined initial_results = Some r'
        /\ detected_interval r' = Some (interval_type_of m)
        /\ issues r' datetime_sequence_issues
           = issues initial_results datetime_sequence_issues
             ++ map (sequence_message m) (filter (broken m) (pairs combined))
        /\ (forall k, k <> datetime_sequence_issues ->
                      issues r' k = issues initial_results k))
  /\ exists r,
       validate_sheet sample_config 0 1 2 sample_sheet = Some r
       /\ (exists k, issues r k <> [])
       /\ is_valid r = false.
Proof.
  cbv zeta.
  assert (Hlen : 2 <= len [(8, mk_datetime 2026 1 9 10 0 0);
                           (9, mk_datetime 2026 1 9 10 1 0);
                           (10, mk_datetime 2026 1 9 10 2 0);
                           (11, mk_datetime 2026 1 9 10 5 0)]) by (cbn; lia).
  split; [exact Hlen|]. split.
  - exact (proj1 interval_mode_and_validity _ initial_results Hlen).
  - destruct (validate_sheet sample_config 0 1 2 sample_sheet) as [r|] eqn:Hrun;
      [|vm_compute in Hrun; discriminate].
    exists r. split; [reflexivity|].
    assert (Hissue : exists k, issues r k <> []).
    { exists alphabetical_issues. vm_compute in Hrun.
      injection Hrun as <-. discriminate. }
    split; [exact Hissue|].
    exact (proj2 (proj2 interval_mode_and_validity) sample_config 0 1 2
                 sample_sheet r Hrun Hissue).
Defined.

(** The run of the sample sheet: both formats are detected, the interval
    is one minute, the step from row 3 to row 4 breaks the sequence, and
    the text of cell C2 is reported. *)
Example validate_sheet_sample_run :
  exists r,
    validate_sheet sample_config 0 1 2 sample_sheet = Some r
    /\ detected_date_format r = Some "%d.%m.%Y"%string
    /\ detected_time_format r = Some "%H:%M:%S"%string
    /\ detected_interval r = Some OneMinute
    /\ issues r datetime_sequence_issues
       = [SequenceBroken 3 4 (instant (mk_datetime 2026 1 9 10 3 0))
                         (instant (mk_datetime 2026 1 9 10 5 0))]
    /\ issues r alphabetical_issues = [HasLetters ("C", 2) 2 "Value" "abc"]%string
    /\ issues r numeric_issues = []
    /\ total_cells_validated r = 4
    /\ is_valid r = false.
Proof.
  eexists. split; [vm_compute; reflexivity|].
  repeat split; vm_compute; reflexivity.
Qed.

End DateTimeValidatorClaims.

(** * CellClassifier: the cascade of the numeric region *)

Section CellClassifierFacts.
Import Text Frame ColumnAddressing Strptime FloatSyntax DataValidation.

Lemma is_allowed_in (c : ascii) : is_allowed c = true <-> In c allowed_chars.
Proof.
  unfold is_allowed. rewrite existsb_exists. split.
  - intros (a & Ha & Heq). apply Ascii.eqb_eq in Heq. now subst.
  - intros H. exists c. split; [assumption | apply Ascii.eqb_refl].
Qed.

Lemma some_letter (text : string) :
  existsb isalpha (chars text) = true <->
  exists c, In c (chars text) /\ isalpha c = true.
Proof. apply existsb_exists. Qed.

Lemma no_letter (text : string) :
  existsb isalpha (chars text) = false <->
  forall c, In c (chars text) -> isalpha c = false.
Proof.
  split.
  - intros H c Hc. destruct (isalpha c) eqn:Hal; [|reflexivity].
    assert (existsb isalpha (chars text) = true) by (apply existsb_exists; eauto).
    congruence.
  - intros H. destruct (existsb isalpha (chars text)) eqn:Hex; [|reflexivity].
    apply existsb_exists in Hex. destruct Hex as (c & Hc & Hal).
    rewrite (H c Hc) in Hal. discriminate.
Qed.

Lemma all_allowed (text : string) :
  forallb is_allowed (chars text) = true <->
  forall c, In c (chars text) -> In c allowed_chars.
Proof.
  rewrite forallb_forall. split; intros H c Hc; apply is_allowed_in; auto.
Qed.

(** The issue a cell adds goes to one category and leaves the others as
    they are; a cell without issue leaves them all. *)
Lemma validate_cells_one (col_letter col_name : string) (idx : Z) (value : cell)
      (r : results) :
  let r' := validate_cells col_letter col_name idx [value] r in
  total_cells_validated r' = total_cells_validated r + 1
  /\ match check_cell (col_letter, idx + 1) (idx + 1) col_name value with
     | Some (key, message) =>
         issues r' key = issues r key ++ [message]
         /\ forall k, k <> key -> issues r' k = issues r k
     | None => forall k, issues r' k = issues r k
     end.
Proof.
  cbn [validate_cells]. cbv zeta. split.
  - now destruct (check_cell _ _ _ _) as [[key message]|].
  - destruct (check_cell _ _ _ _) as [[key message]|]; [|reflexivity].
    split; [now rewrite add_issue_same | intros k Hk; now rewrite add_issue_other].
Qed.

(** C8. The classifier gives every cell one tag, by the first of these
    that applies: a null value is Null; an empty trimmed text is
    EmptyString; a value of numeric type is Numeric; a trimmed text that
    converts to a float is Numeric; a text with a letter is Alphabetic; a
    text with a character outside [0-9], [.] and [-] is SpecialChar; any
    other text is NonNumericOther.  So "12.5" is Numeric, the empty text is
    EmptyString, "abc" is Alphabetic, "12#5" is SpecialChar and "1.2.3" is
    NonNumericOther. *)
Theorem classify_cascade (value : cell) :
  let text := strip (str value) in
  (exists t, classify value = Some t)
  /\ (isna value = true -> classify value = Some Null)
  /\ (isna value = false -> text = String.EmptyString -> classify value = Some EmptyString)
  /\ (isna value = false -> text <> String.EmptyString ->
      is_numeric value = true -> classify value = Some Numeric)
  /\ (isna value = false -> text <> String.EmptyString -> is_numeric value = false ->
      float_parses text = true -> classify value = Some Numeric)
  /\ (isna value = false -> text <> String.EmptyString -> is_numeric value = false ->
      float_parses text = false ->
      (exists c, In c (chars text) /\ isalpha c = true) ->
      classify value = Some Alphabetic)
  /\ (isna value = false -> text <> String.EmptyString -> is_numeric value = false ->
      float_parses text = false ->
      (forall c, In c (chars text) -> isalpha c = false) ->
      (exists c, In c (chars text) /\ ~ In c allowed_chars) ->
      classify value = Some SpecialChar)
  /\ (isna value = false -> text <> String.EmptyString -> is_numeric value = false ->
      float_parses text = false ->
      (forall c, In c (chars text) -> isalpha c = false) ->
      (forall c, In c (chars text) -> In c allowed_chars) ->
      classify value = Some NonNumericOther)
  /\ classify (CStr "12.5") = Some Numeric
  /\ classify (CStr String.EmptyString) = Some EmptyString
  /\ classify (CStr "abc") = Some Alphabetic
  /\ classify (CStr "12#5") = Some SpecialChar
  /\ classify (CStr "1.2.3") = Some NonNumericOther.
Proof.
  cbv zeta. unfold classify, check_cell.
  destruct (isna value) eqn:Hna;
    [|destruct (String.eqb_spec (strip (str value)) String.EmptyString) as [Hempty | Hempty];
      [|destruct (is_numeric value) eqn:Hnum; cbn [negb];
        [|destruct (float_parses (strip (str value))) eqn:Hfloat;
          [|destruct (existsb isalpha (chars (strip (str value)))) eqn:Halpha;
            [|destruct (forallb is_allowed (chars (strip (str value)))) eqn:Hallowed;
              cbn [negb]]]]]];
    repeat split; intros;
    try reflexivity; try congruence; try contradiction;
    try (eexists; reflexivity);
    try match goal with
        | H : exists c, In c _ /\ isalpha c = true |- _ =>
            apply some_letter in H; congruence
        | H : forall c, In c _ -> isalpha c = false |- _ =>
            apply no_letter in H; congruence
        end;
    try match goal with
        | H : forall c, In c _ -> In c allowed_chars |- _ =>
            apply all_allowed in H; congruence
        | H : exists c, In c _ /\ ~ In c allowed_chars |- _ =>
            destruct H as (c & Hc & Hout); exfalso; apply Hout;
            apply (proj1 (all_allowed _) Hallowed); exact Hc
        end.
Qed.

Lemma classify_cascade_witness :
  let value := CStr " --5 " in
  isna value = false /\ strip (str value) <> String.EmptyString /\ is_numeric value = false
  /\ float_parses (strip (str value)) = false
  /\ (forall c, In c (chars (strip (str value))) -> isalpha c = false)
  /\ (forall c, In c (chars (strip (str value))) -> In c allowed_chars)
  /\ classify value = Some NonNumericOther.
Proof.
  cbv zeta.
  assert (Hempty : strip (str (CStr " --5 ")) <> String.EmptyString) by discriminate.
  assert (Hletters : forall c, In c (chars (strip (str (CStr " --5 ")))) ->
                               isalpha c = false).
  { intros c [<- | [<- | [<- | []]]]; reflexivity. }
  assert (Hallowed : forall c, In c (chars (strip (str (CStr " --5 ")))) ->
                               In c allowed_chars).
  { intros c [<- | [<- | [<- | []]]]; cbn; tauto. }
  split; [reflexivity|]. split; [exact Hempty|]. split; [reflexivity|].
  split; [reflexivity|]. split; [exact Hletters|]. split; [exact Hallowed|].
  destruct (classify_cascade (CStr " --5 ")) as (_ & _ & _ & _ & _ & _ & _ & H & _).
  exact (H eq_refl Hempty eq_refl eq_refl Hletters Hallowed).
Defined.

End CellClassifierFacts.

(** * ColumnAddressing: labels that are not made of letters *)

Section InvalidLabelFacts.
Import Text Frame ColumnAddressing Strptime DataValidation.

(** The [except] branch of the conversion of the column letters is never
    taken. *)
Lemma validate_data_never_rejects (cfg : config)
      (data_to_validate : list (string * DataFrame)) :
  validate_data cfg data_to_validate <> Some InvalidColumnLetter.
Proof.
  unfold validate_data, convert_columns.
  destruct (validate_sheets _ _ _ _ _); discriminate.
Qed.

(** C9, on the code: a label with a character that is not a letter is
    converted like any other ("A1" is column 10, "7" is column -10, the
    empty label is column -1); no run ends with the error "Invalid column
    letter"; and a run whose date column is "A1" goes through the sheet and
    returns its entry. *)
Theorem invalid_label_is_converted :
  column_letter_to_index "A1" = 10
  /\ column_letter_to_index "7" = -10
  /\ column_letter_to_index String.EmptyString = -1
  /\ (forall cfg data_to_validate,
        validate_data cfg data_to_validate <> Some InvalidColumnLetter)
  /\ exists r all_valid,
       validate_data (mk_config 1 "A1" "B" 1 "C") [("Sheet1"%string, sample_sheet)]
       = Some (Validated [("Sheet1"%string, r)] all_valid)
       /\ total_cells_validated r = 4
       /\ issues r alphabetical_issues = [HasLetters ("C", 2) 2 "Value" "abc"]%string.
Proof.
  repeat split; try reflexivity.
  - apply validate_data_never_rejects.
  - eexists. eexists. split; [vm_compute; reflexivity|]. split; reflexivity.
Qed.

End InvalidLabelFacts.

(** * GapAnalyzer: the baseline and the gaps *)

Section GapFacts.
Import Frame DataValidation GapAnalyzer.




Lemma find_gaps_step (e a b : Z) (rest : list Z) gap_ranges missing :
  find_gaps e (a :: b :: rest) gap_ranges missing
  = if 10 * (b - a) >? 11 * e then
      if e =? 0 then None
      else find_gaps e (b :: rest)
             (gap_ranges ++ [mk_gap a b ((Z.quot (b - a) e - 1) * e) (Z.quot (b - a) e - 1)])
             (missing ++ map (fun j => a + j * e) (range_from 1 (Z.quot (b - a) e - 1 + 1)))
    else find_gaps e (b :: rest) gap_ranges missing.
Proof. reflexivity. Qed.


(** A zero baseline makes the first pair of distinct instants raise. *)
Lemma find_gaps_zero (a b : Z) (rest : list Z) gap_ranges missing :
  a < b -> find_gaps 0 (a :: b :: rest) gap_ranges missing = None.
Proof.
  intros H. rewrite find_gaps_step.
  destruct (Z.gtb_spec (10 * (b - a)) (11 * 0)); [reflexivity | lia].
Qed.

Lemma nearest_minute_spec (s : Z) :
  exists n, nearest_minute s = 60 * n /\ -30 <= s - 60 * n < 30.
Proof.
  exists ((s + 30) / 60). split; [reflexivity|].
  pose proof (Z.div_mod (s + 30) 60 ltac:(lia)).
  pose proof (Z.mod_pos_bound (s + 30) 60 ltac:(lia)). lia.
Qed.


End GapFacts.

Section GapClaims.
Import Frame DataValidation GapAnalyzer.



(** The run behind the witness: the mode of 100 seconds is kept (it is 20
    seconds from a whole minute), and the step of 350 seconds is one gap
    with two missing instants. *)
Example find_missing_data_run :
  find_missing_data None [Some 300; Some 0; Some 100; None; Some 200; Some 650]
  = Some (Gaps 100 [mk_gap 300 650 200 2] [400; 500]).
Proof. reflexivity. Qed.


(** A mode below 0.1 minute is rounded to a baseline of zero, and the
    analysis of instants three seconds apart ends in the division error. *)
Lemma baseline_zero_raises :
  find_missing_data None [Some 0; Some 3; Some 6; Some 9] = None.
Proof. reflexivity. Qed.

End GapClaims.

(** * GapAnalyzer: the observed and reconstructed instants, merged *)

Section SortFacts.
Import Frame DataValidation GapAnalyzer.









End SortFacts.

Section FilledFacts.
Import Frame DataValidation GapAnalyzer.

Variable e : Z.
Hypothesis e_positive : 0 < e.







End FilledFacts.

Section MergedClaims.
Import Frame DataValidation GapAnalyzer.






End MergedClaims.

(** * ColumnAddressing: from a label to its index and back *)

Section LabelFacts.
Import Text Frame ColumnAddressing Measures.

Lemma chr_ord (c : ascii) : chr (ord c) = c.
Proof.
  unfold chr, ord. rewrite Nat2Z.id. apply ascii_nat_embedding.
Qed.

Lemma ord_bound (c : ascii) : 0 <= ord c < 256.
Proof.
  unfold ord. pose proof (nat_ascii_bounded c). lia.
Qed.

Lemma upper_char_letter (c : ascii) :
  is_ascii_letter c = true ->
  upper_char c = [ord (capital_of c)] /\ is_capital (capital_of c) = true.
Proof.
  unfold is_ascii_letter, upper_char, capital_of, is_capital, between.
  pose proof (ord_bound c) as Hb. intros H.
  assert (Hcases : 65 <= ord c <= 90 \/ 97 <= ord c <= 122).
  { apply orb_true_iff in H. destruct H as [H | H];
      apply andb_true_iff in H; destruct H as [Hlo Hhi];
      apply Z.leb_le in Hlo; apply Z.leb_le in Hhi; lia. }
  clear H. destruct Hcases as [Hcap | Hsmall].
  - destruct (Z.leb_spec 97 (ord c)) as [Hge | Hlt]; [lia|]. cbn [andb].
    repeat match goal with
           | |- context [?a =? ?b] => destruct (Z.eqb_spec a b); try lia
           end.
    destruct (Z.leb_spec 224 (ord c)) as [Hge' | Hlt']; [lia|]. cbn [andb].
    split; [reflexivity|]. apply andb_true_iff. split; apply Z.leb_le; lia.
  - destruct (Z.leb_spec 97 (ord c)) as [Hge | Hlt]; [|lia].
    destruct (Z.leb_spec (ord c) 122) as [Hle | Hgt]; [|lia]. cbn [andb].
    rewrite ord_chr by lia. split; [reflexivity|].
    apply andb_true_iff. split; apply Z.leb_le; lia.
Qed.

Lemma upper_letters (s : string) :
  Forall (fun c => is_ascii_letter c = true) (chars s) ->
  upper s = map ord (chars (capitals s))
  /\ Forall (fun c => is_capital c = true) (chars (capitals s)).
Proof.
  induction s as [|c s IH]; cbn [chars upper capitals map]; intros H.
  - split; constructor.
  - inversion H as [|? ? Hc Hs]; subst.
    destruct (IH Hs) as [-> Hcaps].
    destruct (upper_char_letter c Hc) as [-> Hcap].
    split; [reflexivity | now constructor].
Qed.

(** The weight of a label of capitals is at least its length. *)
Lemma weighted_capitals_length (l : list ascii) :
  Forall (fun c => is_capital c = true) l ->
  Z.of_nat (List.length l) <= weighted (rev (map ord l)) 0.
Proof.
  induction l as [|c l IH] using rev_ind; intros H; [cbn; lia|].
  apply Forall_app in H. destruct H as [Hl Hc]. inversion Hc as [|? ? Hcap _]; subst.
  rewrite map_app, rev_app_distr, length_app. cbn [map rev app weighted List.length].
  rewrite weighted_shift, Z.pow_0_r by lia. specialize (IH Hl).
  unfold is_capital, between in Hcap. apply andb_true_iff in Hcap.
  destruct Hcap as [H1 H2]. apply Z.leb_le in H1. apply Z.leb_le in H2. lia.
Qed.

Lemma text_of_app (l1 l2 : list ascii) :
  string_of_list_ascii (l1 ++ l2)
  = (string_of_list_ascii l1 ++ string_of_list_ascii l2)%string.
Proof. induction l1 as [|c l1 IH]; cbn; congruence. Qed.

Lemma text_of_chars (s : string) : string_of_list_ascii (chars s) = s.
Proof. induction s as [|c s IH]; cbn; congruence. Qed.

(** Started at the weight of a label of capitals less one, the loop gives
    the label back. *)
Lemma column_name_loop_label (l : list ascii) :
  Forall (fun c => is_capital c = true) l -> l <> [] ->
  forall fuel acc,
    (List.length l <= fuel)%nat ->
    column_name_loop fuel (weighted (rev (map ord l)) 0 - 1) acc
    = Some (string_of_list_ascii l ++ acc)%string.
Proof.
  induction l as [|c l IH] using rev_ind; intros Hcaps Hne fuel acc Hfuel;
    [congruence|].
  apply Forall_app in Hcaps. destruct Hcaps as [Hl Hc].
  inversion Hc as [|? ? Hcap _]; subst.
  rewrite length_app in Hfuel. cbn [List.length] in Hfuel.
  destruct fuel as [|fuel]; [lia|].
  rewrite map_app, rev_app_distr. cbn [map rev app weighted].
  rewrite weighted_shift, Z.pow_0_r by lia.
  pose proof (weighted_capitals_length l Hl) as Hweight.
  set (W := weighted (rev (map ord l)) 0) in *.
  unfold is_capital, between in Hcap. apply andb_true_iff in Hcap.
  destruct Hcap as [Hlo Hhi]. apply Z.leb_le in Hlo. apply Z.leb_le in Hhi.
  assert (Hdiv : ((ord c - 64) * 1 + 26 * W - 1) / 26 = W
                 /\ ((ord c - 64) * 1 + 26 * W - 1) mod 26 = ord c - 65).
  { replace ((ord c - 64) * 1 + 26 * W - 1) with (ord c - 65 + W * 26) by lia.
    rewrite Z.div_add, Z.mod_add by lia.
    rewrite Z.div_small, Z.mod_small by lia. lia. }
  destruct Hdiv as [Hq Hr].
  cbn [column_name_loop]. rewrite Hq, Hr.
  replace (65 + (ord c - 65)) with (ord c) by lia. rewrite chr_ord.
  rewrite text_of_app. cbn [string_of_list_ascii].
  destruct l as [|d l'].
  - cbn. reflexivity.
  - cbn [List.length] in Hweight. destruct (Z.eqb_spec W 0); [lia|].
    rewrite IH; [| assumption | discriminate | lia].
    now rewrite append_assoc.
Qed.

End LabelFacts.

Section LabelClaims.
Import Text Frame ColumnAddressing Measures.

(** X1. A non-empty label made of ASCII letters has an index that is not
    negative, and [get_excel_column_name] maps that index back to the label
    in capitals: on such labels the two conversions are inverse in this
    direction too, and the case of the letters does not matter. *)
Theorem label_roundtrip (s : string) :
  s <> String.EmptyString ->
  Forall (fun c => is_ascii_letter c = true) (chars s) ->
  0 <= column_letter_to_index s
  /\ get_excel_column_name (column_letter_to_index s) = Some (capitals s)
  /\ column_letter_to_index (capitals s) = column_letter_to_index s.
Proof.
  intros Hne Hletters.
  destruct (upper_letters s Hletters) as [Hupper Hcaps].
  assert (Hnil : chars (capitals s) <> []) by (destruct s; [congruence | discriminate]).
  pose proof (weighted_capitals_length _ Hcaps) as Hweight.
  assert (Hlen : (0 < List.length (chars (capitals s)))%nat)
    by (destruct (chars (capitals s)); [congruence | cbn; lia]).
  assert (Hindex : column_letter_to_index s
                   = weighted (rev (map ord (chars (capitals s)))) 0 - 1).
  { unfold column_letter_to_index. rewrite column_sum_weighted, Hupper. lia. }
  split; [lia|]. split.
  - unfold get_excel_column_name. rewrite Hindex at 2.
    rewrite column_name_loop_label; [| assumption | assumption | lia].
    now rewrite append_empty_r, text_of_chars.
  - assert (Hcaps' : Forall (fun c => is_ascii_letter c = true) (chars (capitals s))).
    { eapply Forall_impl; [|exact Hcaps]. intros c Hc.
      unfold is_ascii_letter. unfold is_capital in Hc. now rewrite Hc. }
    destruct (upper_letters (capitals s) Hcaps') as [Hupper' _].
    unfold column_letter_to_index. rewrite Hupper, Hupper'.
    assert (Hidem : capitals (capitals s) = capitals s).
    { clear -Hcaps. induction s as [|c s IH]; [reflexivity|].
      cbn [capitals chars] in *. inversion Hcaps as [|? ? Hc Hs]; subst.
      rewrite (IH Hs). f_equal.
      unfold capital_of at 1. unfold is_capital, between in Hc.
      apply andb_true_iff in Hc. destruct Hc as [_ Hhi]. apply Z.leb_le in Hhi.
      unfold between. destruct (Z.leb_spec 97 (ord (capital_of c))); [|reflexivity].
      lia. }
    now rewrite Hidem.
Qed.

Lemma label_roundtrip_witness :
  "aZ"%string <> String.EmptyString
  /\ Forall (fun c => is_ascii_letter c = true) (chars "aZ")
  /\ get_excel_column_name (column_letter_to_index "aZ") = Some "AZ"%string.
Proof.
  assert (Hne : "aZ"%string <> String.EmptyString) by discriminate.
  assert (Hletters : Forall (fun c => is_ascii_letter c = true) (chars "aZ"))
    by (repeat constructor).
  split; [exact Hne|]. split; [exact Hletters|].
  exact (proj1 (proj2 (label_roundtrip "aZ" Hne Hletters))).
Defined.

End LabelClaims.

(** * DataValidation: column indices that are negative *)

Section NegativeIndexFacts.
Import Text Frame ColumnAddressing DataValidation.

Lemma get_excel_column_name_negative (k : Z) :
  k < 0 -> get_excel_column_name k = None.
Proof. intros H. now apply column_name_loop_negative. Qed.

Lemma range_from_first (a b : Z) :
  a < b -> exists rest, range_from a b = a :: rest.
Proof.
  intros H. unfold range_from.
  destruct (Z.to_nat (b - a)) as [|n] eqn:Hn; [lia|].
  cbn [seq map]. eexists. f_equal. lia.
Qed.

Lemma validate_sheet_negative_start cfg date_col_idx time_col_idx k (df : DataFrame) :
  k < 0 -> numeric_start_row cfg - 1 < len (rows df) ->
  validate_sheet cfg date_col_idx time_col_idx k df = None.
Proof.
  intros Hk Hrows. unfold validate_sheet.
  match goal with
  | |- context [match ?first with Some _ => _ | None => _ end] =>
      destruct first as [r1|]; [|reflexivity]
  end.
  destruct (Z.gtb_spec (len (rows df)) (numeric_start_row cfg - 1)); [|lia].
  destruct (Z.ltb_spec k (len (columns df))); [|unfold len in *; lia].
  pose proof (last_col_with_data_bound df) as Hlast.
  destruct (range_from_first k (last_col_with_data df + 1) ltac:(lia)) as [rest ->].
  cbn [validate_columns].
  destruct (py_index (columns df) k); [|reflexivity].
  now rewrite get_excel_column_name_negative.
Qed.

Lemma validate_sheets_negative_start cfg date_col_idx time_col_idx k
      (sheets : list (string * DataFrame)) :
  k < 0 ->
  Exists (fun sheet => numeric_start_row cfg - 1 < len (rows (snd sheet))) sheets ->
  validate_sheets cfg date_col_idx time_col_idx k sheets = None.
Proof.
  intros Hk. induction 1 as [[name df] rest Hhere | [name df] rest _ IH];
    cbn [validate_sheets].
  - cbn [snd] in Hhere. now rewrite validate_sheet_negative_start.
  - destruct (validate_sheet _ _ _ _ df); [|reflexivity]. now rewrite IH.
Qed.

(** X2. On a negative index the loop of [get_excel_column_name] has no last
    iteration, whatever the number of iterations allowed.  So when the
    numeric start column converts to a negative index (the empty label
    gives -1), the run over a workbook with a sheet that reaches the
    numeric start row returns no result. *)
Theorem negative_start_column_never_returns :
  (forall fuel k acc, k < 0 -> column_name_loop fuel k acc = None)
  /\ column_letter_to_index String.EmptyString = -1
  /\ (forall cfg data_to_validate,
        column_letter_to_index (numeric_start_col cfg) < 0 ->
        Exists (fun sheet => numeric_start_row cfg - 1 < len (rows (snd sheet)))
               data_to_validate ->
        validate_data cfg data_to_validate = None).
Proof.
  split; [exact column_name_loop_negative|]. split; [reflexivity|].
  intros cfg sheets Hk Hsheet. unfold validate_data, convert_columns.
  now rewrite validate_sheets_negative_start.
Qed.

Lemma negative_start_column_never_returns_witness :
  let cfg := mk_config 1 "A" "B" 1 String.EmptyString in
  column_letter_to_index (numeric_start_col cfg) < 0
  /\ Exists (fun sheet => numeric_start_row cfg - 1 < len (rows (snd sheet)))
            [("Sheet1"%string, sample_sheet)]
  /\ validate_data cfg [("Sheet1"%string, sample_sheet)] = None.
Proof.
  cbv zeta.
  assert (Hk : column_letter_to_index
                 (numeric_start_col (mk_config 1 "A" "B" 1 String.EmptyString)) < 0)
    by (cbn; lia).
  assert (Hsheet : Exists
            (fun sheet => numeric_start_row (mk_config 1 "A" "B" 1 String.EmptyString) - 1
                          < len (rows (snd sheet)))
            [("Sheet1"%string, sample_sheet)])
    by (constructor; cbn; lia).
  split; [exact Hk|]. split; [exact Hsheet|].
  exact (proj2 (proj2 negative_start_column_never_returns) _ _ Hk Hsheet).
Defined.

End NegativeIndexFacts.

(** * DataValidation: the entries of a run *)

Section RunFacts.
Import Text Frame ColumnAddressing DataValidation Measures.

Lemma validate_sheets_entries cfg i j k (sheets : list (string * DataFrame)) :
  forall validation_results,
    validate_sheets cfg i j k sheets = Some validation_results ->
    Forall2 (fun sheet entry =>
               fst entry = fst sheet
               /\ validate_sheet cfg i j k (snd sheet) = Some (snd entry))
            sheets validation_results.
Proof.
  induction sheets as [|[name df] rest IH]; intros validation_results;
    cbn [validate_sheets].
  - intros [= <-]. constructor.
  - destruct (validate_sheet cfg i j k df) as [r|] eqn:Hsheet; [|discriminate].
    destruct (validate_sheets cfg i j k rest) as [tail|]; [|discriminate].
    intros [= <-]. constructor; [now split | now apply IH].
Qed.

(** X3. A run that returns holds one entry per sheet, under the sheet's
    name and in the order of the workbook; an entry is marked invalid only
    if one of its categories holds an issue; and the run is reported valid
    exactly when no entry holds any issue. *)
Theorem run_entries_and_validity cfg (data_to_validate : list (string * DataFrame))
        (validation_results : list (string * results)) (all_valid : bool) :
  validate_data cfg data_to_validate = Some (Validated validation_results all_valid) ->
  map fst validation_results = map fst data_to_validate
  /\ (forall entry, In entry validation_results ->
        is_valid (snd entry) = false -> exists k, issues (snd entry) k <> [])
  /\ (all_valid = true <->
      forall entry, In entry validation_results -> forall k, issues (snd entry) k = []).
Proof.
  unfold validate_data, convert_columns.
  destruct (validate_sheets _ _ _ _ _) as [entries|] eqn:Hrun; [|discriminate].
  intros [= <- <-].
  apply validate_sheets_entries in Hrun.
  assert (Hreflect : forall entry, In entry entries ->
                                   validity_reflects_issues (snd entry)).
  { clear -Hrun. induction Hrun as [|sheet entry sheets entries [_ Hsheet] _ IH];
      intros e He; [contradiction|].
    destruct He as [<- | He]; [|now apply IH].
    exact (validity_validate_sheet _ _ _ _ _ _ Hsheet). }
  split; [|split].
  - clear -Hrun. induction Hrun as [|sheet entry sheets entries [Hname _] _ IH];
      cbn [map]; congruence.
  - intros entry Hin. apply (Hreflect entry Hin).
  - rewrite forallb_forall. split.
    + intros Hall entry Hin. apply (Hreflect entry Hin). now apply Hall.
    + intros Hnone entry Hin.
      destruct (is_valid (snd entry)) eqn:Hvalid; [reflexivity|].
      destruct (proj2 (Hreflect entry Hin) Hvalid) as [k Hk].
      exfalso. apply Hk. now apply Hnone.
Qed.

Lemma run_entries_and_validity_witness :
  exists validation_results all_valid,
    validate_data sample_config [("Sheet1"%string, sample_sheet)]
    = Some (Validated validation_results all_valid)
    /\ map fst validation_results = ["Sheet1"%string]
    /\ all_valid = false.
Proof.
  destruct (validate_data sample_config [("Sheet1"%string, sample_sheet)])
    as [[|validation_results all_valid]|] eqn:Hrun;
    [vm_compute in Hrun; discriminate | | vm_compute in Hrun; discriminate].
  exists validation_results, all_valid. split; [reflexivity|].
  split; [exact (proj1 (run_entries_and_validity _ _ _ _ Hrun))|].
  vm_compute in Hrun. now injection Hrun as _ <-.
Defined.

End RunFacts.

(** * DataValidation: what is counted *)

Section CountFacts.
Import Text Frame ColumnAddressing Strptime DataValidation Measures.

Lemma len_app {A} (l1 l2 : list A) : len (l1 ++ l2) = len l1 + len l2.
Proof. unfold len. rewrite length_app. lia. Qed.

Lemma len_nonneg {A} (l : list A) : 0 <= len l.
Proof. unfold len. lia. Qed.

Lemma issue_count_same (keys : list category) (r r' : results) :
  (forall k, In k keys -> issues r' k = issues r k) ->
  issue_count keys r' = issue_count keys r.
Proof.
  induction keys as [|key keys IH]; intros H; cbn [issue_count]; [reflexivity|].
  rewrite H by now left. rewrite IH; [reflexivity|]. intros k Hk. apply H. now right.
Qed.

Lemma issue_count_add_issue (keys : list category) key message (r : results) :
  issue_count keys (add_issue key message r)
  = issue_count keys r + len (filter (fun k => category_eqb k key) keys).
Proof.
  induction keys as [|k keys IH]; cbn [issue_count filter]; [reflexivity|].
  rewrite IH. cbn [add_issue issues].
  destruct (category_eqb k key).
  - rewrite len_app. unfold len. cbn [List.length]. lia.
  - lia.
Qed.

Lemma validate_entries_step date_col time_col date_format time_format row
      date_val time_val rest (r : results) combined :
  exists r1 combined1,
    validate_entries date_col time_col date_format time_format row
      ((date_val, time_val) :: rest) r combined
    = validate_entries date_col time_col date_format time_format (row + 1)
        rest r1 combined1
    /\ outside_rows r r1
    /\ row_measure r1 combined1 <= row_measure r combined + 1
    /\ (date_format <> Some datetime_object ->
        time_format <> Some datetime_object ->
        row_measure r1 combined1 = row_measure r combined + 1).
Proof.
  assert (Hadd : forall key message,
             In key row_categories ->
             outside_rows r (add_issue key message r)
             /\ row_measure (add_issue key message r) combined
                = row_measure r combined + 1).
  { intros key message Hkey. split.
    - split; [|reflexivity]. intros k Hk1 Hk2. apply add_issue_other.
      destruct Hkey as [<- | [<- | []]]; assumption.
    - unfold row_measure. rewrite issue_count_add_issue.
      destruct Hkey as [<- | [<- | []]]; cbn; lia. }
  assert (Hparse : forall formats detected f g val,
             detected <> Some datetime_object ->
             parse_value formats detected f g val <> Parsed None).
  { intros formats detected f g val Hdet. unfold parse_value.
    destruct val; try discriminate;
      (destruct detected as [fmt|];
       [destruct (String.eqb_spec fmt datetime_object); [congruence|];
        destruct (strptime _ fmt); discriminate
       | destruct (first_parse formats _) as [[? ?]|]; discriminate]). }
  cbn [validate_entries].
  destruct (isna date_val).
  { eexists _, _. split; [reflexivity|].
    destruct (Hadd datetime_issues (EmptyDate row date_col) ltac:(cbn; tauto))
      as [Hout Hm]. repeat split; try apply Hout; lia. }
  destruct (isna time_val).
  { eexists _, _. split; [reflexivity|].
    destruct (Hadd datetime_issues (EmptyTime row time_col) ltac:(cbn; tauto))
      as [Hout Hm]. repeat split; try apply Hout; lia. }
  destruct (parse_value date_formats_to_try date_format _ _ date_val)
    as [parsed_date | message] eqn:Hdate.
  2:{ eexists _, _. split; [reflexivity|].
      destruct (Hadd datetime_format_issues message ltac:(cbn; tauto)) as [Hout Hm].
      repeat split; try apply Hout; lia. }
  destruct (parse_value time_formats_to_try time_format _ _ time_val)
    as [parsed_time | message] eqn:Htime.
  2:{ eexists _, _. split; [reflexivity|].
      destruct (Hadd datetime_format_issues message ltac:(cbn; tauto)) as [Hout Hm].
      repeat split; try apply Hout; lia. }
  destruct parsed_date as [d|], parsed_time as [t|];
    eexists _, _; (split; [reflexivity|]);
    (split; [split; reflexivity|]); unfold row_measure; rewrite ?len_app;
    (split; [unfold len; cbn [List.length]; lia|]); intros Hd Ht;
    try (unfold len; cbn [List.length]; lia);
    try (exfalso; apply (Hparse _ _ _ _ _ Hd Hdate));
    try (exfalso; apply (Hparse _ _ _ _ _ Ht Htime)).
Qed.

Lemma outside_rows_trans (r1 r2 r3 : results) :
  outside_rows r1 r2 -> outside_rows r2 r3 -> outside_rows r1 r3.
Proof.
  intros [H12 T12] [H23 T23]. split; [|congruence].
  intros k Hk1 Hk2. rewrite H23, H12 by assumption. reflexivity.
Qed.

(** Every row of the pass adds at most one issue or one combined instant,
    and exactly one when neither column holds native date-times. *)
Lemma validate_entries_measure date_col time_col date_format time_format
      (entries : list (cell * cell)) :
  forall row r combined,
    let result := validate_entries date_col time_col date_format time_format
                    row entries r combined in
    outside_rows r (fst result)
    /\ row_measure (fst result) (snd result)
       <= row_measure r combined + len entries
    /\ (date_format <> Some datetime_object ->
        time_format <> Some datetime_object ->
        row_measure (fst result) (snd result)
        = row_measure r combined + len entries).
Proof.
  induction entries as [|[date_val time_val] rest IH]; intros row r combined; cbv zeta.
  - cbn [validate_entries fst snd]. unfold len. cbn [List.length].
    repeat split; intros; lia.
  - destruct (validate_entries_step date_col time_col date_format time_format row
                date_val time_val rest r combined)
      as (r1 & combined1 & -> & Hout & Hle & Heq).
    specialize (IH (row + 1) r1 combined1). cbv zeta in IH.
    destruct IH as (Hout' & Hle' & Heq').
    assert (Hlen : len ((date_val, time_val) :: rest) = len rest + 1)
      by (unfold len; cbn [List.length]; lia).
    rewrite Hlen.
    split; [exact (outside_rows_trans _ _ _ Hout Hout')|]. split; [lia|].
    intros Hd Ht. rewrite (Heq' Hd Ht), (Heq Hd Ht). lia.
Qed.

End CountFacts.

Section CountClaims.
Import Text Frame ColumnAddressing Strptime DataValidation Measures.

(** X4. In the pass over the date and time columns every row adds at most
    one entry: a [datetime] issue, a [datetime_format] issue or a combined
    instant; it adds exactly one when neither detected format is
    ['datetime_object'].  When the date format is ['datetime_object'], a
    row whose date is a text and whose time is accepted adds nothing: it is
    neither reported nor combined. *)
Theorem rows_are_accounted_for date_col time_col date_format time_format
        (entries : list (cell * cell)) (row : Z) (r : results)
        (combined : list (Z * datetime)) :
  let result := validate_entries date_col time_col date_format time_format
                  row entries r combined in
  row_measure (fst result) (snd result) <= row_measure r combined + len entries
  /\ (date_format <> Some datetime_object ->
      time_format <> Some datetime_object ->
      row_measure (fst result) (snd result) = row_measure r combined + len entries)
  /\ (forall text time_val parsed_time,
        isna time_val = false ->
        parse_value time_formats_to_try time_format
          (TimeNotInFormat row time_col) (TimeNotParsed row time_col) time_val
        = Parsed parsed_time ->
        validate_entries date_col time_col (Some datetime_object) time_format row
          ((CStr text, time_val) :: entries) r combined
        = validate_entries date_col time_col (Some datetime_object) time_format
            (row + 1) entries r combined).
Proof.
  cbv zeta.
  destruct (validate_entries_measure date_col time_col date_format time_format
              entries row r combined) as (_ & Hle & Heq).
  split; [exact Hle|]. split; [exact Heq|].
  intros text time_val parsed_time Htime Hparse. cbn [validate_entries isna].
  rewrite Htime. cbn [parse_value]. rewrite String.eqb_refl.
  fold (parse_value time_formats_to_try time_format
          (TimeNotInFormat row time_col) (TimeNotParsed row time_col) time_val).
  rewrite Hparse. reflexivity.
Qed.

Lemma rows_are_accounted_for_witness :
  let entries := [(CStr "09.01.2026", CStr "10:00:00"); (CNull, CStr "10:01:00");
                  (CStr "2026-01-10", CStr "10:02:00")] in
  let result := validate_entries "A" "B" (Some "%d.%m.%Y"%string)
                  (Some "%H:%M:%S"%string) 8 entries initial_results [] in
  Some "%d.%m.%Y"%string <> Some datetime_object
  /\ Some "%H:%M:%S"%string <> Some datetime_object
  /\ row_measure (fst result) (snd result) = row_measure initial_results [] + 3.
Proof.
  cbv zeta.
  assert (Hd : Some "%d.%m.%Y"%string <> Some datetime_object) by discriminate.
  assert (Ht : Some "%H:%M:%S"%string <> Some datetime_object) by discriminate.
  split; [exact Hd|]. split; [exact Ht|].
  exact (proj1 (proj2 (rows_are_accounted_for "A" "B" (Some "%d.%m.%Y"%string)
                         (Some "%H:%M:%S"%string)
                         [(CStr "09.01.2026", CStr "10:00:00"); (CNull, CStr "10:01:00");
                          (CStr "2026-01-10", CStr "10:02:00")] 8 initial_results []))
               Hd Ht).
Defined.

End CountClaims.

(** * GapAnalyzer: what a returned analysis holds *)

Section GapMeasureFacts.
Import Frame DataValidation GapAnalyzer Measures.

Lemma range_from_length (a b : Z) : len (range_from a b) = Z.max 0 (b - a).
Proof.
  unfold range_from, len. rewrite length_map, length_seq. lia.
Qed.











End GapMeasureFacts.

Section GapMeasureClaims.
Import Frame DataValidation GapAnalyzer Measures.





End GapMeasureClaims.

(** * GapAnalyzer: how the analysis ends *)

Section GapOutcomeFacts.
Import Frame DataValidation GapAnalyzer Measures.










End GapOutcomeFacts.

Section GapOutcomeClaims.
Import Frame DataValidation GapAnalyzer Measures.





End GapOutcomeClaims.

(** * DataValidation: the counters of a sheet *)

Section SheetCounterFacts.
Import Text Frame ColumnAddressing Strptime DataValidation Measures.

Lemma outside_cells_refl (r : results) : outside_cells r r.
Proof. split; [intros; reflexivity | reflexivity]. Qed.

Lemma outside_cells_trans (r1 r2 r3 : results) :
  outside_cells r1 r2 -> outside_cells r2 r3 -> outside_cells r1 r3.
Proof.
  intros [H12 T12] [H23 T23]. split; [|congruence].
  intros k Hk. rewrite H23, H12 by assumption. reflexivity.
Qed.

(** The key of the issue of a cell is one of the five cell categories. *)
Lemma check_cell_category cell_ref row_num col_name value key message :
  check_cell cell_ref row_num col_name value = Some (key, message) ->
  In key cell_categories.
Proof.
  unfold check_cell, cell_categories.
  destruct (isna value); [intros [= <- _]; cbn; tauto|].
  destruct (_ =? _)%string; [intros [= <- _]; cbn; tauto|].
  destruct (negb (is_numeric value)); [|discriminate].
  destruct (FloatSyntax.float_parses _); [discriminate|].
  destruct (existsb isalpha _); [intros [= <- _]; cbn; tauto|].
  destruct (negb (forallb is_allowed _)); intros [= <- _]; cbn; tauto.
Qed.

Lemma add_cell_issue key message (r : results) :
  In key cell_categories ->
  issue_count cell_categories (add_issue key message r)
  = issue_count cell_categories r + 1
  /\ outside_cells r (add_issue key message r).
Proof.
  intros Hkey. split.
  - rewrite issue_count_add_issue.
    cbn in Hkey. destruct Hkey as [<- | [<- | [<- | [<- | [<- | []]]]]]; reflexivity.
  - split; [|reflexivity]. intros k Hk. apply add_issue_other.
    cbn in Hkey, Hk.
    destruct Hkey as [<- | [<- | [<- | [<- | [<- | []]]]]];
      destruct Hk as [<- | [<- | [<- | []]]]; discriminate.
Qed.

(** The walk over the cells of one column counts every cell and reports
    each one at most once. *)
Lemma validate_cells_counts col_letter col_name (col_data : list cell) :
  forall idx r,
    let r' := validate_cells col_letter col_name idx col_data r in
    total_cells_validated r' = total_cells_validated r + len col_data
    /\ issue_count cell_categories r <= issue_count cell_categories r'
       <= issue_count cell_categories r + len col_data
    /\ outside_cells r r'.
Proof.
  induction col_data as [|value rest IH]; intros idx r; cbv zeta.
  - cbn [validate_cells]. unfold len. cbn [List.length].
    split; [lia|]. split; [lia | apply outside_cells_refl].
  - cbn [validate_cells].
    assert (Hlen : len (value :: rest) = len rest + 1)
      by (unfold len; cbn [List.length]; lia).
    rewrite Hlen.
    destruct (check_cell (col_letter, idx + 1) (idx + 1) col_name value)
      as [[key message]|] eqn:Hcheck.
    + destruct (add_cell_issue key message (count_cell r)
                  (check_cell_category _ _ _ _ _ _ Hcheck)) as [Hcount Hout].
      specialize (IH (idx + 1) (add_issue key message (count_cell r))).
      cbv zeta in IH. destruct IH as (Hcells & Hissues & Hout').
      rewrite Hcells. cbn [add_issue count_cell total_cells_validated].
      split; [lia|]. split.
      * replace (issue_count cell_categories (count_cell r))
          with (issue_count cell_categories r) in Hcount by reflexivity. lia.
      * eapply outside_cells_trans; [|exact Hout'].
        eapply outside_cells_trans; [|exact Hout]. split; reflexivity.
    + specialize (IH (idx + 1) (count_cell r)).
      cbv zeta in IH. destruct IH as (Hcells & Hissues & Hout').
      rewrite Hcells. cbn [count_cell total_cells_validated].
      split; [lia|]. split.
      * replace (issue_count cell_categories (count_cell r))
          with (issue_count cell_categories r) in Hissues by reflexivity. lia.
      * eapply outside_cells_trans; [|exact Hout']. split; reflexivity.
Qed.

Lemma column_of_length (data_rows : list (list cell)) (col_idx : Z) :
  forall col_data,
    column_of data_rows col_idx = Some col_data -> len col_data = len data_rows.
Proof.
  induction data_rows as [|row rest IH]; intros col_data; cbn [column_of].
  - now intros [= <-].
  - destruct (py_index row col_idx); [|discriminate].
    destruct (column_of rest col_idx) as [tail|]; [|discriminate].
    intros [= <-]. specialize (IH tail eq_refl).
    unfold len in *. cbn [List.length]. lia.
Qed.

Lemma column_from_length (df : DataFrame) (start col_idx : Z) (col_data : list cell) :
  column_from df start col_idx = Some col_data ->
  len col_data = len (from_row (rows df) start).
Proof.
  unfold column_from. destruct (py_index (columns df) col_idx); [|discriminate].
  apply column_of_length.
Qed.

Lemma from_row_length {A} (l : list A) (start : Z) :
  0 <= start <= len l -> len (from_row l start) = len l - start.
Proof.
  intros H. unfold from_row, len in *. rewrite length_skipn. lia.
Qed.

(** The walk over the numeric columns counts one cell per column and row of
    the region. *)
Lemma validate_columns_counts (df : DataFrame) (start : Z) (cols : list Z) :
  forall r r',
    validate_columns df start cols r = Some r' ->
    total_cells_validated r'
    = total_cells_validated r + len cols * len (from_row (rows df) start)
    /\ issue_count cell_categories r' - issue_count cell_categories r
       <= len cols * len (from_row (rows df) start)
    /\ outside_cells r r'.
Proof.
  induction cols as [|c cols IH]; intros r r'; cbn [validate_columns].
  - intros [= <-]. unfold len at 1 3. cbn [List.length].
    split; [lia|]. split; [lia | apply outside_cells_refl].
  - destruct (py_index (columns df) c) as [col_name|]; [|discriminate].
    destruct (get_excel_column_name c) as [col_letter|]; [|discriminate].
    destruct (column_from df start c) as [col_data|] eqn:Hcol; [|discriminate].
    intros Hrun. apply IH in Hrun. destruct Hrun as (Hcells & Hissues & Hout).
    pose proof (validate_cells_counts col_letter col_name col_data start
                  (add_column (NumericColumn col_letter col_name) r)) as Hcol_counts.
    cbv zeta in Hcol_counts. destruct Hcol_counts as (Hcells' & Hissues' & Hout').
    rewrite (column_from_length _ _ _ _ Hcol) in *.
    assert (Hlen : len (c :: cols) = len cols + 1)
      by (unfold len; cbn [List.length]; lia).
    rewrite Hlen, Hcells, Hcells'. cbn [add_column total_cells_validated].
    replace (issue_count cell_categories
               (add_column (NumericColumn col_letter col_name) r))
      with (issue_count cell_categories r) in Hissues' by reflexivity.
    split; [lia|]. split; [lia|].
    eapply outside_cells_trans; [|exact Hout].
    eapply outside_cells_trans; [|exact Hout']. split; reflexivity.
Qed.

Lemma check_sequence_counters (expected : Z) (combined : list (Z * datetime)) :
  forall r,
    total_rows_validated (check_sequence expected combined r) = total_rows_validated r
    /\ total_cells_validated (check_sequence expected combined r)
       = total_cells_validated r.
Proof.
  induction combined as [|[row1 dt1] rest IH]; intros r; [split; reflexivity|].
  destruct rest as [|[row2 dt2] rest']; [split; reflexivity|].
  rewrite check_sequence_step.
  destruct (_ >? 1); [|apply IH].
  destruct (IH (add_issue datetime_sequence_issues
                  (SequenceBroken row1 row2 (instant dt1 + expected) (instant dt2)) r))
    as [-> ->]. split; reflexivity.
Qed.

Lemma pairs_length {A} (l : list A) : len (pairs l) <= len l.
Proof.
  induction l as [|a l IH]; [reflexivity|].
  destruct l as [|b l]; [unfold len; cbn; lia|].
  rewrite pairs_step. unfold len in *. cbn [List.length] in *. lia.
Qed.

Lemma filter_length_le {A} (f : A -> bool) (l : list A) : len (filter f l) <= len l.
Proof. unfold len. pose proof (filter_length_le f l). lia. Qed.

(** What the interval check leaves of an entry: at most one sequence issue
    per combined instant, and nothing else changes. *)
Lemma check_intervals_counts (combined : list (Z * datetime)) (r r' : results) :
  check_intervals combined r = Some r' ->
  len (issues r' datetime_sequence_issues)
  <= len (issues r datetime_sequence_issues) + len combined
  /\ (forall k, k <> datetime_sequence_issues -> issues r' k = issues r k)
  /\ total_rows_validated r' = total_rows_validated r
  /\ total_cells_validated r' = total_cells_validated r.
Proof.
  unfold check_intervals. destruct (len combined >=? 2).
  - destruct (most_common _) as [m|]; [|discriminate]. intros [= <-].
    destruct (check_sequence_spec m combined (set_interval (interval_type_of m) r))
      as (Hseq & Hother & _).
    destruct (check_sequence_counters m combined (set_interval (interval_type_of m) r))
      as [Hrows Hcells].
    rewrite Hseq, Hrows, Hcells. cbn [set_interval issues total_rows_validated
                                      total_cells_validated].
    split; [|split; [exact Hother | split; reflexivity]].
    rewrite len_app. unfold len at 2. rewrite length_map.
    fold (len (filter (broken m) (pairs combined))).
    pose proof (filter_length_le (broken m) (pairs combined)).
    pose proof (pairs_length combined). lia.
  - intros [= <-]. pose proof (len_nonneg combined).
    split; [lia|]. split; [reflexivity | split; reflexivity].
Qed.

Lemma combine_length (date_data time_data : list cell) :
  len (List.combine date_data time_data) <= len date_data.
Proof. unfold len. rewrite length_combine. lia. Qed.

(** The block on the date and time columns, run on a fresh entry. *)
Lemma validate_datetime_counts date_col time_col date_col_name time_col_name start
      (date_data time_data : list cell) (r' : results) :
  validate_datetime date_col time_col date_col_name time_col_name start
    date_data time_data initial_results = Some r' ->
  total_rows_validated r' = len date_data
  /\ total_cells_validated r' = 0
  /\ issue_count datetime_categories r' <= len date_data
  /\ issue_count cell_categories r' = 0.
Proof.
  unfold validate_datetime.
  set (r0 := set_formats _ _ _).
  pose proof (validate_entries_measure date_col time_col
                (detect_format date_formats_to_try date_data)
                (detect_format time_formats_to_try time_data)
                (List.combine date_data time_data) (start + 0 + 1) r0 [])
    as Hentries.
  cbv zeta in Hentries.
  destruct (validate_entries _ _ _ _ _ _ r0 []) as [r1 combined].
  cbn [fst snd] in Hentries. destruct Hentries as ([Hout Hcells] & Hle & _).
  destruct (check_intervals combined r1) as [r2|] eqn:Hcheck; [|discriminate].
  intros [= <-].
  destruct (check_intervals_counts _ _ _ Hcheck) as (Hseq & Hother & Hrows2 & Hcells2).
  cbn [set_rows_validated total_rows_validated total_cells_validated].
  split; [reflexivity|]. split; [rewrite Hcells2, Hcells; reflexivity|].
  pose proof (combine_length date_data time_data) as Hcombine.
  unfold row_measure, row_categories in Hle. cbn [issue_count] in Hle.
  replace (len (issues r0 datetime_issues)) with 0 in Hle by reflexivity.
  replace (len (issues r0 datetime_format_issues)) with 0 in Hle by reflexivity.
  replace (len (@nil (Z * datetime))) with 0 in Hle by reflexivity.
  split.
  - unfold datetime_categories. cbn [issue_count set_rows_validated issues].
    rewrite (Hother datetime_issues), (Hother datetime_format_issues) by discriminate.
    rewrite (Hout datetime_sequence_issues) in Hseq by discriminate.
    replace (len (issues r0 datetime_sequence_issues)) with 0 in Hseq by reflexivity.
    lia.
  - unfold cell_categories. cbn [issue_count set_rows_validated issues].
    rewrite !Hother, !Hout by discriminate. reflexivity.
Qed.

(** What the validation of a sheet returns, in numbers. *)
Lemma validate_sheet_counts cfg date_col_idx time_col_idx numeric_start_col_idx
      (df : DataFrame) (r : results) :
  1 <= datetime_start_row cfg -> 1 <= numeric_start_row cfg ->
  validate_sheet cfg date_col_idx time_col_idx numeric_start_col_idx df = Some r ->
  total_rows_validated r = datetime_region_rows cfg date_col_idx time_col_idx df
  /\ total_cells_validated r = numeric_region_cells cfg numeric_start_col_idx df
  /\ issue_count datetime_categories r <= total_rows_validated r
  /\ issue_count cell_categories r <= total_cells_validated r.
Proof.
  intros Hdate_row Hnum_row. unfold validate_sheet, datetime_region_rows,
    numeric_region_cells.
  set (in_datetime := (len (rows df) >? datetime_start_row cfg - 1)
                      && (date_col_idx <? len (columns df))
                      && (time_col_idx <? len (columns df))).
  assert (Hfirst : forall r1,
    (if in_datetime then
       date_col_name <- py_index (columns df) date_col_idx ;;
       time_col_name <- py_index (columns df) time_col_idx ;;
       date_data <- column_from df (datetime_start_row cfg - 1) date_col_idx ;;
       time_data <- column_from df (datetime_start_row cfg - 1) time_col_idx ;;
       validate_datetime (date_col cfg) (time_col cfg) date_col_name time_col_name
         (datetime_start_row cfg - 1) date_data time_data initial_results
     else Some initial_results) = Some r1 ->
    total_rows_validated r1
    = (if in_datetime then len (rows df) - (datetime_start_row cfg - 1) else 0)
    /\ total_cells_validated r1 = 0
    /\ issue_count datetime_categories r1 <= total_rows_validated r1
    /\ issue_count cell_categories r1 = 0).
  { intros r1. destruct in_datetime eqn:Hin.
    - destruct (py_index (columns df) date_col_idx) as [date_col_name|]; [|discriminate].
      destruct (py_index (columns df) time_col_idx) as [time_col_name|]; [|discriminate].
      destruct (column_from df _ date_col_idx) as [date_data|] eqn:Hdate; [|discriminate].
      destruct (column_from df _ time_col_idx) as [time_data|]; [|discriminate].
      intros Hrun. apply validate_datetime_counts in Hrun.
      destruct Hrun as (Hrows & Hcells & Hissues & Hcell_issues).
      apply column_from_length in Hdate.
      unfold in_datetime in Hin. apply andb_prop in Hin. destruct Hin as [Hin _].
      apply andb_prop in Hin. destruct Hin as [Hin _].
      rewrite Z.gtb_ltb in Hin. apply Z.ltb_lt in Hin.
      rewrite from_row_length in Hdate by lia.
      rewrite Hrows, Hdate. repeat split; try assumption; lia.
    - intros [= <-]. cbn. repeat split; lia. }
  destruct (if in_datetime then _ else _) as [r1|] eqn:Hr1; [|discriminate].
  destruct (Hfirst r1 eq_refl) as (Hrows & Hcells & Hissues & Hcell_issues).
  destruct (Z.gtb_spec (len (rows df)) (numeric_start_row cfg - 1)) as [Hlong | Hshort];
    cbn [andb].
  - destruct (numeric_start_col_idx <? len (columns df)).
    + intros Hrun. apply validate_columns_counts in Hrun.
      destruct Hrun as (Hcells' & Hissues' & [Hout Hrows']).
      rewrite from_row_length in * by lia.
      fold (len (range_from numeric_start_col_idx (last_col_with_data df + 1))) in *.
      rewrite range_from_length in *.
      rewrite Hrows', Hcells', Hcells, Hrows.
      split; [reflexivity|]. split; [lia|]. split; [|lia].
      rewrite (issue_count_same datetime_categories r1 r Hout).
      rewrite <- Hrows. exact Hissues.
    + intros [= <-]. rewrite Hrows, Hcells.
      split; [reflexivity|]. split; [reflexivity|]. split; lia.
  - intros [= <-]. rewrite Hrows, Hcells.
    split; [reflexivity|]. split; [reflexivity|]. split; lia.
Qed.

End SheetCounterFacts.

Section SheetCounterClaims.
Import Text Frame ColumnAddressing Strptime DataValidation Measures.

(** X9. In every entry of a run that returns, the issues of the date and
    time columns (datetime, datetime_format and datetime_sequence together)
    are at most as many as the rows validated, and the issues of the
    numeric region (null, empty cell, alphabetical, special character and
    numeric together) are at most as many as the cells validated: a row or
    a cell is never reported twice. *)
Theorem issues_never_exceed_counts cfg (data_to_validate : list (string * DataFrame))
        (validation_results : list (string * results)) (all_valid : bool) :
  1 <= datetime_start_row cfg -> 1 <= numeric_start_row cfg ->
  validate_data cfg data_to_validate = Some (Validated validation_results all_valid) ->
  forall entry, In entry validation_results ->
    issue_count datetime_categories (snd entry) <= total_rows_validated (snd entry)
    /\ issue_count cell_categories (snd entry) <= total_cells_validated (snd entry).
Proof.
  intros Hdate_row Hnum_row. unfold validate_data, convert_columns.
  destruct (validate_sheets _ _ _ _ _) as [entries|] eqn:Hrun; [|discriminate].
  intros [= <- _]. apply validate_sheets_entries in Hrun.
  induction Hrun as [|sheet entry sheets entries [_ Hsheet] _ IH];
    intros e He; [contradiction|].
  destruct He as [<- | He]; [|now apply IH].
  now destruct (validate_sheet_counts _ _ _ _ _ _ Hdate_row Hnum_row Hsheet)
    as (_ & _ & Hrows & Hcells).
Qed.

Lemma issues_never_exceed_counts_witness :
  exists validation_results all_valid,
    1 <= datetime_start_row sample_config
    /\ 1 <= numeric_start_row sample_config
    /\ validate_data sample_config [("Sheet1"%string, sample_sheet)]
       = Some (Validated validation_results all_valid)
    /\ forall entry, In entry validation_results ->
         issue_count datetime_categories (snd entry) <= total_rows_validated (snd entry)
         /\ issue_count cell_categories (snd entry)
            <= total_cells_validated (snd entry).
Proof.
  destruct (validate_data sample_config [("Sheet1"%string, sample_sheet)])
    as [[|validation_results all_valid]|] eqn:Hrun;
    [vm_compute in Hrun; discriminate | | vm_compute in Hrun; discriminate].
  assert (Hdate_row : 1 <= datetime_start_row sample_config) by (cbn; lia).
  assert (Hnum_row : 1 <= numeric_start_row sample_config) by (cbn; lia).
  exists validation_results, all_valid.
  split; [exact Hdate_row|]. split; [exact Hnum_row|]. split; [reflexivity|].
  exact (issues_never_exceed_counts _ _ _ _ Hdate_row Hnum_row Hrun).
Defined.

(** X10. In a run that returns, the entry of a sheet counts as rows
    validated the rows from the date and time starting row on (none when
    the sheet ends before that row or lacks one of the two columns), and as
    cells validated one cell for every such row of the numeric region and
    every column from the numeric starting column to the last column of the
    sheet that holds data (none when the sheet ends before the numeric
    starting row, lacks the starting column, or holds no data from that
    column on). *)
Theorem counters_are_region_sizes cfg (data_to_validate : list (string * DataFrame))
        (validation_results : list (string * results)) (all_valid : bool) :
  1 <= datetime_start_row cfg -> 1 <= numeric_start_row cfg ->
  validate_data cfg data_to_validate = Some (Validated validation_results all_valid) ->
  Forall2 (fun sheet entry =>
             total_rows_validated (snd entry)
             = datetime_region_rows cfg (column_letter_to_index (date_col cfg))
                 (column_letter_to_index (time_col cfg)) (snd sheet)
             /\ total_cells_validated (snd entry)
                = numeric_region_cells cfg
                    (column_letter_to_index (numeric_start_col cfg)) (snd sheet))
          data_to_validate validation_results.
Proof.
  intros Hdate_row Hnum_row. unfold validate_data, convert_columns.
  destruct (validate_sheets _ _ _ _ _) as [entries|] eqn:Hrun; [|discriminate].
  intros [= <- _]. apply validate_sheets_entries in Hrun.
  induction Hrun as [|sheet entry sheets entries [_ Hsheet] _ IH]; constructor;
    [|exact IH].
  now destruct (validate_sheet_counts _ _ _ _ _ _ Hdate_row Hnum_row Hsheet)
    as (Hrows & Hcells & _).
Qed.

Lemma counters_are_region_sizes_witness :
  exists validation_results all_valid,
    1 <= datetime_start_row sample_config
    /\ 1 <= numeric_start_row sample_config
    /\ validate_data sample_config [("Sheet1"%string, sample_sheet)]
       = Some (Validated validation_results all_valid)
    /\ Forall2 (fun sheet entry =>
                  total_rows_validated (snd entry)
                  = datetime_region_rows sample_config
                      (column_letter_to_index (date_col sample_config))
                      (column_letter_to_index (time_col sample_config)) (snd sheet)
                  /\ total_cells_validated (snd entry)
                     = numeric_region_cells sample_config
                         (column_letter_to_index (numeric_start_col sample_config))
                         (snd sheet))
               [("Sheet1"%string, sample_sheet)] validation_results.
Proof.
  destruct (validate_data sample_config [("Sheet1"%string, sample_sheet)])
    as [[|validation_results all_valid]|] eqn:Hrun;
    [vm_compute in Hrun; discriminate | | vm_compute in Hrun; discriminate].
  assert (Hdate_row : 1 <= datetime_start_row sample_config) by (cbn; lia).
  assert (Hnum_row : 1 <= numeric_start_row sample_config) by (cbn; lia).
  exists validation_results, all_valid.
  split; [exact Hdate_row|]. split; [exact Hnum_row|]. split; [reflexivity|].
  exact (counters_are_region_sizes _ _ _ _ Hdate_row Hnum_row Hrun).
Defined.

End SheetCounterClaims.

(** * SheetComparator: when a sheet is valid *)

Section SheetValidFacts.
Import Text Frame ColumnAddressing SheetComparator Measures.

Lemma watermark_unique (template_df : DataFrame) (r w w' : Z) :
  watermark template_df r w -> watermark template_df r w' -> w = w'.
Proof.
  intros (Hw & Hdata & Hafter) (Hw' & Hdata' & Hafter').
  destruct (Z.lt_trichotomy w w') as [Hlt | [Heq | Hgt]]; [|assumption|].
  - rewrite (Hafter w') in Hdata' by lia. discriminate.
  - rewrite (Hafter' w) in Hdata by lia. discriminate.
Qed.

Lemma map_filter_nil {A B} (f : A -> B) (p : A -> bool) (l : list A) :
  map f (filter p l) = [] <-> forall x, In x l -> p x = false.
Proof.
  induction l as [|a l IH]; cbn [filter map].
  - split; [intros _ x [] | reflexivity].
  - destruct (p a) eqn:Ha; cbn [map].
    + split; [discriminate|]. intros H. specialize (H a (or_introl eq_refl)). congruence.
    + rewrite IH. split.
      * intros H x [<- | Hx]; [assumption | now apply H].
      * intros H x Hx. apply H. now right.
Qed.

(** The mismatches of a row are none exactly when no column up to the
    watermark differs. *)
Lemma row_outcome_clean (template_df data_df : DataFrame) (r : Z) (part : comparison) :
  row_outcome template_df data_df r part ->
  (text_cell_mismatches part = []
   <-> forall w, watermark template_df r w ->
         forall c, 0 <= c <= w -> differs template_df data_df r c = false).
Proof.
  intros [Hnone | w Hw]; cbn [text_cell_mismatches].
  - split; [|reflexivity]. intros _ w (Hw & Hdata & _).
    rewrite (Hnone w Hw) in Hdata. discriminate.
  - rewrite map_filter_nil. split.
    + intros H w' Hw' c Hc. rewrite (watermark_unique _ _ _ _ Hw' Hw) in Hc.
      apply H. apply range_bounds. lia.
    + intros H c Hc. apply range_bounds in Hc. apply (H w Hw). lia.
Qed.

Lemma join_clean (parts : list comparison) :
  text_cell_mismatches (join parts) = []
  <-> forall part, In part parts -> text_cell_mismatches part = [].
Proof.
  unfold join. cbn [text_cell_mismatches].
  induction parts as [|part parts IH]; cbn [map List.concat].
  - split; [intros _ part [] | reflexivity].
  - split.
    + intros H. apply app_eq_nil in H. destruct H as [Hpart Hrest].
      intros p [<- | Hp]; [assumption | now apply IH].
    + intros H. rewrite (H part (or_introl eq_refl)). cbn [app].
      apply IH. intros p Hp. apply H. now right.
Qed.

Lemma differs_same (df : DataFrame) (r c : Z) : differs df df r c = false.
Proof. unfold differs. now rewrite String.eqb_refl. Qed.

(** For rectangular tables and row indices that are not negative, the
    comparison returns, valid exactly when nothing differs up to the
    watermarks. *)
Lemma sheet_valid_spec (mode : validation_mode) (rows_to_validate : list Z)
      (template_df data_df : DataFrame) :
  rectangular template_df -> rectangular data_df ->
  Forall (fun r => 0 <= r) rows_to_validate ->
  exists check,
    validate_sheet mode rows_to_validate template_df data_df = Some check
    /\ (sheet_valid check = true
        <-> len (columns template_df) = len (columns data_df)
            /\ forall r, In r (present_rows mode rows_to_validate template_df data_df) ->
               forall w, watermark template_df r w ->
               forall c, 0 <= c <= w -> differs template_df data_df r c = false).
Proof.
  intros Ht Hdata Hnonneg. unfold validate_sheet.
  destruct (Z.eqb_spec (len (columns template_df)) (len (columns data_df)))
    as [Hcount | Hcount].
  - destruct (check_rows_spec template_df data_df Ht Hdata
                (present_rows mode rows_to_validate template_df data_df) Hcount
                (present_rows_inside mode rows_to_validate template_df data_df Hnonneg)
                (mk_comparison [] [])) as (parts & Hparts & Hrun).
    unfold present_rows in Hrun. rewrite Hrun. eexists. split; [reflexivity|].
    cbn [sheet_valid validated_data text_cell_mismatches app andb].
    assert (Hclean : text_cell_mismatches (join parts) = []
                     <-> forall r,
                           In r (present_rows mode rows_to_validate template_df data_df) ->
                           forall w, watermark template_df r w ->
                           forall c, 0 <= c <= w ->
                                     differs template_df data_df r c = false).
    { rewrite join_clean. clear Hrun.
      induction Hparts as [|r part rows parts Hpart _ IH].
      - split; [intros _ r [] | intros _ part []].
      - pose proof (row_outcome_clean _ _ _ _ Hpart) as Hrow. split.
        + intros H r' [<- | Hr'].
          * apply Hrow. apply H. now left.
          * apply IH; [|assumption]. intros p Hp. apply H. now right.
        + intros H p [<- | Hp].
          * apply Hrow. apply H. now left.
          * apply IH; [|assumption]. intros r' Hr'. apply H. now right. }
    destruct (text_cell_mismatches (join parts)) eqn:Hmis.
    + split; [intros _; split; [assumption | now apply Hclean] | reflexivity].
    + split; [discriminate|]. intros [_ H]. apply Hclean in H. discriminate.
  - eexists. split; [reflexivity|]. cbn [sheet_valid andb].
    split; [discriminate | intros [H _]; contradiction].
Qed.

(** A table compared with itself is valid. *)
Lemma self_comparison_valid (mode : validation_mode) (rows_to_validate : list Z)
      (df : DataFrame) :
  rectangular df -> Forall (fun r => 0 <= r) rows_to_validate ->
  exists check,
    validate_sheet mode rows_to_validate df df = Some check
    /\ sheet_valid check = true.
Proof.
  intros Hrect Hnonneg.
  destruct (sheet_valid_spec mode rows_to_validate df df Hrect Hrect Hnonneg)
    as (check & Hrun & Hvalid).
  exists check. split; [assumption|]. apply Hvalid. split; [reflexivity|].
  intros. apply differs_same.
Qed.

End SheetValidFacts.

Section SheetValidClaims.
Import Text Frame ColumnAddressing SheetComparator Measures.

(** X11. For rectangular tables and row indices that are not negative, the
    comparison of a sheet returns, and the sheet is valid exactly when the
    two tables have the same number of columns and, in every requested row
    present in both, no column up to the watermark of the template row
    holds two different trimmed texts.  In particular a table compared with
    itself is valid. *)
Theorem sheet_valid_iff_no_difference
  (mode : validation_mode) (rows_to_validate : list Z)
  (template_df data_df : DataFrame) :
  rectangular template_df -> rectangular data_df ->
  Forall (fun r => 0 <= r) rows_to_validate ->
  (exists check,
     validate_sheet mode rows_to_validate template_df data_df = Some check
     /\ (sheet_valid check = true
         <-> len (columns template_df) = len (columns data_df)
             /\ forall r, In r (present_rows mode rows_to_validate template_df data_df) ->
                forall w, watermark template_df r w ->
                forall c, 0 <= c <= w -> differs template_df data_df r c = false))
  /\ (exists check,
        validate_sheet mode rows_to_validate template_df template_df = Some check
        /\ sheet_valid check = true).
Proof.
  intros Ht Hd Hnonneg. split.
  - now apply sheet_valid_spec.
  - now apply self_comparison_valid.
Qed.

Lemma sheet_valid_iff_no_difference_witness :
  let df := mk_frame ["Tag"; "Unit"]%string
              [[CStr "T1"; CNull]; [CNum "3.5"; CStr " bar "]] in
  rectangular df
  /\ Forall (fun r => 0 <= r) [0; 1; 7]
  /\ exists check,
       validate_sheet SpecificRows [0; 1; 7] df df = Some check
       /\ sheet_valid check = true.
Proof.
  cbv zeta.
  assert (Hrect : rectangular (mk_frame ["Tag"; "Unit"]%string
                                 [[CStr "T1"; CNull]; [CNum "3.5"; CStr " bar "]]))
    by (repeat constructor).
  assert (Hrows : Forall (fun r => 0 <= r) [0; 1; 7])
    by (repeat constructor; lia).
  split; [exact Hrect|]. split; [exact Hrows|].
  exact (proj2 (sheet_valid_iff_no_difference SpecificRows [0; 1; 7] _ _
                  Hrect Hrect Hrows)).
Defined.

End SheetValidClaims.

(** * SheetComparator: row numbers below 1 *)

Section RowWrapFacts.
Import Text Frame ColumnAddressing SheetComparator Measures.

Lemma py_index_wrap {A} (l : list A) (k : Z) :
  - len l <= k < 0 -> py_index l k = py_index l (len l + k).
Proof.
  intros H. unfold py_index.
  destruct (Z.leb_spec 0 k); [lia|].
  destruct (Z.leb_spec (- len l) k); [|lia].
  destruct (Z.leb_spec 0 (len l + k)); [reflexivity | lia].
Qed.

Lemma py_index_below {A} (l : list A) (k : Z) :
  k < - len l -> py_index l k = None.
Proof.
  intros H. unfold py_index. pose proof (len_nonneg l).
  destruct (Z.leb_spec 0 k); [lia|].
  destruct (Z.leb_spec (- len l) k); [lia | reflexivity].
Qed.

Lemma iloc_wrap (df : DataFrame) (k c : Z) :
  - len (rows df) <= k < 0 -> iloc df k c = iloc df (len (rows df) + k) c.
Proof. intros H. unfold iloc. now rewrite py_index_wrap. Qed.

Lemma last_col_scan_wrap (df : DataFrame) (k : Z) (cols : list Z) :
  - len (rows df) <= k < 0 ->
  forall last,
    last_col_scan df k cols last = last_col_scan df (len (rows df) + k) cols last.
Proof.
  intros Hk. induction cols as [|c cols IH]; intros last; cbn [last_col_scan];
    [reflexivity|].
  rewrite iloc_wrap by assumption.
  destruct (iloc df (len (rows df) + k) c); [apply IH | reflexivity].
Qed.

(** The comparison of a row addressed from the end is the comparison of the
    row it stands for, under the row number that was asked for. *)
Lemma compare_cols_wrap (template_df data_df : DataFrame) (n k : Z) (cols : list Z) :
  len (rows template_df) = n -> len (rows data_df) = n -> - n <= k < 0 ->
  forall acc,
    compare_cols template_df data_df k cols (at_row (k + 1) acc)
    = option_map (at_row (k + 1))
        (compare_cols template_df data_df (n + k) cols acc).
Proof.
  intros Ht Hd Hk. induction cols as [|c cols IH]; intros acc;
    cbn [compare_cols]; [reflexivity|].
  destruct (py_index (columns template_df) c) as [col_name|]; [|reflexivity].
  rewrite (iloc_wrap template_df), (iloc_wrap data_df), Ht, Hd by lia.
  destruct (iloc template_df (n + k) c) as [template_value|]; [|reflexivity].
  destruct (iloc data_df (n + k) c) as [data_value|]; [|reflexivity].
  destruct (negb (cell_text template_value =? cell_text data_value)%string).
  - destruct (get_excel_column_name c) as [label|]; [|reflexivity].
    rewrite <- IH. f_equal. unfold at_row.
    cbn [validated_data text_cell_mismatches]. rewrite !map_app. reflexivity.
  - rewrite <- IH. f_equal. unfold at_row.
    cbn [validated_data text_cell_mismatches]. rewrite !map_app. reflexivity.
Qed.

Lemma check_row_wrap (template_df data_df : DataFrame) (n k : Z) :
  len (rows template_df) = n -> len (rows data_df) = n -> - n <= k < 0 ->
  forall acc,
    check_row template_df data_df k (at_row (k + 1) acc)
    = option_map (at_row (k + 1)) (check_row template_df data_df (n + k) acc).
Proof.
  intros Ht Hd Hk acc. unfold check_row.
  rewrite last_col_scan_wrap, Ht by lia.
  destruct (last_col_scan template_df (n + k) _ (-1)) as [last|]; [|reflexivity].
  destruct (last >=? 0); [|reflexivity].
  now apply compare_cols_wrap.
Qed.

(** A row index below the first row of the template makes the scan of the
    row raise. *)
Lemma check_row_below (template_df data_df : DataFrame) (k : Z) (acc : comparison) :
  k < - len (rows template_df) -> 0 < len (columns template_df) ->
  check_row template_df data_df k acc = None.
Proof.
  intros Hk Hcols. unfold check_row.
  assert (Hrange : exists cols, range (len (columns template_df)) = 0 :: cols).
  { unfold range. destruct (Z.to_nat (len (columns template_df))) eqn:Hn; [lia|].
    cbn [seq map]. eauto. }
  destruct Hrange as (cols & ->). cbn [last_col_scan].
  unfold iloc. now rewrite py_index_below.
Qed.

Lemma check_rows_raise (template_df data_df : DataFrame) (k : Z) (valid_rows : list Z) :
  (forall acc, check_row template_df data_df k acc = None) ->
  In k valid_rows ->
  forall acc, check_rows template_df data_df valid_rows acc = None.
Proof.
  intros Hraise. induction valid_rows as [|r rest IH]; intros Hin acc; [contradiction|].
  cbn [check_rows]. destruct Hin as [-> | Hin].
  - now rewrite Hraise.
  - destruct (check_row template_df data_df r acc); [now apply IH | reflexivity].
Qed.

End RowWrapFacts.

Section RowWrapClaims.
Import Text Frame ColumnAddressing SheetComparator Measures.

(** X12. Row numbers below 1 are not rejected.  When both tables have [n]
    rows, asking for the single row number [k + 1] with [-n <= k < 0] (row
    number 0 is [k = -1]) gives the comparison of row number [n + k + 1],
    counted from the end, with every entry, mismatch and cell address
    carrying the row number [k + 1].  A requested row index below [-n] of
    the template makes the comparison of the sheet raise, when the column
    counts agree and the template has a column. *)
Theorem rows_below_one_wrap_or_raise
  (template_df data_df : DataFrame) (n k : Z) :
  len (rows template_df) = n -> len (rows data_df) = n ->
  (- n <= k < 0 ->
   validate_sheet SpecificRows [k] template_df data_df
   = option_map (check_at_row (k + 1))
       (validate_sheet SpecificRows [n + k] template_df data_df))
  /\ (forall rows_to_validate,
        k < - n -> In k rows_to_validate ->
        len (columns template_df) = len (columns data_df) ->
        0 < len (columns template_df) ->
        validate_sheet SpecificRows rows_to_validate template_df data_df = None).
Proof.
  intros Ht Hd. split.
  - intros Hk. unfold validate_sheet. cbn [filter]. rewrite Ht, Hd.
    destruct (Z.ltb_spec k n); [|lia].
    destruct (Z.ltb_spec (n + k) n); [|lia]. cbn [andb].
    destruct (len (columns template_df) =? len (columns data_df)).
    + cbn [check_rows].
      change (mk_comparison [] []) with (at_row (k + 1) (mk_comparison [] [])) at 1.
      rewrite (check_row_wrap template_df data_df n k Ht Hd Hk).
      destruct (check_row template_df data_df (n + k) (mk_comparison [] []))
        as [part|]; [|reflexivity].
      unfold option_map, check_at_row.
      cbn [columns_match cells sheet_valid andb]. do 2 f_equal.
      unfold at_row. cbn [text_cell_mismatches].
      now destruct (text_cell_mismatches part).
    + reflexivity.
  - intros rows_to_validate Hk Hin Hcount Hcols. unfold validate_sheet.
    apply Z.eqb_eq in Hcount. rewrite Hcount.
    rewrite (check_rows_raise template_df data_df k); [reflexivity | |].
    + intros acc. apply check_row_below; lia.
    + apply filter_In. split; [assumption|]. pose proof (len_nonneg (rows template_df)).
      pose proof (len_nonneg (rows data_df)).
      apply andb_true_iff. split; apply Z.ltb_lt; lia.
Qed.

Lemma rows_below_one_wrap_or_raise_witness :
  let template_df := mk_frame ["Tag"; "Unit"]%string
                       [[CStr "T1"; CNull]; [CStr "T2"; CStr "bar"]] in
  let data_df := mk_frame ["Tag"; "Unit"]%string
                   [[CStr "T1"; CNull]; [CStr "T2"; CStr "psi"]] in
  len (rows template_df) = 2 /\ len (rows data_df) = 2 /\ - 2 <= -1 < 0
  /\ validate_sheet SpecificRows [-1] template_df data_df
     = Some (mk_sheet_check true
               (mk_comparison
                  [mk_validated 0 "Tag" "T2" "T2" true;
                   mk_validated 0 "Unit" "bar" "psi" false]
                  [mk_mismatch ("B"%string, 0) 0 "Unit" "bar" "psi"])
               false).
Proof.
  cbv zeta.
  assert (Ht : len (rows (mk_frame ["Tag"; "Unit"]%string
                            [[CStr "T1"; CNull]; [CStr "T2"; CStr "bar"]])) = 2)
    by reflexivity.
  assert (Hd : len (rows (mk_frame ["Tag"; "Unit"]%string
                            [[CStr "T1"; CNull]; [CStr "T2"; CStr "psi"]])) = 2)
    by reflexivity.
  assert (Hk : - 2 <= -1 < 0) by lia.
  split; [exact Ht|]. split; [exact Hd|]. split; [exact Hk|].
  rewrite (proj1 (rows_below_one_wrap_or_raise _ _ 2 (-1) Ht Hd) Hk).
  reflexivity.
Defined.

End RowWrapClaims.

(** * RowCountValidator: the status of a sheet *)

Section RowCountStatus.
Import Text Frame RowCount.

Variable parse_text : string -> option datetime.
Variable parse_number : string -> option datetime.

(** X13. For a sheet whose anchor cell holds a date, the status is Correct
    exactly when the data sheet has [month * 60 * 24 * days + 7] rows, so a
    sheet with one row per minute of its month and 7 more rows is Correct
    exactly when the month is January; the number of rows of the template
    is shown but has no part in the status. *)
Theorem status_of_a_dated_sheet
  (template_sheet data_sheet : DataFrame) (anchor : cell) (ts : datetime) :
  7 <= len (rows data_sheet) ->
  iloc data_sheet 6 0 = Some anchor ->
  isna anchor = false ->
  to_datetime parse_text parse_number anchor = Some ts ->
  1 <= month ts <= 12 ->
  let days := get_days_in_month (month ts) (year ts) in
  let check := check_sheet parse_text parse_number template_sheet data_sheet in
  (check_status check = Correct
   <-> len (rows data_sheet) = month ts * 60 * 24 * days + 7)
  /\ (len (rows data_sheet) = 60 * 24 * days + 7 ->
      (check_status check = Correct <-> month ts = 1))
  /\ (forall other_template,
        check_status (check_sheet parse_text parse_number other_template data_sheet)
        = check_status check).
Proof.
  intros Hlen Hcell Hna Hts Hmonth. cbv zeta.
  pose proof (anchor_date parse_text parse_number template_sheet data_sheet anchor ts
                Hlen Hcell Hna Hts) as Hrun.
  pose proof (get_days_in_month_days_in (month ts) (year ts) Hmonth) as Hdays.
  assert (Hpos : 28 <= get_days_in_month (month ts) (year ts)).
  { unfold days_in in Hdays. lia. }
  assert (Hstatus : check_status (check_sheet parse_text parse_number
                                    template_sheet data_sheet) = Correct
                    <-> len (rows data_sheet)
                        = month ts * 60 * 24 * get_days_in_month (month ts) (year ts) + 7).
  { unfold check_sheet. rewrite Hrun. cbn [check_status].
    destruct (Z.eqb_spec (len (rows data_sheet))
                (month ts * 60 * 24 * get_days_in_month (month ts) (year ts) + 7));
      split; intros; try assumption; try reflexivity; try discriminate; contradiction. }
  split; [exact Hstatus|]. split.
  - intros Hrows. rewrite Hstatus, Hrows. split; intros H; nia.
  - intros other_template. unfold check_sheet.
    now destruct (expected_row_count parse_text parse_number data_sheet) as [[[? ?]|]|].
Qed.

End RowCountStatus.

Section RowCountStatusRuns.
Import Text Frame RowCount.

Lemma status_of_a_dated_sheet_witness :
  let no_parse := fun _ : string => @None datetime in
  let jan := mk_datetime 2026 1 9 0 0 0 in
  let sheet := one_column 7 (CTimestamp jan) in
  7 <= len (rows sheet)
  /\ iloc sheet 6 0 = Some (CTimestamp jan)
  /\ 1 <= month jan <= 12
  /\ check_status (check_sheet no_parse no_parse sheet sheet) <> Correct.
Proof.
  cbv zeta.
  pose (no_parse := fun _ : string => @None datetime).
  pose (jan := mk_datetime 2026 1 9 0 0 0).
  assert (Hlen : 7 <= len (rows (one_column 7 (CTimestamp jan)))) by (cbn; lia).
  assert (Hmonth : 1 <= month jan <= 12) by (cbn; lia).
  assert (Hcell : iloc (one_column 7 (CTimestamp jan)) 6 0 = Some (CTimestamp jan))
    by reflexivity.
  split; [exact Hlen|]. split; [exact Hcell|]. split; [exact Hmonth|].
  intros Hcorrect.
  apply (proj1 (status_of_a_dated_sheet no_parse no_parse
                  (one_column 7 (CTimestamp jan)) (one_column 7 (CTimestamp jan))
                  (CTimestamp jan) jan Hlen Hcell eq_refl eq_refl Hmonth))
    in Hcorrect.
  vm_compute in Hcorrect. discriminate.
Defined.

End RowCountStatusRuns.

(** * SheetMatcher: the sheet comparison table *)

Section SheetNameFacts.
Import SheetNames.

Lemma member_in (sheet : string) (sheets : list string) :
  member sheet sheets = true <-> In sheet sheets.
Proof.
  unfold member. rewrite existsb_exists. split.
  - intros (x & Hx & Heq). apply String.eqb_eq in Heq. now subst.
  - intros H. exists sheet. split; [assumption | apply String.eqb_refl].
Qed.

Lemma member_set_of (sheet : string) (names : list string) :
  member sheet (set_of names) = true <-> In sheet names.
Proof. rewrite member_in. unfold set_of. apply nodup_In. Qed.

Lemma insert_name_perm (sheet : string) (l : list string) :
  Permutation (insert_name sheet l) (sheet :: l).
Proof.
  induction l as [|other l IH]; cbn [insert_name]; [reflexivity|].
  destruct (String.leb sheet other); [reflexivity|].
  rewrite IH. apply perm_swap.
Qed.

Lemma sorted_perm (l : list string) : Permutation (sorted l) l.
Proof.
  induction l as [|sheet l IH]; cbn [sorted]; [reflexivity|].
  rewrite insert_name_perm. now constructor.
Qed.

Lemma insert_name_sorted (sheet : string) (l : list string) :
  Sorted (fun a b => String.leb a b = true) l ->
  Sorted (fun a b => String.leb a b = true) (insert_name sheet l).
Proof.
  induction 1 as [|other l Hl IH Hhd]; cbn [insert_name].
  - repeat constructor.
  - destruct (String.leb sheet other) eqn:Hle.
    + constructor; [now constructor | now constructor].
    + assert (Hge : String.leb other sheet = true)
        by (destruct (String.leb_total sheet other); congruence).
      constructor; [assumption|].
      destruct l as [|next l]; cbn [insert_name]; [now constructor|].
      destruct (String.leb sheet next); constructor; [assumption|].
      now inversion Hhd.
Qed.

Lemma sorted_sorted (l : list string) :
  Sorted (fun a b => String.leb a b = true) (sorted l).
Proof.
  induction l as [|sheet l IH]; cbn [sorted]; [constructor|].
  now apply insert_name_sorted.
Qed.

Lemma difference_nil (a b : list string) :
  difference a b = [] <-> forall sheet, In sheet a -> In sheet b.
Proof.
  unfold difference. induction a as [|x a IH]; cbn [filter].
  - split; [intros _ sheet [] | reflexivity].
  - destruct (member x b) eqn:Hx; cbn [negb].
    + rewrite IH. apply member_in in Hx. split.
      * intros H sheet [<- | Hin]; [assumption | now apply H].
      * intros H sheet Hin. apply H. now right.
    + split; [discriminate|]. intros H.
      specialize (H x (or_introl eq_refl)). apply member_in in H. congruence.
Qed.

Lemma message_all_match (template_names data_names : list string) :
  message (validate_sheets template_names data_names) = AllSheetsMatch
  <-> forall sheet, In sheet template_names <-> In sheet data_names.
Proof.
  unfold validate_sheets. cbn [message].
  pose proof (difference_nil (set_of template_names) (set_of data_names)) as Hmissing.
  pose proof (difference_nil (set_of data_names) (set_of template_names)) as Hextra.
  unfold set_of in *.
  destruct (difference (nodup string_dec template_names) (nodup string_dec data_names));
    destruct (difference (nodup string_dec data_names) (nodup string_dec template_names)).
  - split; [|reflexivity]. intros _ sheet.
    pose proof (proj1 Hmissing eq_refl sheet) as H1.
    pose proof (proj1 Hextra eq_refl sheet) as H2.
    rewrite !nodup_In in H1, H2. tauto.
  - split; [discriminate|]. intros H. exfalso.
    assert (Hnil : s :: l = []); [|discriminate].
    apply Hextra. intros sheet. rewrite !nodup_In. apply H.
  - split; [discriminate|]. intros H. exfalso.
    assert (Hnil : s :: l = []); [|discriminate].
    apply Hmissing. intros sheet. rewrite !nodup_In. apply H.
  - split; [discriminate|]. intros H. exfalso.
    assert (Hnil : s :: l = []); [|discriminate].
    apply Hmissing. intros sheet. rewrite !nodup_In. apply H.
Qed.

Lemma table_names (template_names data_names : list string) :
  map sheet_name (comparison_data (validate_sheets template_names data_names))
  = sorted (union (set_of template_names) (set_of data_names)).
Proof.
  unfold validate_sheets. cbn [comparison_data]. rewrite map_map. cbn [sheet_name].
  apply map_id.
Qed.

Lemma union_in (template_names data_names : list string) (sheet : string) :
  In sheet (sorted (union (set_of template_names) (set_of data_names)))
  <-> In sheet template_names \/ In sheet data_names.
Proof.
  split.
  - intros H. apply (Permutation_in _ (sorted_perm _)) in H.
    unfold union, set_of in H. rewrite nodup_In, in_app_iff, !nodup_In in H. exact H.
  - intros H. apply (Permutation_in _ (Permutation_sym (sorted_perm _))).
    unfold union, set_of. rewrite nodup_In, in_app_iff, !nodup_In. exact H.
Qed.

End SheetNameFacts.

Section SheetNameClaims.
Import SheetNames.

(** X14. The sheet comparison table has one row for every sheet name of
    either file and for no other name, without repetition and in ascending
    order of the names; a row says "in template" and "in data file"
    exactly for the files that hold its sheet, at least one of them, and
    its status is Match exactly when both do.  The message "All sheets
    match" is shown exactly when every row of the table is a Match, that
    is, when the two files hold the same sheet names. *)
Theorem sheet_table_covers_both_files (template_names data_names : list string) :
  let result := validate_sheets template_names data_names in
  let names := map sheet_name (comparison_data result) in
  (forall sheet, In sheet names <-> In sheet template_names \/ In sheet data_names)
  /\ NoDup names
  /\ Sorted (fun a b => String.leb a b = true) names
  /\ (forall row, In row (comparison_data result) ->
        (in_template row = true <-> In (sheet_name row) template_names)
        /\ (in_data_file row = true <-> In (sheet_name row) data_names)
        /\ (in_template row = true \/ in_data_file row = true)
        /\ (status_of_sheet row = Match
            <-> In (sheet_name row) template_names /\ In (sheet_name row) data_names))
  /\ (message result = AllSheetsMatch
      <-> forall row, In row (comparison_data result) -> status_of_sheet row = Match)
  /\ (message result = AllSheetsMatch
      <-> forall sheet, In sheet template_names <-> In sheet data_names).
Proof.
  cbv zeta. rewrite table_names.
  assert (Hrows : forall row,
            In row (comparison_data (validate_sheets template_names data_names)) ->
            (in_template row = true <-> In (sheet_name row) template_names)
            /\ (in_data_file row = true <-> In (sheet_name row) data_names)
            /\ (in_template row = true \/ in_data_file row = true)
            /\ (status_of_sheet row = Match
                <-> In (sheet_name row) template_names
                    /\ In (sheet_name row) data_names)).
  { intros row Hrow. unfold validate_sheets in Hrow. cbn [comparison_data] in Hrow.
    apply in_map_iff in Hrow. destruct Hrow as (sheet & <- & Hsheet).
    apply union_in in Hsheet.
    cbn [in_template in_data_file sheet_name status_of_sheet].
    rewrite <- !member_set_of in Hsheet. rewrite <- !member_set_of.
    destruct (member sheet (set_of template_names)),
             (member sheet (set_of data_names)); cbn [andb];
      repeat split; try tauto; try discriminate; intros; tauto || (exfalso; intuition discriminate). }
  split; [apply union_in|]. split; [|split; [apply sorted_sorted|]].
  - apply (Permutation_NoDup (Permutation_sym (sorted_perm _))).
    unfold union. apply NoDup_nodup.
  - split; [exact Hrows|]. split; [|apply message_all_match].
    rewrite message_all_match. split.
    + intros Hsame row Hrow. destruct (Hrows row Hrow) as (Ht & Hd & Hone & Hmatch).
      apply Hmatch. pose proof (Hsame (sheet_name row)) as H. tauto.
    + intros Hall sheet.
      assert (Hboth : In sheet template_names \/ In sheet data_names ->
                      In sheet template_names /\ In sheet data_names).
      { intros Hin. apply union_in in Hin. rewrite <- table_names in Hin.
        apply in_map_iff in Hin. destruct Hin as (row & <- & Hrow).
        apply (Hrows row Hrow). now apply Hall. }
      tauto.
Qed.

Lemma sheet_table_covers_both_files_witness :
  let result := validate_sheets ["May"; "April"; "May"]%string ["June"; "April"]%string in
  comparison_data result
  = [mk_sheet_row "April" true true Match; mk_sheet_row "June" false true Missing;
     mk_sheet_row "May" true false Missing]
  /\ message result <> AllSheetsMatch.
Proof.
  cbv zeta. split; [reflexivity|].
  intros Hmessage.
  pose proof (proj1 (proj2 (proj2 (proj2 (proj2 (proj2
                (sheet_table_covers_both_files ["May"; "April"; "May"]%string
                   ["June"; "April"]%string))))))
               Hmessage "June"%string) as Hjune.
  destruct (proj2 Hjune (or_introl eq_refl)) as [H | [H | [H | []]]]; discriminate.
Defined.

End SheetNameClaims.

(** * SensorCsv: the written records read back *)

Section CsvFacts.
Import Text Frame SensorCsv.

Lemma contains_cons (c d : ascii) (s : string) :
  contains c (String d s) = (c =? d)%char || contains c s.
Proof. reflexivity. Qed.


Lemma absent_head (c d : ascii) (s : string) :
  contains c (String d s) = false -> (d =? c)%char = false /\ contains c s = false.
Proof.
  rewrite contains_cons. intros H. apply orb_false_elim in H.
  destruct H as [Hcd Hs]. split; [|assumption]. now rewrite Ascii.eqb_sym.
Qed.






Lemma join_cons (sep part next : string) (rest : list string) :
  join sep (part :: next :: rest) = (part ++ sep ++ join sep (next :: rest))%string.
Proof. reflexivity. Qed.







(** The decimal digits hold no comma, quote or line feed. *)
Lemma digit_char_plain (n : Z) (c : ascii) :
  c = comma \/ c = quote \/ c = newline ->
  (c =? digit_char (n mod 10))%char = false.
Proof.
  intros Hc. pose proof (Z.mod_pos_bound n 10 ltac:(lia)) as Hr.
  assert (Hcases : n mod 10 = 0 \/ n mod 10 = 1 \/ n mod 10 = 2 \/ n mod 10 = 3
                   \/ n mod 10 = 4 \/ n mod 10 = 5 \/ n mod 10 = 6 \/ n mod 10 = 7
                   \/ n mod 10 = 8 \/ n mod 10 = 9) by lia.
  destruct Hc as [-> | [-> | ->]];
    repeat (destruct Hcases as [-> | Hcases]; [reflexivity|]);
    rewrite Hcases; reflexivity.
Qed.

Lemma decimal_loop_plain (c : ascii) (fuel : nat) :
  c = comma \/ c = quote \/ c = newline ->
  forall n digits,
    contains c digits = false -> contains c (decimal_loop fuel n digits) = false.
Proof.
  intros Hc. induction fuel as [|fuel IH]; intros n digits Hdigits; [assumption|].
  cbn [decimal_loop].
  assert (Hnext : contains c (String (digit_char (n mod 10)) digits) = false).
  { rewrite contains_cons, Hdigits, digit_char_plain by assumption. reflexivity. }
  destruct (n / 10 =? 0); [assumption | now apply IH].
Qed.






Lemma split_commas_not_empty (s : string) : split_commas s <> [].
Proof.
  induction s as [|c s IH]; cbn [split_commas]; [discriminate|].
  destruct (c =? comma)%char; [discriminate|].
  destruct (split_commas s); discriminate.
Qed.



End CsvFacts.

Section CsvClaims.
Import Text Frame SensorCsv.

Variable format_timestamp : cell -> string.


End CsvClaims.

Section CsvRuns.
Import Text Frame SensorCsv.


End CsvRuns.

(** * TimestampFormat: the patterns that decide *)

Section TimestampFacts.
Import Text Frame Strptime TimestampFormat.

(** A run of white space in a pattern stands for one run of white space
    in the text, whatever its length. *)
Lemma double_space_seconds (text : string) :
  strptime text "%m/%d/%Y  %I:%M:%S %p" = strptime text "%m/%d/%Y %I:%M:%S %p".
Proof. reflexivity. Qed.

Lemma double_space_minutes (text : string) :
  strptime text "%m/%d/%Y  %I:%M %p" = strptime text "%m/%d/%Y %I:%M %p".
Proof. reflexivity. Qed.

End TimestampFacts.

Section TimestampClaims.
Import Text Frame Strptime TimestampFormat.

Variable strftime : datetime -> string.
Variable text_to_datetime : string -> option datetime.
Variable number_to_datetime : string -> option datetime.

(** X16. The two patterns written with a double space never decide: each
    parses exactly the texts of its single-space twin, which is tried
    before it, with the same value; so [format_timestamp] renders a text
    as it would with the eight other patterns alone. *)
Theorem double_space_patterns_never_decide :
  (forall text,
     strptime text "%m/%d/%Y  %I:%M:%S %p" = strptime text "%m/%d/%Y %I:%M:%S %p"
     /\ strptime text "%m/%d/%Y  %I:%M %p" = strptime text "%m/%d/%Y %I:%M %p")
  /\ (forall text,
        try_formats formats_to_try text = try_formats single_space_formats text)
  /\ (forall text,
        format_timestamp strftime text_to_datetime number_to_datetime (CStr text)
        = match try_formats single_space_formats (strip text) with
          | Some dt => strftime dt
          | None =>
              match text_to_datetime text with
              | Some dt => strftime dt
              | None => text
              end
          end).
Proof.
  assert (Hsame : forall text,
            try_formats formats_to_try text = try_formats single_space_formats text).
  { intros text. unfold formats_to_try, single_space_formats.
    cbn [try_formats]. rewrite double_space_seconds, double_space_minutes.
    destruct (strptime text "%m/%d/%Y %I:%M:%S %p"); [reflexivity|].
    destruct (strptime text "%m/%d/%Y %H:%M:%S"); [reflexivity|].
    destruct (strptime text "%Y-%m-%d %H:%M:%S"); [reflexivity|].
    destruct (strptime text "%m/%d/%Y %I:%M %p"); reflexivity. }
  split; [|split].
  - intros text. split; [apply double_space_seconds | apply double_space_minutes].
  - exact Hsame.
  - intros text. cbn [format_timestamp]. now rewrite Hsame.
Qed.

End TimestampClaims.

(** * Decimal numerals *)

Section DecimalFacts.
Import Text Frame SensorCsv RowInput.

Lemma digit_char_digit (n : Z) :
  isdigit (digit_char (n mod 10)) = true
  /\ ord (digit_char (n mod 10)) - 48 = n mod 10.
Proof.
  pose proof (Z.mod_pos_bound n 10 ltac:(lia)) as Hr.
  unfold digit_char, isdigit. rewrite ord_chr by lia.
  split; [|lia]. unfold between. apply andb_true_iff. split; apply Z.leb_le; lia.
Qed.

Lemma decimal_loop_digits (fuel : nat) :
  forall n digits,
    Forall (fun c => isdigit c = true) (chars digits) ->
    Forall (fun c => isdigit c = true) (chars (decimal_loop fuel n digits)).
Proof.
  induction fuel as [|fuel IH]; intros n digits Hdigits; [assumption|].
  cbn [decimal_loop].
  assert (Hnext : Forall (fun c => isdigit c = true)
                    (chars (String (digit_char (n mod 10)) digits))).
  { cbn [chars]. constructor; [apply digit_char_digit | assumption]. }
  destruct (n / 10 =? 0); [assumption | now apply IH].
Qed.

Lemma decimal_digits (n : Z) : Forall (fun c => isdigit c = true) (chars (decimal n)).
Proof. apply decimal_loop_digits. constructor. Qed.

Lemma decimal_loop_not_empty (fuel : nat) (n : Z) (digits : string) :
  decimal_loop (S fuel) n digits <> String.EmptyString.
Proof.
  revert n digits. induction fuel as [|fuel IH]; intros n digits.
  - cbn [decimal_loop]. destruct (n / 10 =? 0); discriminate.
  - change (decimal_loop (S (S fuel)) n digits)
      with (if n / 10 =? 0 then String (digit_char (n mod 10)) digits
            else decimal_loop (S fuel) (n / 10) (String (digit_char (n mod 10)) digits)).
    destruct (n / 10 =? 0); [discriminate | apply IH].
Qed.

Lemma decimal_not_empty (n : Z) : decimal n <> String.EmptyString.
Proof. apply decimal_loop_not_empty. Qed.

(** Reading the digits written for [n] gives [n]. *)
Lemma digits_value_decimal_loop (fuel : nat) :
  forall n digits,
    0 <= n -> (Z.to_nat n < fuel)%nat ->
    digits_value false 0 (chars (decimal_loop fuel n digits))
    = digits_value true n (chars digits).
Proof.
  induction fuel as [|fuel IH]; intros n digits Hn Hfuel; [lia|].
  cbn [decimal_loop].
  pose proof (Z.div_mod n 10 ltac:(lia)) as Hdm.
  pose proof (Z.mod_pos_bound n 10 ltac:(lia)) as Hr.
  destruct (digit_char_digit n) as [Hdigit Hord].
  destruct (Z.eqb_spec (n / 10) 0) as [Hq | Hq].
  - cbn [chars digits_value]. rewrite Hdigit, Hord. f_equal. lia.
  - assert (0 < n / 10) by (pose proof (Z.div_pos n 10); lia).
    rewrite IH by lia. cbn [chars digits_value]. rewrite Hdigit, Hord.
    f_equal. lia.
Qed.

Lemma digits_value_decimal (n : Z) :
  0 <= n -> digits_value false 0 (chars (decimal n)) = Some n.
Proof.
  intros Hn. unfold decimal. rewrite digits_value_decimal_loop by lia. reflexivity.
Qed.


Lemma digit_not_space (c : ascii) : isdigit c = true -> isspace c = false.
Proof.
  unfold isdigit, isspace, between. intros H.
  apply andb_true_iff in H. destruct H as [H1 H2].
  apply Z.leb_le in H1. apply Z.leb_le in H2.
  repeat match goal with
         | |- context [?a <=? ?b] => destruct (Z.leb_spec a b); try lia
         | |- context [?a =? ?b] => destruct (Z.eqb_spec a b); try lia
         end; reflexivity.
Qed.

Lemma rstrip_plain (s : string) :
  Forall (fun c => isspace c = false) (chars s) -> rstrip s = s.
Proof.
  induction s as [|c s IH]; intros H; [reflexivity|].
  cbn [chars] in H. inversion H as [|? ? Hc Hs]; subst.
  cbn [rstrip]. rewrite (IH Hs), Hc. now destruct s.
Qed.

Lemma strip_plain (s : string) :
  Forall (fun c => isspace c = false) (chars s) -> strip s = s.
Proof.
  intros H. unfold strip.
  assert (Hl : lstrip s = s).
  { destruct s as [|c s]; [reflexivity|]. cbn [chars] in H.
    inversion H as [|? ? Hc _]; subst. cbn [lstrip]. now rewrite Hc. }
  rewrite Hl. now apply rstrip_plain.
Qed.

Lemma strip_decimal (n : Z) : strip (decimal n) = decimal n.
Proof.
  apply strip_plain. eapply Forall_impl; [|apply decimal_digits].
  intros c. apply digit_not_space.
Qed.

Lemma int_of_decimal (n : Z) : 0 <= n -> int_of (decimal n) = Some n.
Proof.
  intros Hn. unfold int_of. rewrite strip_decimal.
  pose proof (digits_value_decimal n Hn) as Hvalue.
  pose proof (decimal_digits n) as Hdigits.
  destruct (chars (decimal n)) as [|c rest]; [discriminate|].
  inversion Hdigits as [|? ? Hc _]; subst.
  assert (Hminus : (c =? "-")%char = false).
  { apply Ascii.eqb_neq. intros ->. discriminate. }
  assert (Hplus : (c =? "+")%char = false).
  { apply Ascii.eqb_neq. intros ->. discriminate. }
  now rewrite Hminus, Hplus.
Qed.

Lemma int_of_minus (n : Z) : 0 <= n -> int_of (String "-" (decimal n)) = Some (- n).
Proof.
  intros Hn. unfold int_of. rewrite strip_plain.
  - cbn [chars]. rewrite Ascii.eqb_refl. now rewrite digits_value_decimal.
  - cbn [chars]. constructor; [reflexivity|].
    eapply Forall_impl; [|apply decimal_digits]. intros c. apply digit_not_space.
Qed.

End DecimalFacts.

(** * RowInput: the text of the rows *)

Section RowInputFacts.
Import Text Frame SensorCsv RowInput.

Lemma split_commas_app (before after : string) :
  split_commas (before ++ String comma after)
  = split_commas before ++ split_commas after.
Proof.
  induction before as [|c before IH]; cbn [append split_commas].
  - reflexivity.
  - destruct (c =? comma)%char; [now rewrite IH|].
    rewrite IH. pose proof (split_commas_not_empty before) as Hne.
    destruct (split_commas before); [contradiction | reflexivity].
Qed.

Lemma split_commas_plain (s : string) :
  contains comma s = false -> split_commas s = [s].
Proof.
  induction s as [|c s IH]; intros H; [reflexivity|].
  apply absent_head in H. destruct H as [Hc Hs].
  cbn [split_commas]. rewrite Hc, (IH Hs). reflexivity.
Qed.

Lemma split_commas_join (parts : list string) :
  parts <> [] ->
  (forall part, In part parts -> contains comma part = false) ->
  split_commas (join "," parts) = parts.
Proof.
  induction parts as [|part parts IH]; intros Hne Hplain; [contradiction|].
  destruct parts as [|next parts].
  - cbn [join]. apply split_commas_plain. apply Hplain. now left.
  - rewrite join_cons. cbn [append].
    change (part ++ String "," (join "," (next :: parts)))%string
      with (part ++ String comma (join "," (next :: parts)))%string.
    rewrite split_commas_app, split_commas_plain by (apply Hplain; now left).
    rewrite IH; [reflexivity | discriminate |].
    intros p Hp. apply Hplain. now right.
Qed.

Lemma rows_of_app (items more : list string) :
  rows_of (items ++ more)
  = match rows_of items, rows_of more with
    | Some rows, Some tail => Some (rows ++ tail)
    | _, _ => None
    end.
Proof.
  induction items as [|r items IH]; cbn [app rows_of].
  - now destruct (rows_of more).
  - destruct (strip r =? String.EmptyString)%string; [exact IH|].
    destruct (int_of (strip r)) as [n|]; [|reflexivity].
    rewrite IH. destruct (rows_of items); [|reflexivity].
    now destruct (rows_of more).
Qed.

Lemma decimal_no_comma (n : Z) : contains comma (decimal n) = false.
Proof. unfold decimal. apply decimal_loop_plain; [now left | reflexivity]. Qed.

Lemma rows_of_decimals (rows : list Z) :
  Forall (fun r => 0 <= r) rows ->
  rows_of (map decimal rows) = Some (map (fun r => r - 1) rows).
Proof.
  induction 1 as [|r rows Hr _ IH]; [reflexivity|].
  cbn [map rows_of]. rewrite strip_decimal.
  destruct (String.eqb_spec (decimal r) String.EmptyString) as [Hempty|_].
  - now apply decimal_not_empty in Hempty.
  - now rewrite int_of_decimal, IH.
Qed.

End RowInputFacts.

Section RowInputClaims.
Import Text Frame SensorCsv RowInput.

(** X17. The text of the rows reads back: row numbers that are not
    negative, written in decimal and joined by commas, give the list of
    their indices, each number less one.  Numbers below 1 are accepted as
    well: a minus sign in front of a number gives its negative less one
    (and the number 0 the index -1).  An empty item between two commas is
    passed over. *)
Theorem row_input_round_trip :
  (forall rows,
     Forall (fun r => 0 <= r) rows ->
     parse_rows (join "," (map decimal rows)) = Some (map (fun r => r - 1) rows))
  /\ (forall n, 0 <= n -> parse_rows (String "-" (decimal n)) = Some [- n - 1])
  /\ (forall before after,
        parse_rows (before ++ String comma (String comma after))
        = parse_rows (before ++ String comma after)).
Proof.
  split; [|split].
  - intros rows Hrows. unfold parse_rows.
    destruct rows as [|r rows]; [reflexivity|].
    rewrite split_commas_join.
    + now apply rows_of_decimals.
    + discriminate.
    + intros part Hpart. apply in_map_iff in Hpart.
      destruct Hpart as (n & <- & _). apply decimal_no_comma.
  - intros n Hn. unfold parse_rows.
    rewrite split_commas_plain.
    + cbn [rows_of].
      assert (Hstrip : strip (String "-" (decimal n)) = String "-" (decimal n)).
      { apply strip_plain. cbn [chars]. constructor; [reflexivity|].
        eapply Forall_impl; [|apply decimal_digits]. intros c. apply digit_not_space. }
      rewrite Hstrip. cbn [String.eqb Ascii.eqb].
      replace (String "-" (decimal n) =? String.EmptyString)%string with false
        by reflexivity.
      rewrite int_of_minus by assumption. cbn [rows_of]. reflexivity.
    + rewrite contains_cons, decimal_no_comma. reflexivity.
  - intros before after. unfold parse_rows.
    rewrite !split_commas_app, !rows_of_app.
    change (split_commas (String comma after))
      with (String.EmptyString :: split_commas after).
    reflexivity.
Qed.

Lemma row_input_round_trip_witness :
  Forall (fun r => 0 <= r) [5; 6; 0; 12]
  /\ parse_rows "5,6,0,12" = Some [4; 5; -1; 11].
Proof.
  assert (Hrows : Forall (fun r => 0 <= r) [5; 6; 0; 12])
    by (repeat constructor; lia).
  split; [exact Hrows|].
  exact (proj1 row_input_round_trip [5; 6; 0; 12] Hrows).
Defined.

End RowInputClaims.

(** * CsvExport: the files of an export *)

Section ExportFacts.
Import Text Frame SensorCsv RowInput CsvExport.











Section Files.

Variable format_timestamp : cell -> string.




End Files.

End ExportFacts.

Section ExportClaims.
Import Text Frame SensorCsv RowInput CsvExport.

Variable format_timestamp : cell -> string.


End ExportClaims.

Section ExportRuns.
Import Text Frame SensorCsv RowInput CsvExport.


End ExportRuns.

(** * Summary: the figures of a run *)

Section SummaryFacts.
Import Text Frame ColumnAddressing DataValidation Measures Summary.

Lemma total_issues_split (r : results) :
  total_issues r
  = issue_count datetime_categories r + issue_count cell_categories r.
Proof.
  unfold total_issues, datetime_categories, cell_categories. cbn [issue_count]. lia.
Qed.

Lemma total_issues_zero (r : results) :
  (forall k, issues r k = []) -> total_issues r = 0.
Proof. intros H. unfold total_issues. now rewrite !H. Qed.

Lemma total_issues_positive (r : results) (k : category) :
  issues r k <> [] -> 1 <= total_issues r.
Proof.
  intros Hk.
  assert (Hlen : 1 <= len (issues r k)).
  { destruct (issues r k); [contradiction|]. unfold len. cbn [List.length]. lia. }
  unfold total_issues.
  pose proof (len_nonneg (issues r datetime_issues)).
  pose proof (len_nonneg (issues r datetime_format_issues)).
  pose proof (len_nonneg (issues r datetime_sequence_issues)).
  pose proof (len_nonneg (issues r numeric_issues)).
  pose proof (len_nonneg (issues r null_issues)).
  pose proof (len_nonneg (issues r special_char_issues)).
  pose proof (len_nonneg (issues r alphabetical_issues)).
  pose proof (len_nonneg (issues r empty_cell_issues)).
  destruct k; lia.
Qed.

Lemma filter_all {A} (f : A -> bool) (l : list A) :
  len (filter f l) <= len l
  /\ (len (filter f l) = len l <-> forallb f l = true).
Proof.
  induction l as [|a l [IHle IHiff]]; [split; [reflexivity | split; reflexivity]|].
  cbn [filter forallb]. destruct (f a); cbn [andb].
  - unfold len in *. cbn [List.length]. split; [lia|].
    rewrite <- IHiff. split; lia.
  - unfold len in *. cbn [List.length]. split; [lia|].
    split; [lia | discriminate].
Qed.

End SummaryFacts.

Section SummaryClaims.
Import Text Frame ColumnAddressing DataValidation Measures Summary.

(** X19. After a run that returns, "Total Sheets" is the number of sheets
    of the workbook and the valid and invalid sheets add up to it; the run
    is reported valid exactly when "Invalid Sheets" is 0; and the summary
    of a sheet either says that all checks passed, the sheet holding no
    issue, or shows a total of issues that is at least 1 and at most the
    rows validated plus the cells validated. *)
Theorem summary_figures_agree cfg (data_to_validate : list (string * DataFrame))
        (validation_results : list (string * results)) (all_valid : bool) :
  1 <= datetime_start_row cfg -> 1 <= numeric_start_row cfg ->
  validate_data cfg data_to_validate = Some (Validated validation_results all_valid) ->
  total_sheets validation_results = len data_to_validate
  /\ 0 <= valid_sheets validation_results <= total_sheets validation_results
  /\ (all_valid = true <-> invalid_sheets validation_results = 0)
  /\ forall entry, In entry validation_results ->
       match display_sheet_summary (snd entry) with
       | AllChecksPassed => total_issues (snd entry) = 0
       | IssuesFound n =>
           n = total_issues (snd entry)
           /\ 1 <= n <= total_rows_validated (snd entry)
                        + total_cells_validated (snd entry)
       end.
Proof.
  intros Hdate_row Hnum_row. unfold validate_data, convert_columns.
  destruct (validate_sheets _ _ _ _ _) as [entries|] eqn:Hrun; [|discriminate].
  intros [= <- <-]. apply validate_sheets_entries in Hrun.
  destruct (filter_all (fun entry : string * results => is_valid (snd entry)) entries)
    as [Hle Hiff].
  split; [|split; [|split]].
  - unfold total_sheets, len. f_equal. symmetry. eapply Forall2_length. exact Hrun.
  - unfold valid_sheets, total_sheets. split; [apply len_nonneg | exact Hle].
  - unfold invalid_sheets, valid_sheets, total_sheets. rewrite <- Hiff. lia.
  - induction Hrun as [|sheet entry sheets entries [_ Hsheet] _ IH];
      intros e He; [contradiction|].
    destruct He as [<- | He].
    2:{ apply IH; [| | assumption].
        - destruct (filter_all (fun entry : string * results => is_valid (snd entry))
                      entries) as [H _]. exact H.
        - apply (filter_all (fun entry : string * results => is_valid (snd entry))
                   entries). }
    pose proof (validity_validate_sheet _ _ _ _ _ _ Hsheet) as [Hvalid Hinvalid].
    destruct (validate_sheet_counts _ _ _ _ _ _ Hdate_row Hnum_row Hsheet)
      as (_ & _ & Hrows & Hcells).
    unfold display_sheet_summary. destruct (is_valid (snd entry)).
    + apply total_issues_zero. now apply Hvalid.
    + split; [reflexivity|]. destruct (Hinvalid eq_refl) as [k Hk]. split.
      * now apply (total_issues_positive _ k).
      * rewrite total_issues_split. lia.
Qed.

Lemma summary_figures_agree_witness :
  exists validation_results all_valid,
    1 <= datetime_start_row sample_config
    /\ 1 <= numeric_start_row sample_config
    /\ validate_data sample_config [("Sheet1"%string, sample_sheet)]
       = Some (Validated validation_results all_valid)
    /\ total_sheets validation_results = 1
    /\ invalid_sheets validation_results <> 0.
Proof.
  destruct (validate_data sample_config [("Sheet1"%string, sample_sheet)])
    as [[|validation_results all_valid]|] eqn:Hrun;
    [vm_compute in Hrun; discriminate | | vm_compute in Hrun; discriminate].
  assert (Hdate_row : 1 <= datetime_start_row sample_config) by (cbn; lia).
  assert (Hnum_row : 1 <= numeric_start_row sample_config) by (cbn; lia).
  exists validation_results, all_valid.
  split; [exact Hdate_row|]. split; [exact Hnum_row|]. split; [reflexivity|].
  destruct (summary_figures_agree _ _ _ _ Hdate_row Hnum_row Hrun)
    as (Htotal & _ & Hvalid & _).
  split; [exact Htotal|].
  intros Hzero. apply Hvalid in Hzero.
  vm_compute in Hrun. injection Hrun as _ Hall. congruence.
Defined.

End SummaryClaims.

(** * CellValidation: the sheets that are compared *)

Section CellValidationFacts.
Import Text Frame SheetNames SheetComparator RowInput CellValidation.

Lemma intersection_in (a b : list string) (sheet : string) :
  In sheet (intersection a b) <-> In sheet a /\ In sheet b.
Proof.
  unfold intersection. rewrite filter_In, member_in. reflexivity.
Qed.

Lemma lookup_in (sheet : string) (sheet_data : list (string * DataFrame)) :
  In sheet (map fst sheet_data) ->
  exists df, lookup sheet sheet_data = Some df /\ In (sheet, df) sheet_data.
Proof.
  induction sheet_data as [|[name df] rest IH]; intros Hin; [contradiction|].
  cbn [lookup]. destruct (String.eqb_spec name sheet) as [-> | Hne].
  - exists df. split; [reflexivity | now left].
  - destruct Hin as [Hin | Hin]; [cbn in Hin; contradiction|].
    destruct (IH Hin) as (df' & Hlook & Hmem). exists df'. split; [assumption | now right].
Qed.

Lemma check_sheets_names mode rows_to_validate template_data data_to_validate
      (sheets : list string) :
  forall checked,
    check_sheets mode rows_to_validate template_data data_to_validate sheets
    = Some checked ->
    map fst checked = sheets.
Proof.
  induction sheets as [|sheet rest IH]; intros checked; cbn [check_sheets].
  - now intros [= <-].
  - destruct (lookup sheet template_data) as [template_df|]; [|discriminate].
    destruct (lookup sheet data_to_validate) as [data_df|]; [|discriminate].
    destruct (SheetComparator.validate_sheet _ _ _ _) as [check|]; [|discriminate].
    destruct (check_sheets _ _ _ _ rest) as [tail|]; [|discriminate].
    intros [= <-]. cbn [map fst]. f_equal. now apply IH.
Qed.

(** The sheets of a workbook compared with themselves are all valid. *)
Lemma check_sheets_same mode rows_to_validate (workbook : list (string * DataFrame))
      (sheets : list string) :
  (forall sheet, In sheet workbook -> rectangular (snd sheet)) ->
  Forall (fun r => 0 <= r) rows_to_validate ->
  (forall sheet, In sheet sheets -> In sheet (map fst workbook)) ->
  exists checked,
    check_sheets mode rows_to_validate workbook workbook sheets = Some checked
    /\ forallb (fun entry => sheet_valid (snd entry)) checked = true.
Proof.
  intros Hrect Hrows. induction sheets as [|sheet rest IH]; intros Hsheets.
  - exists []. split; reflexivity.
  - cbn [check_sheets].
    destruct (lookup_in sheet workbook (Hsheets sheet (or_introl eq_refl)))
      as (df & -> & Hmem).
    destruct (self_comparison_valid mode rows_to_validate df
                (Hrect (sheet, df) Hmem) Hrows) as (check & -> & Hvalid).
    destruct IH as (tail & -> & Htail).
    { intros s Hs. apply Hsheets. now right. }
    eexists. split; [reflexivity|]. cbn [forallb snd]. now rewrite Hvalid, Htail.
Qed.

Lemma common_sheets_in (template_data data_to_validate : list (string * DataFrame))
      (sheet : string) :
  In sheet (sorted (intersection (set_of (map fst template_data))
                                 (set_of (map fst data_to_validate))))
  <-> In sheet (map fst template_data) /\ In sheet (map fst data_to_validate).
Proof.
  split.
  - intros H. apply (Permutation_in _ (sorted_perm _)) in H.
    apply intersection_in in H. unfold set_of in H. now rewrite !nodup_In in H.
  - intros H. apply (Permutation_in _ (Permutation_sym (sorted_perm _))).
    apply intersection_in. unfold set_of. now rewrite !nodup_In.
Qed.

End CellValidationFacts.

Section CellValidationClaims.
Import Text Frame SheetNames SheetComparator RowInput CellValidation.

(** X20. When the comparison of two workbooks ends with its checks, the
    sheets checked are exactly the sheets that both workbooks hold, each
    once and in ascending order of the names (a sheet that one workbook
    lacks takes no part), and the whole is reported valid exactly when
    every checked sheet is.  A workbook of rectangular sheets, one at
    least, compared with itself is reported valid, for all rows and for
    every text of row numbers that reads as numbers from 1 on. *)
Theorem cell_validation_of_common_sheets :
  (forall mode row_input template_data data_to_validate checked all_valid,
     validate_columns_and_cells mode row_input template_data data_to_validate
     = Some (Checked checked all_valid) ->
     (forall sheet, In sheet (map fst checked)
                    <-> In sheet (map fst template_data)
                        /\ In sheet (map fst data_to_validate))
     /\ NoDup (map fst checked)
     /\ Sorted (fun a b => String.leb a b = true) (map fst checked)
     /\ (all_valid = true
         <-> forall entry, In entry checked -> sheet_valid (snd entry) = true))
  /\ (forall mode row_input (workbook : list (string * DataFrame)),
        workbook <> [] ->
        (forall sheet, In sheet workbook -> rectangular (snd sheet)) ->
        (mode = SpecificRows ->
         exists rows, parse_rows row_input = Some rows
                      /\ Forall (fun r => 0 <= r) rows) ->
        exists checked,
          validate_columns_and_cells mode row_input workbook workbook
          = Some (Checked checked true)).
Proof.
  split.
  - intros mode row_input template_data data_to_validate checked all_valid.
    unfold validate_columns_and_cells.
    destruct (match mode with
              | SpecificRows => parse_rows row_input
              | AllRows => Some []
              end) as [rows_to_validate|]; [|discriminate].
    cbv zeta.
    destruct (intersection (set_of (map fst template_data))
                           (set_of (map fst data_to_validate))) as [|first others] eqn:Hcommon;
      [discriminate|].
    rewrite <- Hcommon.
    destruct (check_sheets _ _ _ _ _) as [found|] eqn:Hrun; [|discriminate].
    intros [= <- <-]. apply check_sheets_names in Hrun. rewrite Hrun.
    split; [apply common_sheets_in|]. split; [|split].
    + apply (Permutation_NoDup (Permutation_sym (sorted_perm _))).
      unfold intersection. apply NoDup_filter. unfold set_of. apply NoDup_nodup.
    + apply sorted_sorted.
    + rewrite forallb_forall. reflexivity.
  - intros mode row_input workbook Hworkbook Hrect Hrows.
    unfold validate_columns_and_cells.
    assert (Hparsed : exists rows_to_validate,
              match mode with
              | SpecificRows => parse_rows row_input
              | AllRows => Some []
              end = Some rows_to_validate
              /\ Forall (fun r => 0 <= r) rows_to_validate).
    { destruct mode; [now apply Hrows | exists []; split; [reflexivity | constructor]]. }
    destruct Hparsed as (rows_to_validate & -> & Hnonneg). cbv zeta.
    destruct (intersection (set_of (map fst workbook)) (set_of (map fst workbook)))
      as [|first others] eqn:Hcommon.
    + exfalso. destruct workbook as [|[name df] rest]; [contradiction|].
      assert (Hin : In name (intersection (set_of (map fst ((name, df) :: rest)))
                                          (set_of (map fst ((name, df) :: rest))))).
      { apply intersection_in. unfold set_of. rewrite nodup_In. split; now left. }
      rewrite Hcommon in Hin. contradiction.
    + rewrite <- Hcommon.
      destruct (check_sheets_same mode rows_to_validate workbook
                  (sorted (intersection (set_of (map fst workbook))
                                        (set_of (map fst workbook))))
                  Hrect Hnonneg) as (checked & -> & Hvalid).
      { intros sheet Hsheet. apply common_sheets_in in Hsheet. tauto. }
      exists checked. now rewrite Hvalid.
Qed.

Lemma cell_validation_of_common_sheets_witness :
  let workbook :=
    [("May"%string, mk_frame ["Tag"; "Unit"]%string [[CStr "T1"; CStr "bar"]]);
     ("April"%string, mk_frame ["Tag"]%string [[CNull]; [CStr "T2"]])] in
  workbook <> []
  /\ (exists rows, parse_rows "1, 2,,7"%string = Some rows /\ Forall (fun r => 0 <= r) rows)
  /\ exists checked,
       validate_columns_and_cells SpecificRows "1, 2,,7"%string workbook workbook
       = Some (Checked checked true).
Proof.
  cbv zeta.
  pose (workbook :=
          [("May"%string, mk_frame ["Tag"; "Unit"]%string [[CStr "T1"; CStr "bar"]]);
           ("April"%string, mk_frame ["Tag"]%string [[CNull]; [CStr "T2"]])]).
  assert (Hworkbook : workbook <> []) by discriminate.
  assert (Hrows : exists rows, parse_rows "1, 2,,7"%string = Some rows
                               /\ Forall (fun r => 0 <= r) rows).
  { exists [0; 1; 6]. split; [reflexivity | repeat constructor; lia]. }
  assert (Hrect : forall sheet, In sheet workbook -> rectangular (snd sheet)).
  { intros sheet [<- | [<- | []]]; repeat constructor. }
  split; [exact Hworkbook|]. split; [exact Hrows|].
  exact (proj2 cell_validation_of_common_sheets SpecificRows "1, 2,,7"%string workbook
           Hworkbook Hrect (fun _ => Hrows)).
Defined.

End CellValidationClaims.
